(** * HetioNet client: graph store, ingestion, queries and the disease cache

    A shallow embedding of [src/hetionet_client.py] (class [HetioNetDB]).

    The Python methods run against two external stores: a Neo4j property
    graph, driven through Cypher text, and a MongoDB collection.  Both stores
    are modelled as explicit state ([graph], and a finite map of documents),
    threaded through a small state-and-exception monad [Py] that plays the
    role of [self].  Every Cypher statement of the source is given as one
    definition carrying the statement's text in its comment.

    Conventions of the model:
    - strings are ASCII ([str.upper] is modelled on ASCII letters);
    - a Cypher value that may be [null] and a Python value that may be [None]
      are [option string];
    - a node is identified by its position in [g_nodes] (nodes are never
      deleted);
    - [kind] and [rel_type] reach Cypher as text spliced into the statement
      ([spliced]): a plain name is read as the label or type; a text that
      cannot stand where a name is expected makes the server refuse the
      statement ([Neo4jError]); about any other text (a colon, a backtick, a
      bracket, pattern syntax) the model says nothing ([Unmodelled]);
    - [time.time()] reads successive values from a clock oracle, in units of
      10 microseconds, so that [round(elapsed * 1000, 2)] is the difference of
      two readings, in hundredths of a millisecond. *)

From Stdlib Require Import String Ascii List Arith Lia Permutation ZArith Sorted.
From stdpp Require Import gmap strings list fin_maps pretty.

Open Scope string_scope.
Open Scope list_scope.

#[local] Set Warnings "-clear-no-such-hyp".

(** ** Python values and helpers *)

(** [a or b] on values that are [None] or a [str]: the empty string and
    [None] are falsy. *)
Definition py_or (a b : option string) : option string :=
  match a with
  | None => b
  | Some EmptyString => b
  | Some _ => a
  end.

(** [f"{v}"] for a value that is [None] or a [str]. *)
Definition py_str (v : option string) : string :=
  match v with
  | None => "None"
  | Some s => s
  end.

(** [s.replace(old, new)] where [old] is a single character, the only form
    the source uses. *)
Fixpoint str_replace (old : ascii) (new : string) (s : string) : string :=
  match s with
  | EmptyString => EmptyString
  | String c s' =>
      if Ascii.eqb c old then new +:+ str_replace old new s'
      else String c (str_replace old new s')
  end.

Definition ascii_upper (c : ascii) : ascii :=
  let n := nat_of_ascii c in
  if (97 <=? n)%nat && (n <=? 122)%nat then ascii_of_nat (n - 32) else c.

(** [s.upper()] on ASCII text. *)
Fixpoint str_upper (s : string) : string :=
  match s with
  | EmptyString => EmptyString
  | String c s' => String (ascii_upper c) (str_upper s')
  end.

(** [d.get(k, default)] for a dict literal, kept as its list of items. *)
Fixpoint dict_get (d : list (string * string)) (k : string) (default : string) : string :=
  match d with
  | [] => default
  | (k', v) :: d' => if String.eqb k k' then v else dict_get d' k default
  end.

Fixpoint dict_lookup (d : list (string * string)) (k : string) : option string :=
  match d with
  | [] => None
  | (k', v) :: d' => if String.eqb k k' then Some v else dict_lookup d' k
  end.

(** The loop body
    [if k not in d: d[k] = []] followed by [d[k].append(v)]
    on a dict, which iterates in insertion order. *)
Fixpoint setdefault_append {K V : Type} `{EqDecision K}
    (k : K) (v : V) (d : list (K * list V)) : list (K * list V) :=
  match d with
  | [] => [(k, [v])]
  | (k', vs) :: d' =>
      if decide (k = k') then (k', vs ++ [v]) :: d'
      else (k', vs) :: setdefault_append k v d'
  end.

(** Grouping a sequence of items by key, groups in order of first
    appearance, items in input order within a group. *)
Definition group_by_key {K V : Type} `{EqDecision K}
    (items : list (K * V)) : list (K * list V) :=
  fold_left (λ d kv, setdefault_append (fst kv) (snd kv) d) items [].

(** ** TypeRegistry: [_parse_metaedge] *)

Definition mapping : list (string * string) :=
  [ ("GiG", "INTERACTS");
    ("GrG", "REGULATES");
    ("GcG", "COVARIES");
    ("CtD", "TREATS");
    ("CpD", "PALLIATES");
    ("CuG", "UPREGULATES");
    ("CdG", "DOWNREGULATES");
    ("CbG", "BINDS");
    ("DaG", "ASSOCIATES");
    ("DuG", "UPREGULATES");
    ("DdG", "DOWNREGULATES");
    ("DlA", "LOCALIZES_TO");
    ("AuG", "UPREGULATES");
    ("AdG", "DOWNREGULATES");
    ("AeG", "EXPRESSES");
    ("CRC", "RESEMBLES");
    ("DRD", "RESEMBLES");
    ("GRG", "REGULATES") ].

(** [metaedge.replace('>', '').replace('<', '')] *)
Definition clean (metaedge : string) : string :=
  str_replace "<" "" (str_replace ">" "" metaedge).

Definition _parse_metaedge (metaedge : string) : string :=
  let clean_metaedge := clean metaedge in
  dict_get mapping clean_metaedge
    (str_replace "<" "_" (str_replace ">" "_" (str_upper clean_metaedge))).

(** ** GraphStore: the Neo4j property graph *)

Record node := Node {
  n_label : string;
  n_id : option string;
  n_name : option string }.

Record rel := Rel {
  r_src : nat;
  r_type : string;
  r_tgt : nat }.

Record graph := Graph {
  g_nodes : list node;
  g_rels : list rel;
  g_indexes : gset string }.

Definition empty_graph : graph := Graph [] [] ∅.

#[global] Instance node_eq_dec : EqDecision node.
Proof. solve_decision. Defined.

#[global] Instance rel_eq_dec : EqDecision rel.
Proof. solve_decision. Defined.

(** Cypher equality used by a property map [{id: v}]: comparing with [null]
    is never true. *)
Definition cy_eqb (a b : option string) : bool :=
  match a, b with
  | Some x, Some y => String.eqb x y
  | _, _ => false
  end.

Definition node_sat (g : graph) (P : node → bool) (i : nat) : bool :=
  match g_nodes g !! i with
  | Some n => P n
  | None => false
  end.

(** The nodes matching a node pattern, as positions in [g_nodes]. *)
Definition match_nodes (g : graph) (P : node → bool) : list nat :=
  List.filter (node_sat g P) (seq 0 (length (g_nodes g))).

Definition has_label (l : string) (n : node) : bool := String.eqb (n_label n) l.
Definition has_id (v : option string) (n : node) : bool := cy_eqb (n_id n) v.

Definition type_in (ts : list string) (r : rel) : bool :=
  existsb (String.eqb (r_type r)) ts.

Definition prop_name (g : graph) (i : nat) : option string :=
  n ← g_nodes g !! i; n_name n.

Definition prop_id (g : graph) (i : nat) : option string :=
  n ← g_nodes g !! i; n_id n.

(** [OPTIONAL MATCH]: when the pattern has no match, one row binding the
    pattern's variables to [null]. *)
Definition optional {A : Type} (matches : list A) : list (option A) :=
  match matches with
  | [] => [None]
  | _ => Some <$> matches
  end.

(** [collect(DISTINCT e)]: first occurrences, in row order. *)
Definition distinct {A : Type} `{EqDecision A} (l : list A) : list A :=
  fold_left (λ acc x, if decide (x ∈ acc) then acc else acc ++ [x]) l [].

(** *** Text spliced into a statement *)

(** The exceptions of the program: Python's own two, and the driver's
    [neo4j.exceptions.Neo4jError], raised by [session.run] when the server
    refuses a statement (a [CypherSyntaxError] for text that does not
    parse). *)
Inductive py_exn := TypeError | AttributeError | Neo4jError.

(** What a call comes to: a value, an exception, or nothing the model can
    tell (the statement sent is outside the Cypher that is modelled). *)
Inductive outcome (A : Type) :=
  | Ret (a : A)
  | Raise (e : py_exn)
  | Unmodelled.
Arguments Ret {A} a.
Arguments Raise {A} e.
Arguments Unmodelled {A}.

Definition in_range (lo hi : nat) (c : ascii) : bool :=
  let n := nat_of_ascii c in (lo <=? n)%nat && (n <=? hi)%nat.
Definition is_letter (c : ascii) : bool := in_range 65 90 c || in_range 97 122 c.
Definition is_digit (c : ascii) : bool := in_range 48 57 c.
Definition is_name_char (c : ascii) : bool :=
  is_letter c || is_digit c || Ascii.eqb c "_".

Fixpoint str_forall (P : ascii → bool) (s : string) : bool :=
  match s with
  | EmptyString => true
  | String c s' => P c && str_forall P s'
  end.

Fixpoint ends_with_space (s : string) : bool :=
  match s with
  | EmptyString => false
  | String c EmptyString => Ascii.eqb c " "
  | String _ s' => ends_with_space s'
  end.

(** A text that Cypher reads as one unquoted name: a letter, then letters,
    digits and underscores. *)
Definition cypher_name (text : string) : bool :=
  match text with
  | EmptyString => false
  | String c rest => is_letter c && str_forall is_name_char rest
  end.

(** A text that cannot stand after the colon of [(n:...)] or [[:...]]: the
    empty text, or a text of letters, digits, underscores, hyphens and inner
    spaces that starts with a letter, a digit or a hyphen and is not a name
    (["Biological Process"], ["C-D"], ["1AG"]). *)
Definition cypher_refused (text : string) : bool :=
  match text with
  | EmptyString => true
  | String c rest =>
      negb (cypher_name text)
      && (is_letter c || is_digit c || Ascii.eqb c "-")
      && str_forall (λ c, is_name_char c || Ascii.eqb c "-" || Ascii.eqb c " ") rest
      && negb (ends_with_space text)
  end.

(** A statement with [text] spliced in where a label or a relationship type
    is expected; [as_written] is what the statement does when [text] is read
    as that label or type. *)
Definition spliced {A : Type} (text : string) (as_written : A) : outcome A :=
  if cypher_name text then Ret as_written
  else if cypher_refused text then Raise Neo4jError
  else Unmodelled.

(** *** Statements of [load_nodes], [load_edges] and [_create_indexes] *)

Record node_rec := NodeRec { nr_id : option string; nr_name : option string }.
Record edge_rec := EdgeRec { er_source : option string; er_target : option string }.

(** [UNWIND $nodes AS node
     CREATE (n:{kind} {id: node.id, name: node.name})] *)
Definition cypher_create_nodes (kind : string) (nodes : list node_rec) (g : graph)
    : outcome graph :=
  spliced kind
    (Graph (g_nodes g ++ map (λ nd, Node kind (nr_id nd) (nr_name nd)) nodes)
           (g_rels g) (g_indexes g)).

(** The relationships one [edge] row of the statement below creates: one for
    every pair of a node matching [source] and a node matching [target]. *)
Definition edge_matches (g : graph) (rel_type : string) (edge : edge_rec) : list rel :=
  source ← match_nodes g (has_id (er_source edge));
  target ← match_nodes g (has_id (er_target edge));
  [Rel source rel_type target].

(** [UNWIND $edges AS edge
     MATCH (source {id: edge.source})
     MATCH (target {id: edge.target})
     CREATE (source)-[:{rel_type}]->(target)] *)
Definition cypher_create_rels (rel_type : string) (edges : list edge_rec) (g : graph)
    : outcome graph :=
  spliced rel_type
    (Graph (g_nodes g)
           (g_rels g ++ (edges ≫= edge_matches g rel_type))
           (g_indexes g)).

(** [CREATE INDEX IF NOT EXISTS FOR (n:{node_type}) ON (n.id)] *)
Definition cypher_create_index (node_type : string) (g : graph) : outcome graph :=
  spliced node_type
    (if decide (node_type ∈ g_indexes g) then g
     else Graph (g_nodes g) (g_rels g) (g_indexes g ∪ {[node_type]})).

(** *** Statements of query 1 and of the cache rebuild *)

Record drug_map := DrugMap {
  dm_id : option string; dm_name : option string; dm_type : option string }.
Record gene_map := GeneMap {
  gm_id : option string; gm_name : option string; gm_relationship : option string }.
Record loc_map := LocMap {
  lm_id : option string; lm_name : option string }.

#[global] Instance drug_map_eq_dec : EqDecision drug_map.
Proof. solve_decision. Defined.
#[global] Instance gene_map_eq_dec : EqDecision gene_map.
Proof. solve_decision. Defined.
#[global] Instance loc_map_eq_dec : EqDecision loc_map.
Proof. solve_decision. Defined.

(** [MATCH (d:Disease) RETURN d.id as id, d.name as name] *)
Definition cypher_all_diseases (g : graph) : list (option string * option string) :=
  map (λ d, (prop_id g d, prop_name g d)) (match_nodes g (has_label "Disease")).

(** Relationships into [d] of one of the types [ts], from a node labelled [l]. *)
Definition match_in (g : graph) (d : nat) (ts : list string) (l : string) : list rel :=
  List.filter (λ r, Nat.eqb (r_tgt r) d && type_in ts r && node_sat g (has_label l) (r_src r))
    (g_rels g).

(** Relationships out of [d] of one of the types [ts], to a node labelled [l]. *)
Definition match_out (g : graph) (d : nat) (ts : list string) (l : string) : list rel :=
  List.filter (λ r, Nat.eqb (r_src r) d && type_in ts r && node_sat g (has_label l) (r_tgt r))
    (g_rels g).

(** One row of the three [OPTIONAL MATCH]es: the disease [d], and the
    relationships [r], [gr] and the one to [a], each possibly [null]. *)
Record q1_row := Q1Row {
  q1_d : nat; q1_r : option rel; q1_gr : option rel; q1_la : option rel }.

Record q1_record := Q1Record {
  rec_disease_name : option string;
  rec_drugs : list drug_map;
  rec_genes : list gene_map;
  rec_locations : list loc_map }.

Definition drug_of (g : graph) (row : q1_row) : drug_map :=
  DrugMap (r ← q1_r row; prop_id g (r_src r))
          (r ← q1_r row; prop_name g (r_src r))
          (r ← q1_r row; Some (r_type r)).

Definition gene_of (g : graph) (row : q1_row) : gene_map :=
  GeneMap (r ← q1_gr row; prop_id g (r_tgt r))
          (r ← q1_gr row; prop_name g (r_tgt r))
          (r ← q1_gr row; Some (r_type r)).

Definition loc_of (g : graph) (row : q1_row) : loc_map :=
  LocMap (r ← q1_la row; prop_id g (r_tgt r))
         (r ← q1_la row; prop_name g (r_tgt r)).

(** [MATCH (d:Disease {id: $diseaseId})
     OPTIONAL MATCH (c:Compound)-[r:TREATS|PALLIATES]->(d)
     OPTIONAL MATCH (d)-[gr:ASSOCIATES|UPREGULATES|DOWNREGULATES]->(g:Gene)
     OPTIONAL MATCH (d)-[:LOCALIZES_TO]->(a:Anatomy)] *)
Definition q1_rows (g : graph) (diseaseId : option string) : list q1_row :=
  d ← match_nodes g (λ n, has_label "Disease" n && has_id diseaseId n);
  r ← optional (match_in g d ["TREATS"; "PALLIATES"] "Compound");
  gr ← optional (match_out g d ["ASSOCIATES"; "UPREGULATES"; "DOWNREGULATES"] "Gene");
  la ← optional (match_out g d ["LOCALIZES_TO"] "Anatomy");
  [Q1Row d r gr la].

(** [RETURN d.name as disease_name,
       collect(DISTINCT {id: c.id, name: c.name, type: type(r)}) as drugs,
       collect(DISTINCT {id: g.id, name: g.name, relationship: type(gr)}) as genes,
       collect(DISTINCT {id: a.id, name: a.name}) as locations]
    The grouping key is [d.name]; no row gives no record.  The source has
    this statement twice, word for word: in [_get_disease_info_from_neo4j]
    and in [query1_disease_info]. *)
Definition cypher_disease_info (g : graph) (diseaseId : option string) : list q1_record :=
  map (λ grp, Q1Record (fst grp)
                (distinct (map (drug_of g) (snd grp)))
                (distinct (map (gene_of g) (snd grp)))
                (distinct (map (loc_of g) (snd grp))))
      (group_by_key (map (λ row, (prop_name g (q1_d row), row)) (q1_rows g diseaseId))).

(** [Result.single()]: [None] when there is no record, the first record
    otherwise. *)
Definition single {A : Type} (records : list A) : option A := head records.

(** *** The statement of query 2 *)

Record mechanism := Mechanism {
  gene : option string;
  compound_effect : string;
  anatomy : option string;
  anatomy_effect : string }.

#[global] Instance mechanism_eq_dec : EqDecision mechanism.
Proof. solve_decision. Defined.

Record q2_row := Q2Row {
  q2_d : nat; q2_a : nat; q2_c : nat; q2_cr : rel; q2_g : nat; q2_ar : rel }.

(** [(c)-[:TREATS|PALLIATES]->(d)] as a predicate. *)
Definition treats_or_palliates (g : graph) (c d : nat) : bool :=
  existsb (λ r, Nat.eqb (r_src r) c && Nat.eqb (r_tgt r) d
                && type_in ["TREATS"; "PALLIATES"] r) (g_rels g).

(** The [WHERE] clause.  In Cypher [AND] binds tighter than [OR], so
    [A OR B AND NOT P] is [A OR (B AND (NOT P))]. *)
Definition q2_where (g : graph) (d c : nat) (cr ar : rel) : bool :=
  (String.eqb (r_type cr) "UPREGULATES" && String.eqb (r_type ar) "DOWNREGULATES")
  || ((String.eqb (r_type cr) "DOWNREGULATES" && String.eqb (r_type ar) "UPREGULATES")
      && negb (treats_or_palliates g c d)).

(** [MATCH (d:Disease {id: $diseaseId})-[:LOCALIZES_TO]->(a:Anatomy)] *)
Definition q2_sites (g : graph) (diseaseId : option string) : list (nat * nat) :=
  d ← match_nodes g (λ n, has_label "Disease" n && has_id diseaseId n);
  la ← match_out g d ["LOCALIZES_TO"] "Anatomy";
  [(d, r_tgt la)].

(** [MATCH (c:Compound)-[cr:UPREGULATES|DOWNREGULATES]->(g:Gene)] *)
Definition q2_regulations (g : graph) : list rel :=
  List.filter (λ cr, type_in ["UPREGULATES"; "DOWNREGULATES"] cr
                     && node_sat g (has_label "Compound") (r_src cr)
                     && node_sat g (has_label "Gene") (r_tgt cr))
    (g_rels g).

(** The three [MATCH]es and the [WHERE] of query 2. *)
Definition q2_rows (g : graph) (diseaseId : option string) : list q2_row :=
  da ← q2_sites g diseaseId;
  cr ← q2_regulations g;
  ar ← List.filter (λ ar, Nat.eqb (r_src ar) (snd da) && Nat.eqb (r_tgt ar) (r_tgt cr)
                          && type_in ["UPREGULATES"; "DOWNREGULATES"] ar) (g_rels g);
  if q2_where g (fst da) (r_src cr) cr ar
  then [Q2Row (fst da) (snd da) (r_src cr) cr (r_tgt cr) ar]
  else [].

Definition mechanism_of (g : graph) (row : q2_row) : mechanism :=
  Mechanism (prop_name g (q2_g row)) (r_type (q2_cr row))
            (prop_name g (q2_a row)) (r_type (q2_ar row)).

(** Ascending order of [ORDER BY] on strings, [null] last. *)
Definition cy_leb (a b : option string) : bool :=
  match a, b with
  | _, None => true
  | None, Some _ => false
  | Some x, Some y => String.leb x y
  end.

Fixpoint insert_by {A : Type} (key : A → option string) (x : A) (l : list A) : list A :=
  match l with
  | [] => [x]
  | y :: l' => if cy_leb (key x) (key y) then x :: l else y :: insert_by key x l'
  end.

Definition order_by {A : Type} (key : A → option string) (l : list A) : list A :=
  foldr (insert_by key) [] l.

Record treatment := Treatment {
  compound_id : option string;
  compound_name : option string;
  mechanisms : list mechanism }.

(** [RETURN DISTINCT c.id as compound_id, c.name as compound_name,
       collect(DISTINCT {gene: g.name, compound_effect: type(cr),
                         anatomy: a.name, anatomy_effect: type(ar)}) as mechanisms
     ORDER BY compound_name]
    The grouping key is the pair [(c.id, c.name)], so the records are
    already distinct. *)
Definition cypher_find_treatments (g : graph) (diseaseId : option string) : list treatment :=
  order_by compound_name
    (map (λ grp, Treatment (fst (fst grp)) (snd (fst grp))
                   (distinct (map (mechanism_of g) (snd grp))))
       (group_by_key
          (map (λ row, ((prop_id g (q2_c row), prop_name g (q2_c row)), row))
             (q2_rows g diseaseId)))).

(** ** The client object and the [Py] monad *)

(** The base fields of a disease document, as stored in the cache. *)
Record disease_info := DiseaseInfo {
  doc_id : option string;
  doc_name : option string;
  doc_drugs : list drug_map;
  doc_genes : list gene_map;
  doc_locations : list loc_map }.

(** The state behind [self]: the Neo4j graph, the MongoDB collection
    [diseases] keyed by [_id], the clock oracle and the console. *)
Record HetioNetDB := DB {
  neo4j : graph;
  diseases_collection : gmap (option string) disease_info;
  clock : list Z;
  stdout : list string }.

(** A method: from the state, an [outcome] and the state left.  With
    [Unmodelled] the state component is the state at the statement that the
    model does not read, and says nothing about the stores after it. *)
Definition Py (A : Type) : Type := HetioNetDB → outcome A * HetioNetDB.

#[global] Instance Py_ret : MRet Py := λ A a s, (Ret a, s).

#[global] Instance Py_bind : MBind Py := λ A B k c s,
  match c s with
  | (Ret a, s') => k a s'
  | (Raise e, s') => (Raise e, s')
  | (Unmodelled, s') => (Unmodelled, s')
  end.

Definition raise {A : Type} (e : py_exn) : Py A := λ s, (Raise e, s).

(** The state a computation leaves. *)
Definition run {A : Type} (c : Py A) (s : HetioNetDB) : HetioNetDB := snd (c s).

Fixpoint for_each {A : Type} (l : list A) (body : A → Py unit) : Py unit :=
  match l with
  | [] => mret tt
  | x :: l' => body x ;; for_each l' body
  end.

Definition print (line : string) : Py unit := λ s,
  (Ret tt, DB (neo4j s) (diseases_collection s) (clock s) (stdout s ++ [line])).

(** [session.run] of a statement that writes: the graph changes when the
    server runs the statement; a statement the server refuses raises and
    changes nothing. *)
Definition session_run (stmt : graph → outcome graph) : Py unit := λ s,
  match stmt (neo4j s) with
  | Ret g => (Ret tt, DB g (diseases_collection s) (clock s) (stdout s))
  | Raise e => (Raise e, s)
  | Unmodelled => (Unmodelled, s)
  end.

(** [session.run] of a statement that only reads. *)
Definition session_query {A : Type} (stmt : graph → A) : Py A := λ s,
  (Ret (stmt (neo4j s)), s).

(** [time.time()] *)
Definition time_time : Py Z := λ s,
  (Ret (hd 0%Z (clock s)),
   DB (neo4j s) (diseases_collection s) (tl (clock s)) (stdout s)).

(** [diseases_collection.replace_one({'_id': k}, doc, upsert=True)] *)
Definition replace_one_upsert (k : option string) (doc : disease_info) : Py unit := λ s,
  (Ret tt, DB (neo4j s) (<[k := doc]> (diseases_collection s)) (clock s) (stdout s)).

(** [diseases_collection.find_one({'_id': k})] *)
Definition find_one (k : option string) : Py (option disease_info) := λ s,
  (Ret (diseases_collection s !! k), s).

(** [diseases_collection.count_documents({})] *)
Definition count_documents : Py nat := λ s,
  (Ret (size (diseases_collection s)), s).

Definition newline : string := String "010" EmptyString.

(** ** IngestionPipeline *)

(** A row of [csv.DictReader]: field name to value. *)
Abbreviation row := (gmap string string).

Definition _create_indexes : Py unit :=
  for_each ["Gene"; "Compound"; "Disease"; "Anatomy"] (λ node_type,
    session_run (cypher_create_index node_type));;
  print "Created indexes".

Definition node_key (r : row) : option string * node_rec :=
  let node_id := py_or (r !! "Id") (r !! "id") in
  let name := py_or (r !! "Name") (r !! "name") in
  let kind := py_or (r !! "Kind") (r !! "kind") in
  (kind, NodeRec node_id name).

Definition load_nodes (nodes_file : string) (reader : list row) : Py unit :=
  print (newline +:+ "Loading nodes from " +:+ nodes_file +:+ "...");;
  let nodes_by_kind := group_by_key (map node_key reader) in
  for_each nodes_by_kind (λ item,
    let kind := py_str (fst item) in
    let nodes := snd item in
    session_run (cypher_create_nodes kind nodes);;
    print ("Created " +:+ pretty (length nodes) +:+ " " +:+ kind +:+ " nodes"));;
  _create_indexes.

Definition edge_key (r : row) : option string * edge_rec :=
  let source := py_or (r !! "Source") (r !! "source") in
  let target := py_or (r !! "Target") (r !! "target") in
  let metaedge := py_or (r !! "Metaedge") (r !! "metaedge") in
  (metaedge, EdgeRec source target).

(** The call [self._parse_metaedge(metaedge)] on a dict key: [None] has no
    method [replace]. *)
Definition call_parse_metaedge (metaedge : option string) : Py string :=
  match metaedge with
  | None => raise AttributeError
  | Some m => mret (_parse_metaedge m)
  end.

Definition load_edges (edges_file : string) (reader : list row) : Py unit :=
  print (newline +:+ "Loading edges from " +:+ edges_file +:+ "...");;
  let edges_by_type := group_by_key (map edge_key reader) in
  for_each edges_by_type (λ item,
    let edges := snd item in
    rel_type ← call_parse_metaedge (fst item);
    session_run (cypher_create_rels rel_type edges);;
    print ("Created " +:+ pretty (length edges) +:+ " " +:+ rel_type +:+ " relationships")).

(** ** CacheLayer and QueryEngine *)

(** [x is not None] *)
Definition is_not_None {A : Type} (x : option A) : bool :=
  match x with
  | Some _ => true
  | None => false
  end.

(** [result['disease_name']] and the like on the return of [single()]
    raise [TypeError] when it is [None], which is not subscriptable. *)
Definition _get_disease_info_from_neo4j (disease_id disease_name : option string)
    : Py disease_info :=
  result ← session_query (λ g, single (cypher_disease_info g disease_id));
  match result with
  | None => raise TypeError
  | Some r =>
      mret (DiseaseInfo disease_id (rec_disease_name r)
              (List.filter (λ d, is_not_None (dm_id d)) (rec_drugs r))
              (List.filter (λ g, is_not_None (gm_id g)) (rec_genes r))
              (List.filter (λ l, is_not_None (lm_id l)) (rec_locations r)))
  end.

Definition build_mongo_cache : Py unit :=
  print (newline +:+ "Building MongoDB cache for diseases...");;
  result ← session_query cypher_all_diseases;
  for_each result (λ record,
    let disease_id := fst record in
    let disease_name := snd record in
    disease_info ← _get_disease_info_from_neo4j disease_id disease_name;
    replace_one_upsert disease_id disease_info);;
  n ← count_documents;
  print ("Cached " +:+ pretty n +:+ " diseases").

(** What [query1_disease_info] returns when it returns a dict: the base
    fields and the two ephemeral ones. *)
Record query1_result := Query1Result {
  base : disease_info;
  query_time_ms : Z;
  data_source : string }.

Definition query1_disease_info (disease_id : string) (use_cache : bool)
    : Py (option query1_result) :=
  start_time ← time_time;
  found ← (if use_cache then
             result ← find_one (Some disease_id);
             mret (result, "MongoDB (cached)")
           else
             neo_result ← session_query (λ g, single (cypher_disease_info g (Some disease_id)));
             match neo_result with
             | None => raise TypeError
             | Some r =>
                 let result :=
                   DiseaseInfo (Some disease_id) (rec_disease_name r)
                     (List.filter (λ d, is_not_None (dm_id d)) (rec_drugs r))
                     (List.filter (λ g, is_not_None (gm_id g)) (rec_genes r))
                     (List.filter (λ l, is_not_None (lm_id l)) (rec_locations r)) in
                 mret (Some result, "Neo4j (direct)")
             end);
  end_time ← time_time;
  let elapsed_time := (end_time - start_time)%Z in
  match fst found with
  | Some result => mret (Some (Query1Result result elapsed_time (snd found)))
  | None => mret None
  end.

Record query2_result := Query2Result {
  disease_id : string;
  potential_treatments_count : nat;
  treatments : list treatment;
  q2_query_time_ms : Z }.

Definition query2_find_treatments (disease_id : string) : Py query2_result :=
  start_time ← time_time;
  treatments ← session_query (λ g, cypher_find_treatments g (Some disease_id));
  end_time ← time_time;
  let elapsed_time := (end_time - start_time)%Z in
  mret (Query2Result disease_id (length treatments) treatments elapsed_time).

(** ** Command-line entry points *)

(** [HetioNetDB(...)]: the two clients are created and the connection line
    is printed; the stores themselves are the state. *)
Definition __init__ : Py unit := print "Connected to Neo4j and MongoDB".

Definition close : Py unit := print "Database connections closed".

(** [s * n] *)
Fixpoint str_repeat (s : string) (n : nat) : string :=
  match n with
  | O => EmptyString
  | S n' => s +:+ str_repeat s n'
  end.

(** [create_database(args)], with the rows the two files hold. *)
Definition create_database (nodes_file : string) (nodes_reader : list row)
    (edges_file : string) (edges_reader : list row) (build_cache : bool) : Py unit :=
  __init__;;
  print (newline +:+ str_repeat "=" 60);;
  print "CREATING HETIONET DATABASE";;
  print (str_repeat "=" 60);;
  load_nodes nodes_file nodes_reader;;
  load_edges edges_file edges_reader;;
  (if build_cache then build_mongo_cache else mret tt);;
  print (newline +:+ "Database creation complete!");;
  close.

(** [query_disease(args)].  [float_str] is Python's text for the float
    [query_time_ms]. *)
Definition query_disease (float_str : Z → string) (disease_id : string) (no_cache : bool)
    : Py unit :=
  __init__;;
  print (newline +:+ str_repeat "=" 60);;
  print "QUERY 1: DISEASE INFORMATION";;
  print (str_repeat "=" 60);;
  result ← query1_disease_info disease_id (negb no_cache);
  match result with
  | Some result =>
      print (newline +:+ "Disease ID: " +:+ py_str (doc_id (base result)));;
      print ("Disease Name: " +:+ py_str (doc_name (base result)));;
      print (newline +:+ "Drugs (" +:+ pretty (length (doc_drugs (base result))) +:+ "):");;
      for_each (doc_drugs (base result)) (λ drug,
        print ("  - " +:+ py_str (dm_name drug) +:+ " (" +:+ py_str (dm_type drug) +:+ ")"));;
      print (newline +:+ "Genes (" +:+ pretty (length (doc_genes (base result))) +:+ "):");;
      for_each (doc_genes (base result)) (λ gene,
        print ("  - " +:+ py_str (gm_name gene) +:+ " ("
               +:+ py_str (gm_relationship gene) +:+ ")"));;
      print (newline +:+ "Locations (" +:+ pretty (length (doc_locations (base result)))
             +:+ "):");;
      for_each (doc_locations (base result)) (λ loc,
        print ("  - " +:+ py_str (lm_name loc)));;
      print (newline +:+ "Query Time: " +:+ float_str (query_time_ms result) +:+ " ms");;
      print ("Data Source: " +:+ data_source result)
  | None => print ("Disease " +:+ disease_id +:+ " not found")
  end;;
  close.

(** [find_treatments(args)] *)
Definition find_treatments (float_str : Z → string) (args_disease_id : string) (verbose : bool)
    : Py unit :=
  __init__;;
  print (newline +:+ str_repeat "=" 60);;
  print "QUERY 2: FIND POTENTIAL TREATMENTS";;
  print (str_repeat "=" 60);;
  result ← query2_find_treatments args_disease_id;
  print (newline +:+ "Disease ID: " +:+ disease_id result);;
  print ("Potential Treatments Found: " +:+ pretty (potential_treatments_count result));;
  (match treatments result with
   | [] => mret tt
   | _ =>
       print (newline +:+ "Compounds:");;
       for_each (zip (seq 1 (length (treatments result))) (treatments result)) (λ it,
         let i := fst it in
         let treatment := snd it in
         print (newline +:+ pretty i +:+ ". " +:+ py_str (compound_name treatment)
                +:+ " (" +:+ py_str (compound_id treatment) +:+ ")");;
         if verbose then
           print "   Mechanisms:";;
           for_each (take 3 (mechanisms treatment)) (λ mech,
             print ("   - Gene: " +:+ py_str (gene mech));;
             print ("     Compound: " +:+ compound_effect mech);;
             print ("     Location (" +:+ py_str (anatomy mech) +:+ "): "
                    +:+ anatomy_effect mech))
         else mret tt)
   end);;
  print (newline +:+ "Query Time: " +:+ float_str (q2_query_time_ms result) +:+ " ms");;
  close.

(** ** Notions used to state the properties *)

Definition is_marker (c : ascii) : bool := Ascii.eqb c ">" || Ascii.eqb c "<".

(** Stripping the direction markers, in the words of the specification:
    the code without its [>] and [<] characters. *)
Fixpoint strip_markers (code : string) : string :=
  match code with
  | EmptyString => EmptyString
  | String c code' =>
      if is_marker c then strip_markers code' else String c (strip_markers code')
  end.

Fixpoint has_char (c : ascii) (s : string) : bool :=
  match s with
  | EmptyString => false
  | String c' s' => Ascii.eqb c' c || has_char c s'
  end.

(** The node a row of the nodes file stands for. *)
Definition node_of_row (r : row) : node :=
  Node (py_str (fst (node_key r))) (nr_id (snd (node_key r))) (nr_name (snd (node_key r))).

(** The nodes created for one entry of [nodes_by_kind], and the line printed
    for it. *)
Definition nodes_of_group (item : option string * list node_rec) : list node :=
  map (λ nd, Node (py_str (fst item)) (nr_id nd) (nr_name nd)) (snd item).

Definition node_report (item : option string * list node_rec) : string :=
  "Created " +:+ pretty (length (snd item)) +:+ " " +:+ py_str (fst item) +:+ " nodes".

(** The kind of the row, as [load_nodes] splices it into the statement, is a
    plain Cypher name. *)
Definition kind_is_name (r : row) : Prop :=
  cypher_name (py_str (fst (node_key r))) = true.


(** [MATCH (n:kind) RETURN count(n)] *)
Definition count_kind (g : graph) (kind : string) : nat :=
  length (match_nodes g (has_label kind)).

(** No two nodes carry the same id. *)
Definition ids_unique (g : graph) : Prop :=
  ∀ i j n m id,
    g_nodes g !! i = Some n → g_nodes g !! j = Some m →
    n_id n = Some id → n_id m = Some id → i = j.

(** The kinds [_create_indexes] names. *)
Definition indexed_kinds : gset string := {[ "Gene"; "Compound"; "Disease"; "Anatomy" ]}.

(** The first entry of a key in a dict kept as its list of items. *)
Fixpoint assoc {K V : Type} `{EqDecision K} (k : K) (d : list (K * V)) : option V :=
  match d with
  | [] => None
  | (k', v) :: d' => if decide (k = k') then Some v else assoc k d'
  end.

(** The relationship type of an entry of [edges_by_type] whose key is a
    string. *)
Definition rel_type_of (metaedge : option string) : string :=
  match metaedge with
  | Some m => _parse_metaedge m
  | None => EmptyString
  end.

(** The relationships created for one entry of [edges_by_type], and the
    line printed for it. *)
Definition rels_of_group (g : graph) (item : option string * list edge_rec) : list rel :=
  snd item ≫= edge_matches g (rel_type_of (fst item)).

Definition edge_report (item : option string * list edge_rec) : string :=
  "Created " +:+ pretty (length (snd item)) +:+ " " +:+ rel_type_of (fst item)
  +:+ " relationships".

(** The row carries a metaedge code. *)
Definition has_metaedge (r : row) : Prop := is_Some (fst (edge_key r)).

(** The row carries a metaedge code, and the relationship type made from it
    is a plain Cypher name. *)
Definition rel_type_is_name (r : row) : Prop :=
  cypher_name (rel_type_of (fst (edge_key r))) = true.


(** The same, for a row that carries a code; a row may also carry none. *)
Definition rel_type_fits (r : row) : Prop :=
  fst (edge_key r) = None ∨ rel_type_is_name r.

(** [MATCH (n {id: v}) RETURN count(n)] *)
Definition count_id (g : graph) (v : option string) : nat :=
  length (match_nodes g (has_id v)).

(** The number of relationships the edge statement creates for one row. *)
Definition materialized_by (g : graph) (r : row) : nat :=
  length (edge_matches g (rel_type_of (fst (edge_key r))) (snd (edge_key r))).

(** Some node of the store carries the id [v]. *)
Definition id_present (g : graph) (v : option string) : bool :=
  existsb (has_id v) (g_nodes g).

Definition endpoint_missing (g : graph) (r : row) : Prop :=
  id_present g (er_source (snd (edge_key r))) = false
  ∨ id_present g (er_target (snd (edge_key r))) = false.

(** The rows of the edges file with a given metaedge code. *)
Definition rows_with_metaedge (m : string) (reader : list row) : list row :=
  List.filter (λ r, bool_decide (fst (edge_key r) = Some m)) reader.

(** Some [Disease] node of the store carries the id. *)
Definition disease_resolves (g : graph) (disease_id : string) : Prop :=
  ∃ n, n ∈ g_nodes g ∧ n_label n = "Disease" ∧ n_id n = Some disease_id.

(** No [Disease] node with the id has a [LOCALIZES_TO] relationship to an
    [Anatomy] node. *)
Definition no_site (g : graph) (disease_id : string) : Prop :=
  ∀ r d a,
    r ∈ g_rels g → r_type r = "LOCALIZES_TO" →
    g_nodes g !! r_src r = Some d → n_label d = "Disease" → n_id d = Some disease_id →
    g_nodes g !! r_tgt r = Some a → n_label a = "Anatomy" → False.

(** The base fields of a disease id as the graph gives them, if it gives a
    record. *)
Definition disease_doc (g : graph) (disease_id : option string) : option disease_info :=
  r ← single (cypher_disease_info g disease_id);
  Some (DiseaseInfo disease_id (rec_disease_name r)
          (List.filter (λ d, is_not_None (dm_id d)) (rec_drugs r))
          (List.filter (λ g, is_not_None (gm_id g)) (rec_genes r))
          (List.filter (λ l, is_not_None (lm_id l)) (rec_locations r))).

(** The difference of the next two clock readings. *)
Definition elapsed (s : HetioNetDB) : Z := (hd 0 (tl (clock s)) - hd 0 (clock s))%Z.

(** What a read of query 1 gives, without the two ephemeral fields. *)
Definition base_of (o : outcome (option query1_result)) : outcome (option disease_info) :=
  match o with
  | Ret r => Ret (base <$> r)
  | Raise e => Raise e
  | Unmodelled => Unmodelled
  end.

(** [a] comes no later than [b] in the order of [ORDER BY compound_name]. *)
Definition name_le (a b : treatment) : Prop :=
  cy_leb (compound_name a) (compound_name b) = true.

(** The two effects of a mechanism are opposite. *)
Definition opposite_effects (m : mechanism) : Prop :=
  (compound_effect m = "UPREGULATES" ∧ anatomy_effect m = "DOWNREGULATES")
  ∨ (compound_effect m = "DOWNREGULATES" ∧ anatomy_effect m = "UPREGULATES").

(** The mechanism [m] reported for the treatment [t] is there in the graph:
    a [Disease] node [d] with the id, localized to an [Anatomy] node [a]; a
    [Compound] node [c] with the id and name of [t], acting on a [Gene]
    node [gn] as [m] says; and [a] acting on [gn] as [m] says. *)
Definition mechanism_backed (g : graph) (disease_id : string) (t : treatment)
    (m : mechanism) : Prop :=
  ∃ d a c gn,
    node_sat g (λ n, has_label "Disease" n && has_id (Some disease_id) n) d = true
    ∧ node_sat g (has_label "Anatomy") a = true
    ∧ node_sat g (has_label "Compound") c = true
    ∧ node_sat g (has_label "Gene") gn = true
    ∧ Rel d "LOCALIZES_TO" a ∈ g_rels g
    ∧ Rel c (compound_effect m) gn ∈ g_rels g
    ∧ Rel a (anatomy_effect m) gn ∈ g_rels g
    ∧ prop_id g c = compound_id t ∧ prop_name g c = compound_name t
    ∧ prop_name g gn = gene m ∧ prop_name g a = anatomy m
    ∧ (compound_effect m = "DOWNREGULATES" → treats_or_palliates g c d = false).

(** The position [d] holds a [Disease] node with the id. *)
Definition is_disease (g : graph) (disease_id : string) (d : nat) : Prop :=
  node_sat g (λ n, has_label "Disease" n && has_id (Some disease_id) n) d = true.

(** The entry of [drugs] is there in the graph: a [Compound] node with an
    id, related by [TREATS] or [PALLIATES] to a [Disease] node with the id. *)
Definition drug_backed (g : graph) (disease_id : string) (dm : drug_map) : Prop :=
  ∃ d c ty,
    is_disease g disease_id d
    ∧ node_sat g (has_label "Compound") c = true
    ∧ Rel c ty d ∈ g_rels g
    ∧ (ty = "TREATS" ∨ ty = "PALLIATES")
    ∧ is_Some (prop_id g c)
    ∧ dm = DrugMap (prop_id g c) (prop_name g c) (Some ty).

(** The entry of [genes] is there in the graph. *)
Definition gene_backed (g : graph) (disease_id : string) (gm : gene_map) : Prop :=
  ∃ d gn ty,
    is_disease g disease_id d
    ∧ node_sat g (has_label "Gene") gn = true
    ∧ Rel d ty gn ∈ g_rels g
    ∧ (ty = "ASSOCIATES" ∨ ty = "UPREGULATES" ∨ ty = "DOWNREGULATES")
    ∧ is_Some (prop_id g gn)
    ∧ gm = GeneMap (prop_id g gn) (prop_name g gn) (Some ty).

(** The entry of [locations] is there in the graph. *)
Definition loc_backed (g : graph) (disease_id : string) (lm : loc_map) : Prop :=
  ∃ d a,
    is_disease g disease_id d
    ∧ node_sat g (has_label "Anatomy") a = true
    ∧ Rel d "LOCALIZES_TO" a ∈ g_rels g
    ∧ is_Some (prop_id g a)
    ∧ lm = LocMap (prop_id g a) (prop_name g a).

(** No relationship starts or ends at a [Disease] node with the id. *)
Definition disease_isolated (g : graph) (disease_id : string) : Prop :=
  ∀ r d, r ∈ g_rels g → is_disease g disease_id d → r_src r ≠ d ∧ r_tgt r ≠ d.

(** Every relationship starts and ends at a node of the store. *)
Definition rels_in_bounds (g : graph) : Prop :=
  ∀ r, r ∈ g_rels g →
    (r_src r < length (g_nodes g))%nat ∧ (r_tgt r < length (g_nodes g))%nat.

(** Every [Disease] node of the store carries an id. *)
Definition diseases_have_ids (g : graph) : Prop :=
  ∀ n, n ∈ g_nodes g → n_label n = "Disease" → is_Some (n_id n).

(** The console lines the three entry points start with. *)
Definition banner (title : string) : list string :=
  [ "Connected to Neo4j and MongoDB";
    newline +:+ str_repeat "=" 60;
    title;
    str_repeat "=" 60 ].

(** The rows of the nodes file with a given kind. *)
Definition rows_with_kind (kind : option string) (reader : list row) : list row :=
  List.filter (λ r, bool_decide (fst (node_key r) = kind)) reader.

(** ** Concrete inputs *)

Definition db0 : HetioNetDB := DB empty_graph ∅ [] [].

Definition node_row (id name kind : string) : row :=
  {[ "Id" := id; "Name" := name; "Kind" := kind ]}.

Definition edge_row (source target metaedge : string) : row :=
  {[ "Source" := source; "Target" := target; "Metaedge" := metaedge ]}.

(** The nodes and edges of the two scenarios of the specification. *)
Definition scenario_nodes : list row :=
  [ node_row "Disease::D1" "Flu" "Disease";
    node_row "Gene::G1" "GeneA" "Gene";
    node_row "Compound::C1" "DrugA" "Compound";
    node_row "Anatomy::A1" "Lung" "Anatomy";
    node_row "Compound::C2" "DrugB" "Compound" ].

Definition scenario_edges : list row :=
  [ edge_row "Compound::C1" "Disease::D1" "CtD";
    edge_row "Disease::D1" "Gene::G1" "DaG";
    edge_row "Disease::D1" "Anatomy::A1" "DlA";
    edge_row "Compound::C2" "Gene::G1" "CuG";
    edge_row "Anatomy::A1" "Gene::G1" "AdG" ].

Definition duplicate_id_nodes : list row :=
  [ node_row "Compound::C1" "DrugA" "Compound";
    node_row "Compound::C1" "DrugA again" "Compound";
    node_row "Disease::D1" "Flu" "Disease" ].

Definition two_nodes : list row :=
  [ node_row "Compound::C1" "DrugA" "Compound";
    node_row "Disease::D1" "Flu" "Disease" ].

Definition null_id_disease : list row :=
  [ {[ "Name" := "Flu"; "Kind" := "Disease" ]} ].

Definition treated_and_opposite : list row :=
  [ edge_row "Compound::C1" "Gene::G1" "CuG" ].

Definition treated_and_opposite_reversed : list row :=
  [ edge_row "Compound::C1" "Gene::G1" "CdG";
    edge_row "Anatomy::A1" "Gene::G1" "AuG" ].

Definition scenario_db (extra_edges : list row) : HetioNetDB :=
  run build_mongo_cache
    (run (load_edges "edges.tsv" (scenario_edges ++ extra_edges))
       (run (load_nodes "nodes.tsv" scenario_nodes) db0)).

(** * Properties *)

(** ** Strings and the metaedge table *)

Lemma str_replace_absent (c : ascii) (new s : string) :
  has_char c s = false → str_replace c new s = s.
Proof.
  induction s as [|a s IH]; simpl; [done|].
  intros [Ha Hs]%orb_false_iff. rewrite Ha. by rewrite IH.
Qed.

Lemma clean_strip_markers (code : string) : clean code = strip_markers code.
Proof.
  unfold clean. induction code as [|a code IH]; simpl; [done|].
  unfold is_marker. destruct (Ascii.eqb a ">") eqn:Hgt; simpl; [exact IH|].
  destruct (Ascii.eqb a "<") eqn:Hlt; simpl; [exact IH|]. by rewrite IH.
Qed.

Lemma strip_markers_no_marker (c : ascii) (code : string) :
  is_marker c = true → has_char c (strip_markers code) = false.
Proof.
  intros Hc. induction code as [|a code IH]; simpl; [done|].
  destruct (is_marker a) eqn:Ha; simpl; [done|].
  rewrite IH, orb_false_r.
  destruct (Ascii.eqb_spec a c) as [->|]; [congruence|done].
Qed.

Lemma ascii_upper_marker (a c : ascii) :
  is_marker c = true → Ascii.eqb (ascii_upper a) c = true → Ascii.eqb a c = true.
Proof.
  intros Hc Hu. apply Ascii.eqb_eq in Hu. subst c.
  destruct a as [[] [] [] [] [] [] [] []]; vm_compute in Hc |- *; congruence.
Qed.

Lemma str_upper_no_marker (c : ascii) (s : string) :
  is_marker c = true → has_char c s = false → has_char c (str_upper s) = false.
Proof.
  intros Hc. induction s as [|a s IH]; simpl; [done|].
  intros [Ha Hs]%orb_false_iff. rewrite (IH Hs), orb_false_r.
  destruct (Ascii.eqb (ascii_upper a) c) eqn:Hu; [|done].
  by rewrite (ascii_upper_marker a c Hc Hu) in Ha.
Qed.

Lemma dict_get_lookup (d : list (string * string)) (k default : string) :
  dict_get d k default = match dict_lookup d k with Some v => v | None => default end.
Proof.
  induction d as [|[k' v] d IH]; simpl; [done|]. by destruct (String.eqb k k').
Qed.

(** The fallback of [_parse_metaedge] is the uppercased stripped code: the
    two [replace] calls on it find nothing to replace. *)
Lemma fallback_is_upper (code : string) :
  str_replace "<" "_" (str_replace ">" "_" (str_upper (clean code)))
  = str_upper (clean code).
Proof.
  rewrite clean_strip_markers.
  rewrite (str_replace_absent ">"), (str_replace_absent "<"); [done| |];
    by apply str_upper_no_marker, strip_markers_no_marker.
Qed.

(** C4. [_parse_metaedge] is a function of the metaedge code alone, defined
    on every code: it works on the code stripped of its [>] and [<]
    characters; a stripped code found in the table maps to the table's
    relationship type (so [CtD] to [TREATS], [DaG] to [ASSOCIATES], [DlA] to
    [LOCALIZES_TO], [CuG], [DuG], [AuG] to [UPREGULATES] and [CdG], [DdG],
    [AdG] to [DOWNREGULATES]); a stripped code absent from the table maps
    to its uppercase form, which is also that form with any [>] or [<]
    replaced by an underscore, since none is left. *)
Theorem parse_metaedge_canonical (code : string) :
  clean code = strip_markers code
  ∧ has_char ">" (clean code) = false ∧ has_char "<" (clean code) = false
  ∧ _parse_metaedge code = _parse_metaedge (strip_markers code)
  ∧ (∀ rel_type, dict_lookup mapping (strip_markers code) = Some rel_type →
       _parse_metaedge code = rel_type)
  ∧ (dict_lookup mapping (strip_markers code) = None →
       _parse_metaedge code = str_upper (strip_markers code)
       ∧ _parse_metaedge code
         = str_replace "<" "_" (str_replace ">" "_" (str_upper (strip_markers code))))
  ∧ map _parse_metaedge ["CtD"; "DaG"; "DlA"] = ["TREATS"; "ASSOCIATES"; "LOCALIZES_TO"]
  ∧ map _parse_metaedge ["CuG"; "DuG"; "AuG"] = ["UPREGULATES"; "UPREGULATES"; "UPREGULATES"]
  ∧ map _parse_metaedge ["CdG"; "DdG"; "AdG"]
    = ["DOWNREGULATES"; "DOWNREGULATES"; "DOWNREGULATES"].
Proof.
  assert (Hidem : clean (strip_markers code) = strip_markers code).
  { unfold clean.
    rewrite (str_replace_absent ">"), (str_replace_absent "<"); [done| |];
      by apply strip_markers_no_marker. }
  split; [apply clean_strip_markers|].
  split; [rewrite clean_strip_markers; by apply strip_markers_no_marker|].
  split; [rewrite clean_strip_markers; by apply strip_markers_no_marker|].
  split; [unfold _parse_metaedge; by rewrite Hidem, clean_strip_markers|].
  split.
  { intros rel_type Hin. unfold _parse_metaedge.
    by rewrite dict_get_lookup, clean_strip_markers, Hin. }
  split.
  { intros Hout. unfold _parse_metaedge.
    rewrite dict_get_lookup, fallback_is_upper, clean_strip_markers, Hout.
    split; [done|]. rewrite <- clean_strip_markers. by rewrite fallback_is_upper. }
  by vm_compute.
Qed.

Lemma parse_metaedge_canonical_witness :
  _parse_metaedge "Gr>G" = "REGULATES" ∧ _parse_metaedge "x<y>z" = "XYZ".
Proof.
  split.
  - by apply (parse_metaedge_canonical "Gr>G").
  - by apply (parse_metaedge_canonical "x<y>z").
Defined.

(** ** Grouping by key *)

Section grouping.
Context {K V : Type} `{EqDecision K}.
Implicit Types (k : K) (v : V) (d : list (K * list V)) (items : list (K * V)).

Lemma group_by_key_snoc items k v :
  group_by_key (items ++ [(k, v)]) = setdefault_append k v (group_by_key items).
Proof. unfold group_by_key. by rewrite fold_left_app. Qed.

(** What the groups hold, flattened, is a rearrangement of the items. *)
Lemma bind_setdefault_append {B : Type} (h : K → V → list B) k v d :
  setdefault_append k v d ≫= (λ kv, snd kv ≫= h (fst kv))
  ≡ₚ (d ≫= (λ kv, snd kv ≫= h (fst kv))) ++ h k v.
Proof.
  induction d as [|[k' vs] d IH]; simpl.
  - by rewrite !app_nil_r.
  - destruct (decide (k = k')) as [->|Hne]; simpl.
    + rewrite bind_app. simpl. rewrite app_nil_r, <- !app_assoc.
      apply Permutation_app_head, Permutation_app_comm.
    + rewrite IH. by rewrite app_assoc.
Qed.

Lemma bind_group_by_key {B : Type} (h : K → V → list B) items :
  group_by_key items ≫= (λ kv, snd kv ≫= h (fst kv))
  ≡ₚ items ≫= (λ kv, h (fst kv) (snd kv)).
Proof.
  induction items as [|[k v] items IH] using rev_ind; [done|].
  rewrite group_by_key_snoc, bind_setdefault_append, IH, bind_app.
  simpl. by rewrite app_nil_r.
Qed.

Lemma assoc_setdefault_append k k' v d :
  assoc k (setdefault_append k' v d)
  = if decide (k = k') then Some (default [] (assoc k d) ++ [v]) else assoc k d.
Proof.
  induction d as [|[k0 vs] d IH]; simpl.
  - by destruct (decide (k = k')).
  - destruct (decide (k' = k0)) as [->|Hne]; simpl.
    + by destruct (decide (k = k0)).
    + rewrite IH. destruct (decide (k = k0)) as [->|]; [|done].
      by destruct (decide (k0 = k')).
Qed.

Lemma keys_setdefault_append k v d :
  (setdefault_append k v d).*1 = if decide (k ∈ d.*1) then d.*1 else d.*1 ++ [k].
Proof.
  induction d as [|[k0 vs] d IH]; [done|]. cbn [setdefault_append].
  destruct (decide (k = k0)) as [->|Hne]; rewrite !fmap_cons; cbn [fst].
  - rewrite decide_True; [done|]. by left.
  - rewrite IH. destruct (decide (k ∈ d.*1)) as [Hin|Hout].
    + rewrite decide_True; [done|]. by right.
    + rewrite decide_False; [done|]. by intros [?|?]%elem_of_cons.
Qed.

Lemma assoc_elem_of {W : Type} k (w : W) (l : list (K * W)) :
  NoDup l.*1 → (k, w) ∈ l → assoc k l = Some w.
Proof.
  induction l as [|[k0 w0] l IH]; simpl; [by intros _ ?%elem_of_nil|].
  intros [Hk0 Hnd]%NoDup_cons [Heq|Hin]%elem_of_cons.
  - simplify_eq. by rewrite decide_True.
  - destruct (decide (k = k0)) as [->|]; [|by apply IH].
    destruct Hk0. apply (list_elem_of_fmap_2 fst _ _ Hin).
Qed.

Lemma group_by_key_keys items :
  NoDup (group_by_key items).*1
  ∧ ∀ k, k ∈ (group_by_key items).*1 ↔ k ∈ items.*1.
Proof.
  induction items as [|[k v] items [IHnd IHk]] using rev_ind.
  { split; [constructor|done]. }
  rewrite group_by_key_snoc, keys_setdefault_append, fmap_app. simpl.
  destruct (decide (k ∈ (group_by_key items).*1)) as [Hin|Hout].
  - split; [done|]. intros k'. rewrite elem_of_app, list_elem_of_singleton, IHk.
    split; [tauto|]. intros [? | ->]; [done|]. by apply IHk.
  - split.
    + apply NoDup_app. split; [done|]. split; [|apply NoDup_singleton].
      by intros k' Hk' ->%list_elem_of_singleton.
    + intros k'. by rewrite !elem_of_app, IHk.
Qed.

Lemma assoc_group_by_key k items :
  default [] (assoc k (group_by_key items))
  = (List.filter (λ kv, bool_decide (fst kv = k)) items).*2.
Proof.
  induction items as [|[k' v] items IH] using rev_ind; [done|].
  rewrite group_by_key_snoc, assoc_setdefault_append, List.filter_app, fmap_app.
  simpl. destruct (decide (k = k')) as [->|Hne].
  - rewrite bool_decide_true by done. simpl. by rewrite IH.
  - rewrite bool_decide_false by done. simpl. by rewrite app_nil_r.
Qed.

(** A group holds exactly the items of its key, in input order. *)
Lemma group_by_key_group k vs items :
  (k, vs) ∈ group_by_key items →
  vs = (List.filter (λ kv, bool_decide (fst kv = k)) items).*2.
Proof.
  intros Hin. rewrite <- assoc_group_by_key.
  by rewrite (assoc_elem_of k vs _ (proj1 (group_by_key_keys items)) Hin).
Qed.
End grouping.

(** ** Node patterns *)

Lemma elem_of_match_nodes (g : graph) (P : node → bool) (i : nat) :
  i ∈ match_nodes g P ↔ ∃ n, g_nodes g !! i = Some n ∧ P n = true.
Proof.
  unfold match_nodes, node_sat. rewrite list_elem_of_In, filter_In, in_seq.
  split.
  - intros [_ Hsat]. destruct (g_nodes g !! i) as [n|]; [eauto|done].
  - intros (n & Hn & HP). rewrite Hn. split; [|done].
    apply lookup_lt_Some in Hn. lia.
Qed.

Lemma NoDup_match_nodes (g : graph) (P : node → bool) : NoDup (match_nodes g P).
Proof. apply NoDup_ListNoDup, List.NoDup_filter, seq_NoDup. Qed.

Lemma match_nodes_nil (g : graph) (P : node → bool) :
  (∀ n, n ∈ g_nodes g → P n = false) → match_nodes g P = [].
Proof.
  intros HP. destruct (match_nodes g P) as [|i l] eqn:Hm; [done|].
  assert (Hi : i ∈ match_nodes g P) by (rewrite Hm; left).
  apply elem_of_match_nodes in Hi as (n & Hn & Hsat).
  apply list_elem_of_lookup_2 in Hn. by rewrite (HP n Hn) in Hsat.
Qed.

(** Matching counts the nodes of the list that satisfy the pattern. *)
Lemma filter_seq_length (P : node → bool) (l : list node) :
  length (List.filter (λ i, match l !! i with Some n => P n | None => false end)
            (seq 0 (length l)))
  = length (List.filter P l).
Proof.
  induction l as [|x l IH] using rev_ind; [done|].
  rewrite length_app, Nat.add_1_r, seq_S, !List.filter_app, !length_app. simpl.
  rewrite list_lookup_middle by done. f_equal.
  - rewrite <- IH. f_equal. apply List.filter_ext_in. intros i [_ Hi]%in_seq.
    by rewrite lookup_app_l by lia.
  - by destruct (P x).
Qed.

Lemma match_nodes_length (g : graph) (P : node → bool) :
  length (match_nodes g P) = length (List.filter P (g_nodes g)).
Proof. apply filter_seq_length. Qed.

(** ** Running the loops of the loaders *)

Lemma group_by_key_Forall_keys {K V : Type} `{EqDecision K} (P : K → Prop)
    (items : list (K * V)) :
  Forall (λ kv, P (fst kv)) items → Forall (λ kv, P (fst kv)) (group_by_key items).
Proof.
  rewrite !Forall_forall. intros Hall [k vs] Hin. cbn [fst].
  assert (Hk : k ∈ (group_by_key items).*1) by apply (list_elem_of_fmap_2 fst _ _ Hin).
  apply (proj1 (proj2 (group_by_key_keys items) k)) in Hk.
  apply list_elem_of_fmap in Hk as (kv & -> & Hkv). by apply Hall.
Qed.

Lemma spliced_name {A : Type} (text : string) (a : A) :
  cypher_name text = true → spliced text a = Ret a.
Proof. intros Hn. unfold spliced. by rewrite Hn. Qed.


Lemma cypher_create_rels_name (rel_type : string) (edges : list edge_rec) (g : graph) :
  cypher_name rel_type = true →
  cypher_create_rels rel_type edges g
  = Ret (Graph (g_nodes g) (g_rels g ++ (edges ≫= edge_matches g rel_type)) (g_indexes g)).
Proof. apply spliced_name. Qed.

Lemma cypher_create_index_eq (k : string) (g : graph) :
  cypher_name k = true →
  cypher_create_index k g = Ret (Graph (g_nodes g) (g_rels g) (g_indexes g ∪ {[k]})).
Proof.
  intros Hk. unfold cypher_create_index. rewrite (spliced_name _ _ Hk). f_equal.
  destruct g as [ns rs ix]; simpl.
  case_decide; [|done]. f_equal. set_solver.
Qed.

Lemma create_indexes_run (s : HetioNetDB) :
  _create_indexes s
  = (Ret tt, DB (Graph (g_nodes (neo4j s)) (g_rels (neo4j s))
                   (g_indexes (neo4j s) ∪ indexed_kinds))
               (diseases_collection s) (clock s) (stdout s ++ ["Created indexes"])).
Proof.
  unfold _create_indexes, for_each, mbind, Py_bind, session_run, print, mret, Py_ret.
  repeat (rewrite cypher_create_index_eq by reflexivity;
          cbn [neo4j diseases_collection clock stdout g_nodes g_rels g_indexes]).
  do 3 f_equal. unfold indexed_kinds. set_solver.
Qed.

Lemma for_each_create_nodes (d : list (option string * list node_rec)) (s : HetioNetDB) :
  Forall (λ item, cypher_name (py_str (fst item)) = true) d →
  for_each d (λ item,
    session_run (cypher_create_nodes (py_str (fst item)) (snd item));;
    print ("Created " +:+ pretty (length (snd item)) +:+ " " +:+ py_str (fst item)
           +:+ " nodes")) s
  = (Ret tt, DB (Graph (g_nodes (neo4j s) ++ (d ≫= nodes_of_group)) (g_rels (neo4j s))
                   (g_indexes (neo4j s)))
               (diseases_collection s) (clock s) (stdout s ++ map node_report d)).
Proof.
  intros Hd. revert s. induction Hd as [|item d Hname _ IH]; intros s.
  - simpl. unfold mret, Py_ret. rewrite !app_nil_r. by destruct s as [[] ? ? ?].
  - cbn [for_each]. unfold mbind at 1, Py_bind at 1.
    unfold mbind at 1, Py_bind at 1, session_run, print, cypher_create_nodes.
    rewrite (spliced_name _ _ Hname). cbn [neo4j diseases_collection clock stdout].
    rewrite IH. cbn [neo4j diseases_collection clock stdout g_nodes g_rels g_indexes map].
    rewrite bind_cons, <- !app_assoc. reflexivity.
Qed.

Lemma node_groups_are_names (reader : list row) :
  Forall kind_is_name reader →
  Forall (λ item, cypher_name (py_str (fst item)) = true)
         (group_by_key (map node_key reader)).
Proof.
  intros Hall.
  apply (group_by_key_Forall_keys (λ k, cypher_name (py_str k) = true)).
  by apply Forall_fmap.
Qed.

Lemma load_nodes_run (nodes_file : string) (reader : list row) (s : HetioNetDB) :
  Forall kind_is_name reader →
  load_nodes nodes_file reader s
  = (Ret tt,
     DB (Graph (g_nodes (neo4j s) ++ (group_by_key (map node_key reader) ≫= nodes_of_group))
           (g_rels (neo4j s)) (g_indexes (neo4j s) ∪ indexed_kinds))
        (diseases_collection s) (clock s)
        (stdout s ++ [newline +:+ "Loading nodes from " +:+ nodes_file +:+ "..."]
           ++ map node_report (group_by_key (map node_key reader))
           ++ ["Created indexes"])).
Proof.
  intros Hnames.
  unfold load_nodes. unfold mbind at 1, Py_bind at 1. unfold print at 1.
  unfold mbind at 1, Py_bind at 1.
  rewrite (for_each_create_nodes _ _ (node_groups_are_names _ Hnames)).
  rewrite create_indexes_run. cbn [neo4j diseases_collection clock stdout g_nodes g_rels g_indexes].
  by rewrite <- !app_assoc.
Qed.

Lemma created_nodes_perm (reader : list row) :
  group_by_key (map node_key reader) ≫= nodes_of_group ≡ₚ map node_of_row reader.
Proof.
  pose proof (bind_group_by_key
    (λ (k : option string) nd, [Node (py_str k) (nr_id nd) (nr_name nd)])
    (map node_key reader)) as Hp.
  assert (Hl : group_by_key (map node_key reader) ≫= nodes_of_group
               = group_by_key (map node_key reader) ≫=
                   (λ kv, snd kv ≫= (λ nd, [Node (py_str (fst kv)) (nr_id nd) (nr_name nd)]))).
  { apply list_bind_ext; [|done]. intros item. unfold nodes_of_group.
    induction (snd item) as [|nd l IH]; [done|]. simpl. by rewrite IH. }
  rewrite Hl, Hp. clear. induction reader as [|r reader IH]; [done|].
  simpl. by rewrite IH.
Qed.

Lemma filter_length_perm {A : Type} (P : A → bool) (l l' : list A) :
  l ≡ₚ l' → length (List.filter P l) = length (List.filter P l').
Proof.
  induction 1 as [|x l l' _ IH|x y l|l l' l'' _ IH1 _ IH2]; simpl.
  - done.
  - destruct (P x); simpl; by rewrite IH.
  - by destruct (P x), (P y).
  - by rewrite IH1.
Qed.

Lemma filter_all {A : Type} (P : A → bool) (l : list A) :
  Forall (λ x, P x = true) l → List.filter P l = l.
Proof. induction 1 as [|x l Hx _ IH]; simpl; [done|]. by rewrite Hx, IH. Qed.

(** ** Node loading *)

(** C6, as stated, fails: a record whose id is that of a stored node does
    not overwrite it.  Loading [Gene::G1] twice leaves two nodes with that
    id, the first one unchanged. *)
Lemma duplicate_id_creates_second_node :
  let s1 := run (load_nodes "nodes.tsv" [node_row "Gene::G1" "GeneA" "Gene"]) db0 in
  let s2 := run (load_nodes "nodes.tsv" [node_row "Gene::G1" "GeneB" "Gene"]) s1 in
  g_nodes (neo4j s2)
  = [Node "Gene" (Some "Gene::G1") (Some "GeneA");
     Node "Gene" (Some "Gene::G1") (Some "GeneB")]
  ∧ ¬ ids_unique (neo4j s2).
Proof.
  split; [by vm_compute|].
  intros Huniq.
  specialize (Huniq 0 1 (Node "Gene" (Some "Gene::G1") (Some "GeneA"))
                (Node "Gene" (Some "Gene::G1") (Some "GeneB")) "Gene::G1").
  assert (H01 : 0 = 1); [|done].
  apply Huniq; by vm_compute.
Qed.

(** C6, amended.  For records whose kinds are plain Cypher names, node
    loading only creates: it returns without error, every stored node keeps
    its position and content, and one node is added per submitted record (in
    some order), whatever the ids are.  So a record whose id equals that of a
    stored node adds a second node with that id. *)
Theorem load_nodes_appends (nodes_file : string) (reader : list row) (s : HetioNetDB) :
  Forall kind_is_name reader →
  fst (load_nodes nodes_file reader s) = Ret tt
  ∧ ∃ created,
      g_nodes (neo4j (run (load_nodes nodes_file reader) s)) = g_nodes (neo4j s) ++ created
      ∧ created ≡ₚ map node_of_row reader.
Proof.
  intros Hnames. unfold run. rewrite (load_nodes_run _ _ _ Hnames). split; [done|].
  eexists. split; [reflexivity|]. apply created_nodes_perm.
Qed.

Lemma load_nodes_appends_witness :
  let s1 := run (load_nodes "nodes.tsv" [node_row "Gene::G1" "GeneA" "Gene"]) db0 in
  let reader := [node_row "Gene::G1" "GeneB" "Gene"] in
  fst (load_nodes "nodes.tsv" reader s1) = Ret tt
  ∧ ∃ created,
      g_nodes (neo4j (run (load_nodes "nodes.tsv" reader) s1)) = g_nodes (neo4j s1) ++ created
      ∧ created ≡ₚ map node_of_row reader.
Proof.
  intros s1 reader. apply (load_nodes_appends "nodes.tsv" reader s1).
  constructor; [vm_compute; reflexivity|constructor].
Defined.

(** C7, as stated, fails: the kind is spliced into the statement as text,
    and a kind that is not a Cypher name makes the server refuse it.  Loading
    one record of kind [Biological Process] raises, and the store holds no
    node of that kind. *)
Lemma kind_with_space_creates_no_node :
  let reader := [node_row "GO:0007049" "cell cycle" "Biological Process"] in
  fst (load_nodes "nodes.tsv" reader db0) = Raise Neo4jError
  ∧ count_kind (neo4j (run (load_nodes "nodes.tsv" reader) db0)) "Biological Process" = 0
  ∧ length reader = 1.
Proof. by vm_compute. Qed.

(** C7, amended.  Loading [N] records of one kind, when that kind is a plain
    Cypher name, adds exactly [N] nodes of that kind to the store, in
    whatever order the records are submitted; into the empty store that makes
    exactly [N] nodes of the kind. *)
Theorem load_nodes_count_kind (kind : option string) (reader reader' : list row)
    (nodes_file : string) (s : HetioNetDB) :
  cypher_name (py_str kind) = true →
  Forall (λ r, fst (node_key r) = kind) reader →
  reader ≡ₚ reader' →
  count_kind (neo4j (run (load_nodes nodes_file reader') s)) (py_str kind)
  = count_kind (neo4j s) (py_str kind) + length reader.
Proof.
  intros Hname Hkind Hperm. unfold run, count_kind.
  assert (Hnames : Forall kind_is_name reader').
  { rewrite <- Hperm. eapply Forall_impl; [exact Hkind|].
    intros r Hr. cbv beta in Hr. unfold kind_is_name. by rewrite Hr. }
  rewrite (load_nodes_run _ _ _ Hnames), !match_nodes_length. cbn [snd neo4j g_nodes].
  rewrite List.filter_app, length_app. f_equal.
  rewrite (filter_length_perm _ _ _ (created_nodes_perm reader')).
  rewrite <- (filter_length_perm _ _ _ (fmap_Permutation node_of_row _ _ Hperm)).
  rewrite filter_all; [by rewrite length_map|].
  apply Forall_fmap. eapply Forall_impl; [exact Hkind|].
  intros r Hr. cbv beta in Hr. unfold compose, has_label, node_of_row.
  cbn [n_label]. rewrite Hr. apply String.eqb_refl.
Qed.

Lemma load_nodes_count_kind_witness :
  count_kind (neo4j (run (load_nodes "nodes.tsv"
                            [node_row "Gene::G2" "GeneB" "Gene";
                             node_row "Gene::G1" "GeneA" "Gene"]) db0)) "Gene" = 2.
Proof.
  apply (load_nodes_count_kind (Some "Gene")
           [node_row "Gene::G1" "GeneA" "Gene"; node_row "Gene::G2" "GeneB" "Gene"]
           [node_row "Gene::G2" "GeneB" "Gene"; node_row "Gene::G1" "GeneA" "Gene"]
           "nodes.tsv" db0).
  - reflexivity.
  - repeat constructor.
  - apply perm_swap.
Defined.

(** C9, as stated, fails: after loading a record of kind [Pathway] no index
    exists for [Pathway]. *)
Lemma index_not_created_for_observed_kind :
  let reader := [node_row "Pathway::P1" "Glycolysis" "Pathway"] in
  let s := run (load_nodes "nodes.tsv" reader) db0 in
  count_kind (neo4j s) "Pathway" = 1
  ∧ ¬ (∀ r, r ∈ reader → py_str (fst (node_key r)) ∈ g_indexes (neo4j s)).
Proof.
  split; [by vm_compute|].
  intros Hall.
  specialize (Hall (node_row "Pathway::P1" "Glycolysis" "Pathway")
                (list_elem_of_here _ _)).
  unfold run in Hall. rewrite load_nodes_run in Hall
    by (constructor; [vm_compute; reflexivity|constructor]).
  change (py_str _) with "Pathway" in Hall. cbn [snd neo4j g_indexes db0 empty_graph] in Hall.
  unfold indexed_kinds in Hall. set_solver.
Qed.

(** C9, amended.  Loading node records whose kinds are plain Cypher names
    ensures an index for each of the four kinds [Gene], [Compound],
    [Disease] and [Anatomy], whatever kinds the records have, and for no
    other kind.  Index creation is idempotent: loading the same records a
    second time leaves the indexes as the first load left them, and a load
    into a store that has the four indexes leaves the indexes as they
    were. *)
Theorem load_nodes_indexes (nodes_file : string) (reader : list row) (s : HetioNetDB) :
  Forall kind_is_name reader →
  let s1 := run (load_nodes nodes_file reader) s in
  g_indexes (neo4j s1) = g_indexes (neo4j s) ∪ indexed_kinds
  ∧ g_indexes (neo4j (run (load_nodes nodes_file reader) s1)) = g_indexes (neo4j s1)
  ∧ (indexed_kinds ⊆ g_indexes (neo4j s) → g_indexes (neo4j s1) = g_indexes (neo4j s)).
Proof.
  intros Hnames s1. subst s1. unfold run.
  rewrite !(load_nodes_run _ _ _ Hnames). cbn [snd neo4j g_indexes].
  split; [done|]. split; [set_solver|]. intros Hsub. set_solver.
Qed.

Lemma load_nodes_indexes_witness :
  let reader := [node_row "Pathway::P1" "Glycolysis" "Pathway";
                 node_row "Gene::G2" "GeneB" "Gene"] in
  let s := DB (Graph [Node "Gene" (Some "Gene::G1") (Some "GeneA")] [] {["Gene"]})
              ∅ [] [] in
  let s1 := run (load_nodes "nodes.tsv" reader) s in
  g_indexes (neo4j s1) = g_indexes (neo4j s) ∪ indexed_kinds
  ∧ g_indexes (neo4j (run (load_nodes "nodes.tsv" reader) s1)) = g_indexes (neo4j s1)
  ∧ (indexed_kinds ⊆ g_indexes (neo4j s) → g_indexes (neo4j s1) = g_indexes (neo4j s)).
Proof.
  intros reader s. apply (load_nodes_indexes "nodes.tsv" reader s).
  constructor; [vm_compute; reflexivity|].
  constructor; [vm_compute; reflexivity|constructor].
Defined.

(** ** Edge loading *)

Lemma edge_matches_nodes (g g' : graph) (rel_type : string) (edge : edge_rec) :
  g_nodes g = g_nodes g' → edge_matches g rel_type edge = edge_matches g' rel_type edge.
Proof. intros Hn. unfold edge_matches, match_nodes, node_sat. by rewrite Hn. Qed.

Lemma rels_of_group_nodes (g g' : graph) (d : list (option string * list edge_rec)) :
  g_nodes g = g_nodes g' → d ≫= rels_of_group g = d ≫= rels_of_group g'.
Proof.
  intros Hn. apply list_bind_ext; [|done]. intros item. unfold rels_of_group.
  apply list_bind_ext; [|done]. intros e. by apply edge_matches_nodes.
Qed.

Lemma for_each_create_rels (d : list (option string * list edge_rec)) (s : HetioNetDB) :
  Forall (λ item, cypher_name (rel_type_of (fst item)) = true) d →
  for_each d (λ item,
    rel_type ← call_parse_metaedge (fst item);
    session_run (cypher_create_rels rel_type (snd item));;
    print ("Created " +:+ pretty (length (snd item)) +:+ " " +:+ rel_type
           +:+ " relationships")) s
  = (Ret tt, DB (Graph (g_nodes (neo4j s))
                   (g_rels (neo4j s) ++ (d ≫= rels_of_group (neo4j s)))
                   (g_indexes (neo4j s)))
               (diseases_collection s) (clock s) (stdout s ++ map edge_report d)).
Proof.
  intros Hd. revert s. induction Hd as [|[k es] d Hname _ IH]; intros s.
  - simpl. unfold mret, Py_ret. rewrite !app_nil_r. by destruct s as [[] ? ? ?].
  - destruct k as [m|]; [|discriminate Hname]. cbn [fst rel_type_of] in Hname.
    cbn [for_each fst snd call_parse_metaedge].
    unfold mbind at 1, Py_bind at 1. unfold mbind at 1, Py_bind at 1.
    unfold mret at 1, Py_ret at 1. unfold mbind at 1, Py_bind at 1.
    unfold session_run, print, cypher_create_rels.
    rewrite (spliced_name _ _ Hname). cbn [neo4j diseases_collection clock stdout].
    rewrite IH. cbn [neo4j diseases_collection clock stdout g_nodes g_rels g_indexes map].
    rewrite (rels_of_group_nodes _ (neo4j s)) by done.
    rewrite bind_cons, <- !app_assoc. reflexivity.
Qed.

Lemma edge_groups_have_metaedge (reader : list row) :
  Forall has_metaedge reader →
  Forall (λ item : option string * list edge_rec, is_Some (fst item))
    (group_by_key (map edge_key reader)).
Proof.
  intros Hall. apply Forall_forall. intros [k es] Hin.
  assert (Hk : k ∈ (map edge_key reader).*1).
  { apply group_by_key_keys. apply (list_elem_of_fmap_2 fst _ _ Hin). }
  apply list_elem_of_fmap in Hk as (kv & -> & Hkv).
  apply list_elem_of_fmap in Hkv as (r & -> & Hr).
  by apply (proj1 (Forall_forall _ _) Hall r).
Qed.

Lemma rel_type_is_name_has_metaedge (r : row) : rel_type_is_name r → has_metaedge r.
Proof.
  unfold rel_type_is_name, has_metaedge. destruct (fst (edge_key r)); [eauto|done].
Qed.

Lemma edge_groups_are_names (reader : list row) :
  Forall rel_type_is_name reader →
  Forall (λ item : option string * list edge_rec, cypher_name (rel_type_of (fst item)) = true)
    (group_by_key (map edge_key reader)).
Proof.
  intros Hall.
  apply (group_by_key_Forall_keys (λ k, cypher_name (rel_type_of k) = true)).
  by apply Forall_fmap.
Qed.

Lemma load_edges_run (edges_file : string) (reader : list row) (s : HetioNetDB) :
  Forall rel_type_is_name reader →
  load_edges edges_file reader s
  = (Ret tt,
     DB (Graph (g_nodes (neo4j s))
           (g_rels (neo4j s)
              ++ (group_by_key (map edge_key reader) ≫= rels_of_group (neo4j s)))
           (g_indexes (neo4j s)))
        (diseases_collection s) (clock s)
        (stdout s ++ [newline +:+ "Loading edges from " +:+ edges_file +:+ "..."]
           ++ map edge_report (group_by_key (map edge_key reader)))).
Proof.
  intros Hall. unfold load_edges. unfold mbind at 1, Py_bind at 1. unfold print at 1.
  rewrite for_each_create_rels by by apply edge_groups_are_names.
  cbn [neo4j diseases_collection clock stdout]. by rewrite <- !app_assoc.
Qed.

Lemma length_bind_sum {A B : Type} (f : A → list B) (l : list A) :
  length (l ≫= f) = sum_list_with (λ x, length (f x)) l.
Proof.
  induction l as [|x l IH]; [done|]. rewrite bind_cons, length_app, IH. done.
Qed.

Lemma created_rels_length (g : graph) (reader : list row) :
  length (group_by_key (map edge_key reader) ≫= rels_of_group g)
  = sum_list_with (materialized_by g) reader.
Proof.
  pose proof (bind_group_by_key
    (λ (k : option string) e, edge_matches g (rel_type_of k) e)
    (map edge_key reader)) as Hp.
  unfold rels_of_group. rewrite Hp, length_bind_sum. clear Hp.
  induction reader as [|r reader IH]; [done|].
  cbn [map sum_list_with]. rewrite IH. reflexivity.
Qed.

Lemma edge_matches_length (g : graph) (rel_type : string) (edge : edge_rec) :
  length (edge_matches g rel_type edge)
  = length (match_nodes g (has_id (er_source edge)))
    * length (match_nodes g (has_id (er_target edge))).
Proof.
  unfold edge_matches.
  set (targets := match_nodes g (has_id (er_target edge))).
  induction (match_nodes g (has_id (er_source edge))) as [|i l IH]; [done|].
  rewrite bind_cons, length_app, IH. simpl. f_equal.
  clear. induction targets as [|j l IH]; [done|].
  rewrite bind_cons, length_app, IH. done.
Qed.

Lemma id_present_false (g : graph) (v : option string) :
  id_present g v = false ↔ match_nodes g (has_id v) = [].
Proof.
  unfold id_present. split.
  - intros Hex. apply match_nodes_nil. intros n Hn.
    destruct (has_id v n) eqn:Hid; [|done].
    assert (existsb (has_id v) (g_nodes g) = true); [|congruence].
    apply existsb_exists. exists n. by rewrite <- list_elem_of_In.
  - intros Hnil. destruct (existsb (has_id v) (g_nodes g)) eqn:Hex; [|done].
    apply existsb_exists in Hex as (n & Hn & Hid).
    apply list_elem_of_In, list_elem_of_lookup in Hn as (i & Hi).
    assert (Hin : i ∈ match_nodes g (has_id v)) by (apply elem_of_match_nodes; eauto).
    rewrite Hnil in Hin. by apply elem_of_nil in Hin.
Qed.

Lemma missing_endpoint_materializes_nothing (g : graph) (r : row) :
  endpoint_missing g r → materialized_by g r = 0.
Proof.
  unfold materialized_by. rewrite edge_matches_length.
  intros [H|H]; apply id_present_false in H; rewrite H; simpl; lia.
Qed.

Lemma has_id_inv (v : option string) (n : node) :
  has_id v n = true → ∃ id, v = Some id ∧ n_id n = Some id.
Proof.
  unfold has_id, cy_eqb. destruct (n_id n) as [x|], v as [y|]; try done.
  intros ->%String.eqb_eq. eauto.
Qed.

Lemma match_id_at_most_one (g : graph) (v : option string) :
  ids_unique g → (length (match_nodes g (has_id v)) ≤ 1)%nat.
Proof.
  intros Huniq. pose proof (NoDup_match_nodes g (has_id v)) as Hnd.
  destruct (match_nodes g (has_id v)) as [|i [|j l]] eqn:Hm; simpl; [lia|lia|].
  assert (Hi : i ∈ match_nodes g (has_id v)) by (rewrite Hm; set_solver).
  assert (Hj : j ∈ match_nodes g (has_id v)) by (rewrite Hm; set_solver).
  apply elem_of_match_nodes in Hi as (n & Hn & (x & -> & Hnx)%has_id_inv).
  apply elem_of_match_nodes in Hj as (m & Hmj & (y & Hxy & Hmy)%has_id_inv).
  simplify_eq. assert (i = j) as -> by (by eapply Huniq).
  apply NoDup_cons in Hnd as [Hnot _]. destruct Hnot. by left.
Qed.

Lemma materialized_by_unique (g : graph) (r : row) :
  ids_unique g →
  (materialized_by g r ≤ 1)%nat ∧ (materialized_by g r = 0 ↔ endpoint_missing g r).
Proof.
  intros Huniq. unfold materialized_by, endpoint_missing.
  rewrite edge_matches_length, !id_present_false.
  pose proof (match_id_at_most_one g (er_source (snd (edge_key r))) Huniq).
  pose proof (match_id_at_most_one g (er_target (snd (edge_key r))) Huniq).
  destruct (match_nodes g (has_id (er_source (snd (edge_key r))))) as [|? ?],
           (match_nodes g (has_id (er_target (snd (edge_key r))))) as [|? ?];
    simpl in *; split; try lia; split; try tauto; try lia; by intros [?|?].
Qed.

Lemma sum_at_most_length {A : Type} (f : A → nat) (l : list A) :
  (∀ x, x ∈ l → (f x ≤ 1)%nat) →
  (sum_list_with f l ≤ length l)%nat
  ∧ ((sum_list_with f l < length l)%nat ↔ ∃ x, x ∈ l ∧ f x = 0).
Proof.
  induction l as [|a l IH]; intros Hle.
  - simpl. split; [lia|]. split; [lia|]. intros (x & Hx & _). by apply elem_of_nil in Hx.
  - destruct IH as [IH1 IH2]; [intros x Hx; apply Hle; by right|].
    pose proof (Hle a (list_elem_of_here _ _)) as Ha. simpl. split; [lia|]. split.
    + intros Hlt. destruct (decide (f a = 0)) as [H0|Hn0].
      * exists a. split; [by left|done].
      * destruct (proj1 IH2) as (x & Hx & Hfx); [lia|]. exists x. split; [by right|done].
    + intros (x & [->|Hx]%elem_of_cons & Hfx); [lia|].
      assert (sum_list_with f l < length l)%nat by (apply IH2; eauto). lia.
Qed.

Lemma filter_map_comm {A B : Type} (P : B → bool) (f : A → B) (l : list A) :
  List.filter P (map f l) = map f (List.filter (λ x, P (f x)) l).
Proof.
  induction l as [|x l IH]; [done|]. simpl. destruct (P (f x)); simpl; by rewrite IH.
Qed.

(** C3, as stated, fails: with two stored nodes of id [Compound::C1], the one
    record from [Compound::C1] to [Disease::D1], whose endpoints both
    resolve, materializes two relationships, more than were submitted. *)
Lemma materialized_exceeds_submitted :
  let s := run (load_nodes "nodes.tsv" duplicate_id_nodes) db0 in
  let reader := [edge_row "Compound::C1" "Disease::D1" "CtD"] in
  let s' := run (load_edges "edges.tsv" reader) s in
  fst (load_edges "edges.tsv" reader s) = Ret tt
  ∧ g_rels (neo4j s) = []
  ∧ g_rels (neo4j s') = [Rel 0 "TREATS" 2; Rel 1 "TREATS" 2]
  ∧ ¬ (length (g_rels (neo4j s')) - length (g_rels (neo4j s)) ≤ length reader)%nat.
Proof.
  split; [by vm_compute|]. split; [by vm_compute|]. split; [by vm_compute|].
  vm_compute. lia.
Qed.

(** C3, amended.  For edge records that each carry a metaedge code whose
    relationship type is a plain Cypher name, edge loading raises no error
    and leaves the nodes as they are; a record whose source id or target id
    is carried by no stored node materializes no relationship; a record
    materializes (number of stored nodes with its source id) times (number of
    stored nodes with its target id) relationships, and the number of
    relationships materialized is the sum of that product over the records.
    When no two stored nodes share an id, that number is at most the number
    of records submitted, and strictly less exactly when some submitted
    record has a missing endpoint. *)
Theorem load_edges_materialized (edges_file : string) (reader : list row)
    (s : HetioNetDB) :
  Forall rel_type_is_name reader →
  fst (load_edges edges_file reader s) = Ret tt
  ∧ g_nodes (neo4j (run (load_edges edges_file reader) s)) = g_nodes (neo4j s)
  ∧ (∀ r, endpoint_missing (neo4j s) r → materialized_by (neo4j s) r = 0)
  ∧ (∀ r, materialized_by (neo4j s) r
          = count_id (neo4j s) (er_source (snd (edge_key r)))
            * count_id (neo4j s) (er_target (snd (edge_key r))))
  ∧ length (g_rels (neo4j (run (load_edges edges_file reader) s)))
    = length (g_rels (neo4j s))
      + sum_list_with (λ r, count_id (neo4j s) (er_source (snd (edge_key r)))
                            * count_id (neo4j s) (er_target (snd (edge_key r)))) reader
  ∧ (ids_unique (neo4j s) →
       (length (g_rels (neo4j (run (load_edges edges_file reader) s)))
          - length (g_rels (neo4j s)) ≤ length reader)%nat
       ∧ ((length (g_rels (neo4j (run (load_edges edges_file reader) s)))
             - length (g_rels (neo4j s)) < length reader)%nat
          ↔ ∃ r, r ∈ reader ∧ endpoint_missing (neo4j s) r)).
Proof.
  intros Hall. unfold run. rewrite (load_edges_run _ _ _ Hall).
  cbn [fst snd neo4j g_nodes g_rels].
  rewrite length_app, created_rels_length.
  split; [done|]. split; [done|].
  split; [apply missing_endpoint_materializes_nothing|].
  split; [intros r; apply edge_matches_length|].
  split.
  { f_equal. clear. induction reader as [|r reader IH]; [done|].
    cbn [sum_list_with]. rewrite IH. f_equal. apply edge_matches_length. }
  intros Huniq.
  replace (length (g_rels (neo4j s)) + sum_list_with (materialized_by (neo4j s)) reader
           - length (g_rels (neo4j s)))
    with (sum_list_with (materialized_by (neo4j s)) reader) by lia.
  destruct (sum_at_most_length (materialized_by (neo4j s)) reader) as [Hle Hlt].
  { intros r _. by apply materialized_by_unique. }
  split; [done|]. rewrite Hlt. split.
  - intros (r & Hr & H0). exists r. split; [done|].
    by apply (materialized_by_unique _ _ Huniq).
  - intros (r & Hr & Hmiss). exists r. split; [done|].
    by apply (materialized_by_unique _ _ Huniq).
Qed.

Lemma two_nodes_ids_unique :
  ids_unique (neo4j (run (load_nodes "nodes.tsv" two_nodes) db0)).
Proof.
  intros i j n m id Hi Hj Hn Hm.
  change (g_nodes (neo4j (run (load_nodes "nodes.tsv" two_nodes) db0)))
    with [Node "Compound" (Some "Compound::C1") (Some "DrugA");
          Node "Disease" (Some "Disease::D1") (Some "Flu")] in Hi, Hj.
  destruct i as [|[|i]], j as [|[|j]]; simplify_eq/=; done.
Qed.

Lemma load_edges_materialized_witness :
  let s := run (load_nodes "nodes.tsv" two_nodes) db0 in
  let reader := [edge_row "Compound::C1" "Disease::D1" "CtD";
                 edge_row "Compound::C1" "Disease::D9" "CtD"] in
  (length (g_rels (neo4j (run (load_edges "edges.tsv" reader) s)))
     - length (g_rels (neo4j s)) ≤ length reader)%nat.
Proof.
  intros s reader.
  assert (Hall : Forall rel_type_is_name reader).
  { repeat constructor; by vm_compute. }
  apply (load_edges_materialized "edges.tsv" reader s Hall).
  apply two_nodes_ids_unique.
Defined.

(** C8, as stated, fails: a group is reported only when the loop reaches the
    end of its turn.  After a record without a metaedge code the loop stops
    with an [AttributeError], and the group of the one [DaG] record is never
    reported; a group whose code gives a relationship type that is not a
    Cypher name ([C-D]) is refused by the server and is not reported
    either. *)
Lemma group_unreported_after_failure :
  let s := run (load_nodes "nodes.tsv" scenario_nodes) db0 in
  let reader := [ {[ "Source" := "Compound::C1"; "Target" := "Disease::D1" ]};
                  edge_row "Disease::D1" "Gene::G1" "DaG" ] in
  let reader' := [ edge_row "Compound::C1" "Disease::D1" "C-D" ] in
  (length (rows_with_metaedge "DaG" reader) = 1
   ∧ fst (load_edges "edges.tsv" reader s) = Raise AttributeError
   ∧ stdout (run (load_edges "edges.tsv" reader) s)
     = stdout s ++ [newline +:+ "Loading edges from edges.tsv..."])
  ∧ (length (rows_with_metaedge "C-D" reader') = 1
     ∧ fst (load_edges "edges.tsv" reader' s) = Raise Neo4jError
     ∧ stdout (run (load_edges "edges.tsv" reader') s)
       = stdout s ++ [newline +:+ "Loading edges from edges.tsv..."]).
Proof. by vm_compute. Qed.

(** C8, amended.  For edge records that each carry a metaedge code whose
    relationship type is a plain Cypher name, edge loading completes and
    prints one line per group of records sharing a code, and the count it
    reports as created is the number of records of that group, whatever the
    store holds and however many relationships were materialized. *)
Theorem load_edges_reports_input_count (edges_file : string) (reader : list row)
    (s : HetioNetDB) :
  Forall rel_type_is_name reader →
  fst (load_edges edges_file reader s) = Ret tt
  ∧ stdout (run (load_edges edges_file reader) s)
    = stdout s ++ [newline +:+ "Loading edges from " +:+ edges_file +:+ "..."]
        ++ map edge_report (group_by_key (map edge_key reader))
  ∧ (∀ k edges, (k, edges) ∈ group_by_key (map edge_key reader) →
       ∃ m, k = Some m ∧ length edges = length (rows_with_metaedge m reader))
  ∧ (∀ r m, r ∈ reader → fst (edge_key r) = Some m →
       "Created " +:+ pretty (length (rows_with_metaedge m reader)) +:+ " "
         +:+ _parse_metaedge m +:+ " relationships"
       ∈ stdout (run (load_edges edges_file reader) s)).
Proof.
  intros Hnames. unfold run. rewrite (load_edges_run _ _ _ Hnames).
  cbn [fst snd stdout].
  assert (Hall : Forall has_metaedge reader).
  { eapply Forall_impl; [exact Hnames|]. apply rel_type_is_name_has_metaedge. }
  assert (Hgroup : ∀ m edges, (Some m, edges) ∈ group_by_key (map edge_key reader) →
            length edges = length (rows_with_metaedge m reader)).
  { intros m edges Hin. rewrite (group_by_key_group _ _ _ Hin).
    rewrite filter_map_comm, length_fmap, length_map. done. }
  split; [done|]. split; [done|]. split.
  - intros k edges Hin.
    pose proof (proj1 (Forall_forall _ _) (edge_groups_have_metaedge _ Hall) _ Hin)
      as [m Hm].
    cbn [fst] in Hm. subst k. exists m. split; [done|]. by apply Hgroup.
  - intros r m Hr Hm.
    assert (Hk : Some m ∈ (group_by_key (map edge_key reader)).*1).
    { apply group_by_key_keys. rewrite <- Hm.
      apply list_elem_of_fmap_2. by apply list_elem_of_fmap_2. }
    apply list_elem_of_fmap in Hk as ([k edges] & Hkm & Hin). cbn [fst] in Hkm. subst k.
    rewrite !elem_of_app. right. right.
    rewrite <- (Hgroup m edges Hin).
    apply (list_elem_of_fmap_2 edge_report _ _ Hin).
Qed.

(** The report and the store diverge: one record is reported as created
    while nothing was materialized. *)
Lemma load_edges_reports_input_count_witness :
  let reader := [edge_row "Compound::C1" "Disease::D1" "CtD"] in
  "Created 1 TREATS relationships" ∈ stdout (run (load_edges "edges.tsv" reader) db0)
  ∧ g_rels (neo4j (run (load_edges "edges.tsv" reader) db0)) = [].
Proof.
  intros reader.
  assert (Hall : Forall rel_type_is_name reader).
  { repeat constructor; by vm_compute. }
  split; [|by vm_compute].
  apply (proj2 (proj2 (proj2 (load_edges_reports_input_count "edges.tsv" reader db0 Hall)))
           (edge_row "Compound::C1" "Disease::D1" "CtD") "CtD").
  - left.
  - by vm_compute.
Defined.

(** ** Query 1 and the cache *)

Ltac py_unfold :=
  unfold mbind, Py_bind, option_bind, mret, Py_ret, raise, session_query, session_run,
    print, time_time, find_one, replace_one_upsert, count_documents;
  cbn [neo4j diseases_collection clock stdout fst snd].

Lemma get_disease_info_run (disease_id disease_name : option string) (s : HetioNetDB) :
  _get_disease_info_from_neo4j disease_id disease_name s
  = (match disease_doc (neo4j s) disease_id with
     | Some doc => Ret doc
     | None => Raise TypeError
     end, s).
Proof.
  unfold _get_disease_info_from_neo4j, disease_doc. py_unfold.
  by destruct (single (cypher_disease_info (neo4j s) disease_id)).
Qed.

Lemma query1_direct_run (disease_id : string) (s : HetioNetDB) :
  fst (query1_disease_info disease_id false s)
  = match disease_doc (neo4j s) (Some disease_id) with
    | Some doc => Ret (Some (Query1Result doc (elapsed s) "Neo4j (direct)"))
    | None => Raise TypeError
    end.
Proof.
  unfold query1_disease_info, disease_doc, elapsed. py_unfold.
  by destruct (single (cypher_disease_info (neo4j s) (Some disease_id))).
Qed.

Lemma query1_cached_run (disease_id : string) (s : HetioNetDB) :
  fst (query1_disease_info disease_id true s)
  = Ret (match diseases_collection s !! Some disease_id with
         | Some doc => Some (Query1Result doc (elapsed s) "MongoDB (cached)")
         | None => None
         end).
Proof.
  unfold query1_disease_info, elapsed. py_unfold.
  by destruct (diseases_collection s !! Some disease_id).
Qed.

Lemma bind_nil_all {A B : Type} (f : A → list B) (l : list A) :
  (∀ x, x ∈ l → f x = []) → l ≫= f = [].
Proof.
  induction l as [|x l IH]; intros Hf; [done|].
  rewrite bind_cons, (Hf x) by left. apply IH. intros y Hy. apply Hf. by right.
Qed.

Lemma disease_pattern_inv (disease_id : string) (n : node) :
  has_label "Disease" n && has_id (Some disease_id) n = true →
  n_label n = "Disease" ∧ n_id n = Some disease_id.
Proof.
  intros [Hl Hi]%andb_true_iff. split; [by apply String.eqb_eq in Hl|].
  apply has_id_inv in Hi as (x & Hx & Hn). by simplify_eq.
Qed.

Lemma disease_pattern_intro (disease_id : string) (n : node) :
  n_label n = "Disease" → n_id n = Some disease_id →
  has_label "Disease" n && has_id (Some disease_id) n = true.
Proof.
  intros Hl Hi. unfold has_label, has_id, cy_eqb. rewrite Hl, Hi. simpl.
  apply String.eqb_refl.
Qed.

Lemma unresolved_no_match (g : graph) (disease_id : string) :
  ¬ disease_resolves g disease_id →
  match_nodes g (λ n, has_label "Disease" n && has_id (Some disease_id) n) = [].
Proof.
  intros Hno. apply match_nodes_nil. intros n Hn.
  destruct (has_label "Disease" n && has_id (Some disease_id) n) eqn:Hp; [|done].
  destruct Hno. exists n. split; [done|]. by apply disease_pattern_inv.
Qed.

Lemma unresolved_no_doc (g : graph) (disease_id : string) :
  ¬ disease_resolves g disease_id → disease_doc g (Some disease_id) = None.
Proof.
  intros Hno. unfold disease_doc, cypher_disease_info, q1_rows.
  by rewrite (unresolved_no_match _ _ Hno).
Qed.

Lemma optional_inhabited {A : Type} (l : list A) : ∃ o, o ∈ optional l.
Proof.
  destruct l as [|x l]; simpl.
  - exists None. by left.
  - exists (Some x). by left.
Qed.

Lemma resolved_has_doc (g : graph) (disease_id : string) :
  disease_resolves g disease_id → is_Some (disease_doc g (Some disease_id)).
Proof.
  intros (n & Hn & Hl & Hi).
  apply list_elem_of_lookup in Hn as (d & Hd).
  assert (Hrow : ∃ row, row ∈ q1_rows g (Some disease_id)).
  { destruct (optional_inhabited (match_in g d ["TREATS"; "PALLIATES"] "Compound"))
      as (r & Hr).
    destruct (optional_inhabited
                (match_out g d ["ASSOCIATES"; "UPREGULATES"; "DOWNREGULATES"] "Gene"))
      as (gr & Hgr).
    destruct (optional_inhabited (match_out g d ["LOCALIZES_TO"] "Anatomy")) as (la & Hla).
    exists (Q1Row d r gr la). unfold q1_rows.
    apply list_elem_of_bind. exists d. split.
    - apply list_elem_of_bind. exists r. split; [|done].
      apply list_elem_of_bind. exists gr. split; [|done].
      apply list_elem_of_bind. exists la. split; [by left|done].
    - apply elem_of_match_nodes. exists n. split; [done|].
      by apply disease_pattern_intro. }
  destruct Hrow as (row & Hrow).
  unfold disease_doc, cypher_disease_info.
  set (items := map (λ row, (prop_name g (q1_d row), row)) (q1_rows g (Some disease_id))).
  assert (Hk : prop_name g (q1_d row) ∈ (group_by_key items).*1).
  { apply group_by_key_keys. unfold items.
    apply list_elem_of_fmap. exists (prop_name g (q1_d row), row). split; [done|].
    by apply (list_elem_of_fmap_2 (λ row, (prop_name g (q1_d row), row))). }
  destruct (group_by_key items) as [|grp groups]; [by apply elem_of_nil in Hk|].
  simpl. eauto.
Qed.

(** The loop of the cache rebuild: when it completes, the graph is as it
    was, every id it went through has a record in the graph, and the
    collection maps each of those ids to the base fields the graph gives. *)
Lemma for_each_upsert (records : list (option string * option string))
    (s s' : HetioNetDB) :
  for_each records (λ record,
    disease_info ← _get_disease_info_from_neo4j (fst record) (snd record);
    replace_one_upsert (fst record) disease_info) s = (Ret tt, s') →
  neo4j s' = neo4j s
  ∧ stdout s' = stdout s
  ∧ (∀ k, k ∈ records.*1 → is_Some (disease_doc (neo4j s) k))
  ∧ (∀ k, diseases_collection s' !! k
          = if decide (k ∈ records.*1) then disease_doc (neo4j s) k
            else diseases_collection s !! k).
Proof.
  revert s. induction records as [|[k0 nm] records IH]; intros s.
  - simpl. unfold mret, Py_ret. intros [= <-]. split; [done|]. split; [done|].
    split; [by intros k ?%elem_of_nil|done].
  - cbn [for_each fst snd]. unfold mbind at 1, Py_bind at 1.
    unfold mbind at 1, Py_bind at 1. rewrite get_disease_info_run.
    destruct (disease_doc (neo4j s) k0) as [doc|] eqn:Hdoc; [|done].
    unfold replace_one_upsert at 1. intros Hrest.
    apply IH in Hrest as (Hg & Hout & Hsome & Hcoll).
    cbn [neo4j diseases_collection stdout] in Hg, Hout, Hsome, Hcoll.
    split; [done|]. split; [done|]. split.
    + intros k Hk. rewrite fmap_cons in Hk. cbn [fst] in Hk.
      apply elem_of_cons in Hk as [->|Hk]; [by rewrite Hdoc|by apply Hsome].
    + intros k. rewrite Hcoll, fmap_cons. cbn [fst].
      destruct (decide (k ∈ records.*1)) as [Hin|Hout'].
      * rewrite decide_True; [done|by right].
      * destruct (decide (k = k0)) as [->|Hne].
        -- rewrite decide_True by left. by rewrite lookup_insert_eq.
        -- rewrite decide_False by (by intros [?|?]%elem_of_cons).
           by rewrite lookup_insert_ne.
Qed.

Lemma build_mongo_cache_inv (s s' : HetioNetDB) :
  build_mongo_cache s = (Ret tt, s') →
  neo4j s' = neo4j s
  ∧ (∀ k, k ∈ (cypher_all_diseases (neo4j s)).*1 → is_Some (disease_doc (neo4j s) k))
  ∧ (∀ k, diseases_collection s' !! k
          = if decide (k ∈ (cypher_all_diseases (neo4j s)).*1)
            then disease_doc (neo4j s) k
            else diseases_collection s !! k).
Proof.
  unfold build_mongo_cache. unfold mbind at 1, Py_bind at 1. unfold print at 1.
  unfold mbind at 1, Py_bind at 1. unfold session_query at 1.
  cbn [neo4j diseases_collection clock stdout].
  unfold mbind at 1, Py_bind at 1.
  match goal with |- context [for_each ?l ?body ?s0] =>
    destruct (for_each l body s0) as [[[]|e|] s1] eqn:Hloop end; [|done|done].
  apply for_each_upsert in Hloop as (Hg & _ & Hsome & Hcoll).
  cbn [neo4j diseases_collection] in Hg, Hsome, Hcoll.
  py_unfold. intros [= <-]. cbn [neo4j diseases_collection]. done.
Qed.

Lemma resolved_in_all_diseases (g : graph) (disease_id : string) :
  disease_resolves g disease_id → Some disease_id ∈ (cypher_all_diseases g).*1.
Proof.
  intros (n & Hn & Hl & Hi). apply list_elem_of_lookup in Hn as (d & Hd).
  unfold cypher_all_diseases. apply list_elem_of_fmap.
  exists (prop_id g d, prop_name g d). split.
  - unfold prop_id. rewrite Hd. simpl. done.
  - apply (list_elem_of_fmap_2 (λ d, (prop_id g d, prop_name g d))).
    apply elem_of_match_nodes. exists n. split; [done|].
    unfold has_label. rewrite Hl. apply String.eqb_refl.
Qed.

(** C1, as stated, fails: the cache is not refreshed by later loads.  The
    disease [Disease::D1] is in the store when the rebuild runs, and the
    rebuild completes; an edge loaded afterwards shows in the direct read and
    not in the cached one. *)
Lemma cache_is_stale_after_later_load :
  let s0 := run (load_edges "edges.tsv" scenario_edges)
              (run (load_nodes "nodes.tsv" scenario_nodes) db0) in
  let s := run (load_edges "more.tsv" [edge_row "Compound::C2" "Disease::D1" "CpD"])
             (scenario_db []) in
  build_mongo_cache s0 = (Ret tt, scenario_db [])
  ∧ disease_resolves (neo4j s0) "Disease::D1"
  ∧ map base_of [fst (query1_disease_info "Disease::D1" true s);
                 fst (query1_disease_info "Disease::D1" false s)]
    = (let d1 := DrugMap (Some "Compound::C1") (Some "DrugA") (Some "TREATS") in
       let d2 := DrugMap (Some "Compound::C2") (Some "DrugB") (Some "PALLIATES") in
       let g1 := GeneMap (Some "Gene::G1") (Some "GeneA") (Some "ASSOCIATES") in
       let a1 := LocMap (Some "Anatomy::A1") (Some "Lung") in
       [Ret (Some (DiseaseInfo (Some "Disease::D1") (Some "Flu") [d1] [g1] [a1]));
        Ret (Some (DiseaseInfo (Some "Disease::D1") (Some "Flu") [d1; d2] [g1] [a1]))])
  ∧ base_of (fst (query1_disease_info "Disease::D1" true s))
    ≠ base_of (fst (query1_disease_info "Disease::D1" false s)).
Proof.
  split; [by vm_compute|]. split.
  { exists (Node "Disease" (Some "Disease::D1") (Some "Flu")).
    split; [|done]. vm_compute. left. }
  split; [by vm_compute|].
  intros Heq. vm_compute in Heq. discriminate Heq.
Qed.

(** C1, amended.  After a cache rebuild that completed, and as long as the
    store and the collection are as the rebuild left them, for every disease
    id carried by a [Disease] node of the store, query 1 with the cache and
    query 1
    without it both return a result, and the two results have the same base
    fields ([_id], [name], [drugs], [genes], [locations]); only the query
    time and the data-source label may differ. *)
Theorem cache_read_equals_direct_read (disease_id : string)
    (s s' s1 s2 : HetioNetDB) :
  build_mongo_cache s = (Ret tt, s') →
  disease_resolves (neo4j s) disease_id →
  neo4j s1 = neo4j s' → diseases_collection s1 = diseases_collection s' →
  neo4j s2 = neo4j s' →
  ∃ cached direct,
    fst (query1_disease_info disease_id true s1) = Ret (Some cached)
    ∧ fst (query1_disease_info disease_id false s2) = Ret (Some direct)
    ∧ base cached = base direct
    ∧ doc_name (base cached) = doc_name (base direct)
    ∧ doc_drugs (base cached) = doc_drugs (base direct)
    ∧ doc_genes (base cached) = doc_genes (base direct)
    ∧ doc_locations (base cached) = doc_locations (base direct).
Proof.
  intros (Hg & Hsome & Hcoll)%build_mongo_cache_inv Hres Hg1 Hc1 Hg2.
  pose proof (resolved_in_all_diseases _ _ Hres) as Hin.
  destruct (Hsome _ Hin) as [doc Hdoc].
  specialize (Hcoll (Some disease_id)). rewrite decide_True, Hdoc in Hcoll by done.
  exists (Query1Result doc (elapsed s1) "MongoDB (cached)"),
         (Query1Result doc (elapsed s2) "Neo4j (direct)").
  rewrite query1_cached_run, query1_direct_run, Hc1, Hcoll, Hg2, Hg, Hdoc. done.
Qed.

Lemma cache_read_equals_direct_read_witness :
  ∃ cached direct,
    fst (query1_disease_info "Disease::D1" true (scenario_db [])) = Ret (Some cached)
    ∧ fst (query1_disease_info "Disease::D1" false (scenario_db [])) = Ret (Some direct)
    ∧ base cached = base direct
    ∧ doc_name (base cached) = doc_name (base direct)
    ∧ doc_drugs (base cached) = doc_drugs (base direct)
    ∧ doc_genes (base cached) = doc_genes (base direct)
    ∧ doc_locations (base cached) = doc_locations (base direct).
Proof.
  apply (cache_read_equals_direct_read "Disease::D1"
           (run (load_edges "edges.tsv" scenario_edges)
              (run (load_nodes "nodes.tsv" scenario_nodes) db0))
           (scenario_db []) (scenario_db []) (scenario_db [])).
  - by vm_compute.
  - exists (Node "Disease" (Some "Disease::D1") (Some "Flu")).
    split; [|done]. vm_compute. left.
  - reflexivity.
  - reflexivity.
  - reflexivity.
Defined.

(** The rebuild completes whenever every [Disease] node carries an id. *)
Lemma for_each_upsert_completes (records : list (option string * option string))
    (s : HetioNetDB) :
  (∀ k, k ∈ records.*1 → is_Some (disease_doc (neo4j s) k)) →
  ∃ s', for_each records (λ record,
          disease_info ← _get_disease_info_from_neo4j (fst record) (snd record);
          replace_one_upsert (fst record) disease_info) s = (Ret tt, s').
Proof.
  revert s. induction records as [|[k0 nm] records IH]; intros s Hsome.
  - by eexists.
  - cbn [for_each fst snd]. unfold mbind at 1, Py_bind at 1.
    unfold mbind at 1, Py_bind at 1. rewrite get_disease_info_run.
    destruct (Hsome k0) as [doc ->]; [rewrite fmap_cons; by left|].
    unfold replace_one_upsert at 1. apply IH. cbn [neo4j].
    intros k Hk. apply Hsome. rewrite fmap_cons. by right.
Qed.

Lemma build_mongo_cache_completes (s : HetioNetDB) :
  (∀ n, n ∈ g_nodes (neo4j s) → n_label n = "Disease" → is_Some (n_id n)) →
  ∃ s', build_mongo_cache s = (Ret tt, s').
Proof.
  intros Hids.
  unfold build_mongo_cache. unfold mbind at 1, Py_bind at 1. unfold print at 1.
  unfold mbind at 1, Py_bind at 1. unfold session_query at 1.
  cbn [neo4j diseases_collection clock stdout].
  unfold mbind at 1, Py_bind at 1.
  match goal with |- context [for_each ?l ?body ?s0] =>
    destruct (for_each_upsert_completes l s0) as [s1 ->] end.
  - cbn [neo4j]. intros k Hk.
    apply list_elem_of_fmap in Hk as ([k' nm] & -> & Hk). cbn [fst].
    apply list_elem_of_fmap in Hk as (d & [= -> ->] & Hd).
    apply elem_of_match_nodes in Hd as (n & Hn & Hl).
    apply String.eqb_eq in Hl.
    destruct (Hids n (list_elem_of_lookup_2 _ _ _ Hn) Hl) as [id Hid].
    unfold prop_id. rewrite Hn. simpl. rewrite Hid.
    apply resolved_has_doc. exists n.
    split; [by apply (list_elem_of_lookup_2 _ d)|done].
  - py_unfold. by eexists.
Qed.

(** A [Disease] node without id makes the rebuild raise. *)
Lemma build_mongo_cache_null_id_raises :
  fst (build_mongo_cache (run (load_nodes "nodes.tsv" null_id_disease) db0))
  = Raise TypeError.
Proof. by vm_compute. Qed.

(** C5 holds for the cache-enabled mode only.  For a disease id that no
    [Disease] node carries, the direct mode of query 1 raises [TypeError]
    instead of returning a not-found result: [single()] gives [None] and the
    code subscripts it before it reaches its [if result:] test.  The
    cache-enabled mode returns [None], the not-found result, when the
    collection has no document for the id, as is the case after a rebuild
    started without one. *)
Theorem query1_not_found (disease_id : string) (s : HetioNetDB) :
  ¬ disease_resolves (neo4j s) disease_id →
  fst (query1_disease_info disease_id false s) = Raise TypeError
  ∧ (diseases_collection s !! Some disease_id = None →
       fst (query1_disease_info disease_id true s) = Ret None)
  ∧ (∀ s', build_mongo_cache s = (Ret tt, s') →
       diseases_collection s !! Some disease_id = None →
       fst (query1_disease_info disease_id true s') = Ret None
       ∧ fst (query1_disease_info disease_id false s') = Raise TypeError).
Proof.
  intros Hno. pose proof (unresolved_no_doc _ _ Hno) as Hdoc.
  split; [by rewrite query1_direct_run, Hdoc|].
  split; [intros Hc; by rewrite query1_cached_run, Hc|].
  intros s' (Hg & Hsome & Hcoll)%build_mongo_cache_inv Hc.
  rewrite query1_cached_run, query1_direct_run, Hg, Hdoc, Hcoll.
  split; [|done]. case_decide; by rewrite ?Hdoc, ?Hc.
Qed.

Lemma query1_not_found_witness :
  fst (query1_disease_info "Disease::D9" false (scenario_db [])) = Raise TypeError
  ∧ fst (query1_disease_info "Disease::D9" true (scenario_db [])) = Ret None.
Proof.
  assert (Hno : ¬ disease_resolves (neo4j (scenario_db [])) "Disease::D9").
  { intros (n & Hn & Hl & Hi).
    change (g_nodes (neo4j (scenario_db [])))
      with (map node_of_row [ node_row "Disease::D1" "Flu" "Disease";
                              node_row "Gene::G1" "GeneA" "Gene";
                              node_row "Compound::C1" "DrugA" "Compound";
                              node_row "Compound::C2" "DrugB" "Compound";
                              node_row "Anatomy::A1" "Lung" "Anatomy" ]) in Hn.
    vm_compute in Hn. set_solver. }
  destruct (query1_not_found "Disease::D9" (scenario_db []) Hno) as (Hdirect & Hcached & _).
  split; [exact Hdirect|]. apply Hcached. by vm_compute.
Defined.

(** ** Query 2 *)

(** The exclusion of existing treatments is attached to the second
    alternative of the [WHERE] clause only. *)
Lemma q2_where_down_up_excludes (g : graph) (d c : nat) (cr ar : rel) :
  q2_where g d c cr ar = true → r_type cr = "DOWNREGULATES" →
  treats_or_palliates g c d = false.
Proof.
  unfold q2_where. intros Hw Hcr. rewrite Hcr in Hw. simpl in Hw.
  apply andb_true_iff in Hw as [_ Hn]. by apply negb_true_iff in Hn.
Qed.

Lemma q2_where_up_down_ignores_treatment (g : graph) (d c : nat) (cr ar : rel) :
  r_type cr = "UPREGULATES" → r_type ar = "DOWNREGULATES" → q2_where g d c cr ar = true.
Proof. unfold q2_where. by intros -> ->. Qed.

(** C2 fails on the code.  In the inference scenario of the specification,
    with [Compound::C1] treating [Disease::D1] and also upregulating
    [Gene::G1], which [Anatomy::A1] downregulates, query 2 returns
    [Compound::C1]. *)
Theorem query2_returns_existing_treatment :
  let s := scenario_db treated_and_opposite in
  prop_id (neo4j s) 0 = Some "Disease::D1"
  ∧ prop_id (neo4j s) 2 = Some "Compound::C1"
  ∧ Rel 2 "TREATS" 0 ∈ g_rels (neo4j s)
  ∧ treats_or_palliates (neo4j s) 2 0 = true
  ∧ ∃ r, fst (query2_find_treatments "Disease::D1" s) = Ret r
         ∧ map compound_id (treatments r) = [Some "Compound::C1"; Some "Compound::C2"].
Proof.
  split; [by vm_compute|]. split; [by vm_compute|].
  split; [vm_compute; left|]. split; [by vm_compute|].
  eexists. split; [by vm_compute|]. by vm_compute.
Qed.

(** With the directions exchanged the same compound is excluded. *)
Lemma query2_excludes_in_the_other_direction :
  ∃ r, fst (query2_find_treatments "Disease::D1"
              (scenario_db treated_and_opposite_reversed)) = Ret r
       ∧ map compound_id (treatments r) = [Some "Compound::C2"].
Proof. eexists. split; by vm_compute. Qed.

Lemma no_site_no_match (g : graph) (disease_id : string) :
  no_site g disease_id → q2_sites g (Some disease_id) = [].
Proof.
  intros Hno. unfold q2_sites. apply bind_nil_all. intros d Hd.
  apply elem_of_match_nodes in Hd as (dn & Hdn & (Hl & Hi)%disease_pattern_inv).
  apply bind_nil_all. intros la Hla. exfalso.
  unfold match_out in Hla. apply list_elem_of_In, filter_In in Hla as [Hin Hla].
  apply andb_true_iff in Hla as [[Hsrc Hty]%andb_true_iff Han].
  apply Nat.eqb_eq in Hsrc. unfold type_in in Hty. simpl in Hty.
  rewrite orb_false_r in Hty. apply String.eqb_eq in Hty.
  unfold node_sat in Han. destruct (g_nodes g !! r_tgt la) as [an|] eqn:Han'; [|done].
  apply String.eqb_eq in Han.
  apply (Hno la dn an); try done; [by apply list_elem_of_In|by rewrite Hsrc].
Qed.

Lemma unresolved_no_site (g : graph) (disease_id : string) :
  ¬ disease_resolves g disease_id → no_site g disease_id.
Proof.
  intros Hno r d a _ _ Hd Hl Hi _ _. apply Hno. exists d.
  split; [by apply (list_elem_of_lookup_2 _ (r_src r))|done].
Qed.

(** C10.  For a disease id that no [Disease] node carries, and for one whose
    [Disease] nodes have no [LOCALIZES_TO] relationship to an [Anatomy]
    node, query 2 returns, without raising, the same result: the id, a count
    of 0, an empty list of treatments and the elapsed time. *)
Theorem query2_no_site (disease_id : string) (s : HetioNetDB) :
  ¬ disease_resolves (neo4j s) disease_id ∨ no_site (neo4j s) disease_id →
  fst (query2_find_treatments disease_id s)
  = Ret (Query2Result disease_id 0 [] (elapsed s)).
Proof.
  intros Hcase.
  assert (Hno : no_site (neo4j s) disease_id).
  { destruct Hcase as [Hun|Hno]; [by apply unresolved_no_site|done]. }
  unfold query2_find_treatments, elapsed. py_unfold.
  unfold cypher_find_treatments, q2_rows. by rewrite (no_site_no_match _ _ Hno).
Qed.

Lemma query2_no_site_witness :
  fst (query2_find_treatments "Disease::D9" (scenario_db []))
  = Ret (Query2Result "Disease::D9" 0 [] 0)
  ∧ fst (query2_find_treatments "Disease::D1"
           (run (load_nodes "nodes.tsv" scenario_nodes) db0))
    = Ret (Query2Result "Disease::D1" 0 [] 0).
Proof.
  split.
  - apply (query2_no_site "Disease::D9" (scenario_db [])). left.
    intros (n & Hn & Hl & Hi).
    change (g_nodes (neo4j (scenario_db [])))
      with (map node_of_row [ node_row "Disease::D1" "Flu" "Disease";
                              node_row "Gene::G1" "GeneA" "Gene";
                              node_row "Compound::C1" "DrugA" "Compound";
                              node_row "Compound::C2" "DrugB" "Compound";
                              node_row "Anatomy::A1" "Lung" "Anatomy" ]) in Hn.
    vm_compute in Hn. set_solver.
  - apply (query2_no_site "Disease::D1" (run (load_nodes "nodes.tsv" scenario_nodes) db0)).
    right. intros r d a Hr. vm_compute in Hr. by apply elem_of_nil in Hr.
Defined.

(** * Further properties of the code *)

(** ** The relationship type never carries a direction marker *)

Lemma dict_lookup_elem_of (d : list (string * string)) (k v : string) :
  dict_lookup d k = Some v → (k, v) ∈ d.
Proof.
  induction d as [|[k' v'] d IH]; simpl; [done|].
  destruct (String.eqb_spec k k') as [->|_].
  - intros [= ->]. left.
  - intros H. right. by apply IH.
Qed.

Lemma mapping_values_no_marker :
  Forall (λ kv, has_char ">" (snd kv) = false ∧ has_char "<" (snd kv) = false) mapping.
Proof. unfold mapping. repeat constructor. Qed.

(** Whatever the metaedge code, the relationship type spliced into the edge
    statement contains neither [>] nor [<]. *)
Theorem parse_metaedge_no_marker (code : string) :
  has_char ">" (_parse_metaedge code) = false
  ∧ has_char "<" (_parse_metaedge code) = false.
Proof.
  unfold _parse_metaedge. rewrite dict_get_lookup, fallback_is_upper, clean_strip_markers.
  destruct (dict_lookup mapping (strip_markers code)) as [v|] eqn:Hv.
  - apply dict_lookup_elem_of in Hv.
    apply (proj1 (Forall_forall _ _) mapping_values_no_marker _ Hv).
  - split; by apply str_upper_no_marker, strip_markers_no_marker.
Qed.

(** ** The order of strings *)

Lemma string_compare_cons (x y : ascii) (a b : string) :
  String.compare (String x a) (String y b)
  = match N.compare (N_of_ascii x) (N_of_ascii y) with
    | Eq => String.compare a b
    | Lt => Lt
    | Gt => Gt
    end.
Proof. reflexivity. Qed.

Lemma string_leb_trans (a b c : string) :
  String.leb a b = true → String.leb b c = true → String.leb a c = true.
Proof.
  unfold String.leb. revert b c.
  induction a as [|x a IH]; intros b c.
  - intros _ _. by destruct c.
  - destruct b as [|y b]; [done|]. destruct c as [|z c]; [done|].
    rewrite !string_compare_cons.
    destruct (N.compare_spec (N_of_ascii x) (N_of_ascii y)) as [Hxy|Hxy|Hxy];
      destruct (N.compare_spec (N_of_ascii y) (N_of_ascii z)) as [Hyz|Hyz|Hyz];
      try done.
    + rewrite Hxy, Hyz, N.compare_refl. apply IH.
    + intros _ _. by rewrite (proj2 (N.compare_lt_iff _ _)) by lia.
    + intros _ _. by rewrite (proj2 (N.compare_lt_iff _ _)) by lia.
    + intros _ _. by rewrite (proj2 (N.compare_lt_iff _ _)) by lia.
Qed.

Lemma cy_leb_total (a b : option string) : cy_leb a b = false → cy_leb b a = true.
Proof.
  destruct a as [x|], b as [y|]; simpl; try done.
  intros Hxy. destruct (String.leb_total x y) as [H|H]; [congruence|done].
Qed.

Lemma cy_leb_trans (a b c : option string) :
  cy_leb a b = true → cy_leb b c = true → cy_leb a c = true.
Proof.
  destruct a as [x|], b as [y|], c as [z|]; simpl; try done.
  apply string_leb_trans.
Qed.

(** ** [ORDER BY] and [collect(DISTINCT ...)] *)

Section ordering.
Context {A : Type} (key : A → option string).

Lemma insert_by_perm (x : A) (l : list A) : insert_by key x l ≡ₚ x :: l.
Proof.
  induction l as [|y l IH]; simpl; [done|].
  destruct (cy_leb (key x) (key y)); [done|]. rewrite IH. apply perm_swap.
Qed.

Lemma order_by_perm (l : list A) : order_by key l ≡ₚ l.
Proof.
  induction l as [|x l IH]; simpl; [done|]. by rewrite insert_by_perm, IH.
Qed.

Lemma insert_by_sorted (x : A) (l : list A) :
  StronglySorted (λ a b, cy_leb (key a) (key b) = true) l →
  StronglySorted (λ a b, cy_leb (key a) (key b) = true) (insert_by key x l).
Proof.
  induction 1 as [|y l Hl IH Hy]; simpl.
  - repeat constructor.
  - destruct (cy_leb (key x) (key y)) eqn:Hxy.
    + constructor; [by constructor|]. constructor; [done|].
      eapply Forall_impl; [exact Hy|]. intros z Hz. by eapply cy_leb_trans.
    + constructor; [done|].
      rewrite (insert_by_perm x l). constructor; [|done]. by apply cy_leb_total.
Qed.

Lemma order_by_sorted (l : list A) :
  StronglySorted (λ a b, cy_leb (key a) (key b) = true) (order_by key l).
Proof.
  induction l as [|x l IH]; simpl; [constructor|]. by apply insert_by_sorted.
Qed.
End ordering.

Section distinct_facts.
Context {A : Type} `{EqDecision A}.

Lemma distinct_acc (l acc : list A) :
  NoDup acc →
  NoDup (fold_left (λ acc x, if decide (x ∈ acc) then acc else acc ++ [x]) l acc)
  ∧ ∀ x, x ∈ fold_left (λ acc x, if decide (x ∈ acc) then acc else acc ++ [x]) l acc
         ↔ x ∈ acc ∨ x ∈ l.
Proof.
  revert acc. induction l as [|y l IH]; intros acc Hnd; simpl.
  - split; [done|]. intros x. split; [by left|]. intros [?|?%elem_of_nil]; done.
  - destruct (decide (y ∈ acc)) as [Hin|Hout].
    + destruct (IH acc Hnd) as [IH1 IH2]. split; [done|].
      intros x. rewrite IH2, elem_of_cons. split; [tauto|].
      intros [?|[->|?]]; tauto.
    + destruct (IH (acc ++ [y])) as [IH1 IH2].
      { apply NoDup_app. split; [done|]. split; [|apply NoDup_singleton].
        by intros z Hz ->%list_elem_of_singleton. }
      split; [done|]. intros x.
      rewrite IH2, elem_of_app, list_elem_of_singleton, elem_of_cons. tauto.
Qed.

Lemma NoDup_distinct (l : list A) : NoDup (distinct l).
Proof. apply distinct_acc. constructor. Qed.

Lemma elem_of_distinct (x : A) (l : list A) : x ∈ distinct l ↔ x ∈ l.
Proof.
  unfold distinct. rewrite (proj2 (distinct_acc l [] (NoDup_nil_2))).
  split; [by intros [?%elem_of_nil|?]|by right].
Qed.
End distinct_facts.

Lemma group_by_key_member {K V : Type} `{EqDecision K} (k : K) (vs : list V)
    (items : list (K * V)) :
  (k, vs) ∈ group_by_key items → vs ≠ [] ∧ ∀ v, v ∈ vs → (k, v) ∈ items.
Proof.
  intros Hin. pose proof (group_by_key_group _ _ _ Hin) as Hvs.
  assert (Hmem : ∀ v, v ∈ vs → (k, v) ∈ items).
  { intros v Hv. rewrite Hvs in Hv.
    apply list_elem_of_fmap in Hv as ([k' v'] & -> & Hkv).
    apply list_elem_of_In, filter_In in Hkv as [Hkv Hk].
    apply bool_decide_eq_true in Hk. cbn [fst snd] in *. subst k'.
    by apply list_elem_of_In. }
  split; [|done].
  assert (Hk : k ∈ items.*1).
  { apply group_by_key_keys. apply (list_elem_of_fmap_2 fst _ _ Hin). }
  apply list_elem_of_fmap in Hk as ([k' v] & Hk' & Hkv). cbn [fst] in Hk'. subst k'.
  intros Hnil. rewrite Hnil in Hvs.
  assert (Hv : v ∈ (List.filter (λ kv, bool_decide (fst kv = k)) items).*2).
  { apply (list_elem_of_fmap_2 snd _ (k, v)). apply list_elem_of_In, filter_In.
    split; [by apply list_elem_of_In|]. by apply bool_decide_eq_true. }
  rewrite <- Hvs in Hv. by apply elem_of_nil in Hv.
Qed.

(** ** Query 2: what a result holds *)

Lemma query2_run (disease_id : string) (s : HetioNetDB) :
  fst (query2_find_treatments disease_id s)
  = Ret (Query2Result disease_id
           (length (cypher_find_treatments (neo4j s) (Some disease_id)))
           (cypher_find_treatments (neo4j s) (Some disease_id)) (elapsed s)).
Proof. reflexivity. Qed.

Lemma match_nodes_sat (g : graph) (P : node → bool) (i : nat) :
  i ∈ match_nodes g P → node_sat g P i = true.
Proof. unfold match_nodes. by intros [_ ?]%list_elem_of_In%filter_In. Qed.

Lemma rel_eta (r : rel) : Rel (r_src r) (r_type r) (r_tgt r) = r.
Proof. by destruct r. Qed.

Lemma type_in_one (t : string) (r : rel) : type_in [t] r = true → r_type r = t.
Proof.
  unfold type_in. simpl. rewrite orb_false_r. apply String.eqb_eq.
Qed.

Lemma elem_of_q2_sites (g : graph) (disease_id : string) (d a : nat) :
  (d, a) ∈ q2_sites g (Some disease_id) →
  node_sat g (λ n, has_label "Disease" n && has_id (Some disease_id) n) d = true
  ∧ node_sat g (has_label "Anatomy") a = true
  ∧ Rel d "LOCALIZES_TO" a ∈ g_rels g.
Proof.
  unfold q2_sites. intros (d' & Hla & Hd)%list_elem_of_bind.
  apply list_elem_of_bind in Hla as (la & Hda & Hla).
  apply list_elem_of_singleton in Hda. injection Hda as -> ->.
  apply match_nodes_sat in Hd.
  unfold match_out in Hla. apply list_elem_of_In, filter_In in Hla as [Hin Hla].
  apply andb_true_iff in Hla as [[Hsrc Hty]%andb_true_iff Han].
  apply Nat.eqb_eq in Hsrc. apply type_in_one in Hty.
  split; [done|]. split; [done|].
  rewrite <- Hsrc, <- Hty, rel_eta. by apply list_elem_of_In.
Qed.

Lemma elem_of_q2_rows (g : graph) (disease_id : string) (row : q2_row) :
  row ∈ q2_rows g (Some disease_id) →
  (q2_d row, q2_a row) ∈ q2_sites g (Some disease_id)
  ∧ q2_cr row ∈ q2_regulations g
  ∧ q2_ar row ∈ g_rels g
  ∧ q2_c row = r_src (q2_cr row) ∧ q2_g row = r_tgt (q2_cr row)
  ∧ r_src (q2_ar row) = q2_a row ∧ r_tgt (q2_ar row) = q2_g row
  ∧ q2_where g (q2_d row) (q2_c row) (q2_cr row) (q2_ar row) = true.
Proof.
  unfold q2_rows. intros ([d a] & Hrow & Hda)%list_elem_of_bind.
  apply list_elem_of_bind in Hrow as (cr & Hrow & Hcr).
  apply list_elem_of_bind in Hrow as (ar & Hrow & Har).
  cbn [fst snd] in *.
  destruct (q2_where g d (r_src cr) cr ar) eqn:Hw; [|by apply elem_of_nil in Hrow].
  apply list_elem_of_singleton in Hrow. subst row. cbn.
  apply list_elem_of_In, filter_In in Har as [Har Hf].
  apply andb_true_iff in Hf as [[Hsrc Htgt]%andb_true_iff _].
  apply Nat.eqb_eq in Hsrc, Htgt.
  repeat split; try done. by apply list_elem_of_In.
Qed.

Lemma q2_where_opposite (g : graph) (d c : nat) (cr ar : rel) :
  q2_where g d c cr ar = true →
  (r_type cr = "UPREGULATES" ∧ r_type ar = "DOWNREGULATES")
  ∨ (r_type cr = "DOWNREGULATES" ∧ r_type ar = "UPREGULATES").
Proof.
  unfold q2_where. intros [H|H]%orb_true_iff.
  - apply andb_true_iff in H as [H1 H2]. left. by split; apply String.eqb_eq.
  - apply andb_true_iff in H as [[H1 H2]%andb_true_iff _].
    right. by split; apply String.eqb_eq.
Qed.

(** The records of query 2, before [ORDER BY]. *)
Lemma elem_of_find_treatments (g : graph) (disease_id : string) (t : treatment) :
  t ∈ cypher_find_treatments g (Some disease_id) →
  ∃ rows,
    ((compound_id t, compound_name t), rows)
    ∈ group_by_key (map (λ row, ((prop_id g (q2_c row), prop_name g (q2_c row)), row))
                      (q2_rows g (Some disease_id)))
    ∧ mechanisms t = distinct (map (mechanism_of g) rows).
Proof.
  unfold cypher_find_treatments. rewrite order_by_perm.
  intros ([[cid cname] rows] & -> & Hin)%list_elem_of_fmap. by exists rows.
Qed.

(** Every mechanism query 2 reports has opposite effects and is there in
    the graph: the disease is localized to the anatomy, the compound of the
    treatment acts on the gene with the reported effect, and the anatomy
    acts on the same gene with the other effect.  When the compound effect
    is [DOWNREGULATES], the compound has no [TREATS] or [PALLIATES]
    relationship to the disease. *)
Theorem query2_mechanisms_sound (disease_id : string) (s : HetioNetDB)
    (r : query2_result) (t : treatment) (m : mechanism) :
  fst (query2_find_treatments disease_id s) = Ret r →
  t ∈ treatments r → m ∈ mechanisms t →
  opposite_effects m ∧ mechanism_backed (neo4j s) disease_id t m.
Proof.
  rewrite query2_run. intros [= <-]. cbn [treatments].
  intros (rows & Hgrp & Hm)%elem_of_find_treatments Hin.
  rewrite Hm, elem_of_distinct in Hin.
  apply list_elem_of_fmap in Hin as (row & -> & Hrow).
  apply group_by_key_member in Hgrp as [_ Hmem]. specialize (Hmem row Hrow).
  apply list_elem_of_fmap in Hmem as (row' & Hkey & Hrow').
  injection Hkey as Hcid Hcname <-.
  apply elem_of_q2_rows in Hrow' as (Hda & Hcr & Har & Hc & Hg & Hsrc & Htgt & Hw).
  apply elem_of_q2_sites in Hda as (Hd & Ha & Hla).
  unfold q2_regulations in Hcr.
  apply list_elem_of_In, filter_In in Hcr as [Hcr Hf].
  apply andb_true_iff in Hf as [[_ Hcomp]%andb_true_iff Hgene].
  split.
  - unfold opposite_effects, mechanism_of. cbn. by eapply q2_where_opposite.
  - exists (q2_d row), (q2_a row), (q2_c row), (q2_g row).
    unfold mechanism_of. cbn [gene compound_effect anatomy anatomy_effect].
    rewrite Hc, Hg. rewrite Hc in Hw.
    repeat split; try done.
    + rewrite rel_eta. by apply list_elem_of_In.
    + rewrite <- Hsrc, <- Hg, <- Htgt, rel_eta. done.
    + by rewrite <- Hc.
    + by rewrite <- Hc.
    + intros Hdown. by eapply q2_where_down_up_excludes.
Qed.

Lemma query2_mechanisms_sound_witness :
  opposite_effects (Mechanism (Some "GeneA") "UPREGULATES" (Some "Lung") "DOWNREGULATES").
Proof.
  eapply (query2_mechanisms_sound "Disease::D1" (scenario_db []) _
            (Treatment (Some "Compound::C2") (Some "DrugB")
               [Mechanism (Some "GeneA") "UPREGULATES" (Some "Lung") "DOWNREGULATES"])).
  - by vm_compute.
  - cbn [treatments]. left.
  - left.
Defined.

(** The treatments of query 2 come in ascending order of compound name,
    nameless compounds last; no two of them have the same compound id and
    name; the count is their number; and each carries a non-empty list of
    mechanisms without repetition. *)
Theorem query2_result_shape (queried_id : string) (s : HetioNetDB) (r : query2_result) :
  fst (query2_find_treatments queried_id s) = Ret r →
  disease_id r = queried_id
  ∧ potential_treatments_count r = length (treatments r)
  ∧ StronglySorted name_le (treatments r)
  ∧ NoDup (map (λ t, (compound_id t, compound_name t)) (treatments r))
  ∧ Forall (λ t, mechanisms t ≠ [] ∧ NoDup (mechanisms t)) (treatments r).
Proof.
  rewrite query2_run. intros [= <-].
  cbn [disease_id potential_treatments_count treatments].
  split; [done|]. split; [done|].
  split; [apply (order_by_sorted compound_name)|]. split.
  - unfold cypher_find_treatments. rewrite order_by_perm.
    set (items := map _ (q2_rows _ _)).
    assert (Hkeys : ∀ l : list (option string * option string * list q2_row),
              map (λ t, (compound_id t, compound_name t))
                (map (λ grp, Treatment (fst (fst grp)) (snd (fst grp))
                               (distinct (map (mechanism_of (neo4j s)) (snd grp)))) l)
              = l.*1).
    { induction l as [|[[cid cname] rows] l IH]; [done|]. cbn. f_equal. exact IH. }
    rewrite Hkeys. apply group_by_key_keys.
  - apply Forall_forall. intros t (rows & Hgrp & Hm)%elem_of_find_treatments.
    rewrite Hm. split; [|apply NoDup_distinct].
    apply group_by_key_member in Hgrp as [Hne _].
    destruct rows as [|row rows]; [done|].
    intros Hnil.
    assert (Hin : mechanism_of (neo4j s) row ∈ distinct (map (mechanism_of (neo4j s)) (row :: rows))).
    { apply elem_of_distinct. left. }
    rewrite Hnil in Hin. by apply elem_of_nil in Hin.
Qed.

Lemma query2_result_shape_witness :
  ∃ r, fst (query2_find_treatments "Disease::D1" (scenario_db treated_and_opposite)) = Ret r
       ∧ StronglySorted name_le (treatments r).
Proof.
  eexists. split; [reflexivity|].
  eapply (query2_result_shape "Disease::D1" (scenario_db treated_and_opposite)).
  reflexivity.
Defined.

(** ** Query 1: what a result holds *)

(** Neither query writes: graph, collection and console are as before,
    whether the query returns or raises. *)
Theorem queries_leave_stores_unchanged (disease_id : string) (use_cache : bool)
    (s : HetioNetDB) :
  neo4j (run (query1_disease_info disease_id use_cache) s) = neo4j s
  ∧ diseases_collection (run (query1_disease_info disease_id use_cache) s)
    = diseases_collection s
  ∧ stdout (run (query1_disease_info disease_id use_cache) s) = stdout s
  ∧ neo4j (run (query2_find_treatments disease_id) s) = neo4j s
  ∧ diseases_collection (run (query2_find_treatments disease_id) s)
    = diseases_collection s
  ∧ stdout (run (query2_find_treatments disease_id) s) = stdout s.
Proof.
  unfold run, query1_disease_info, query2_find_treatments. py_unfold.
  destruct use_cache; simpl.
  - destruct (diseases_collection s !! Some disease_id); simpl; done.
  - destruct (single (cypher_disease_info (neo4j s) (Some disease_id))); simpl; done.
Qed.

Lemma elem_of_optional {A : Type} (x : A) (l : list A) : Some x ∈ optional l → x ∈ l.
Proof.
  destruct l as [|y l]; simpl.
  - by intros [=]%list_elem_of_singleton.
  - intros Hin. apply (list_elem_of_fmap Some (y :: l)) in Hin as (z & [= ->] & Hz). done.
Qed.

Lemma elem_of_q1_rows (g : graph) (disease_id : string) (row : q1_row) :
  row ∈ q1_rows g (Some disease_id) →
  is_disease g disease_id (q1_d row)
  ∧ q1_r row ∈ optional (match_in g (q1_d row) ["TREATS"; "PALLIATES"] "Compound")
  ∧ q1_gr row ∈ optional (match_out g (q1_d row)
                            ["ASSOCIATES"; "UPREGULATES"; "DOWNREGULATES"] "Gene")
  ∧ q1_la row ∈ optional (match_out g (q1_d row) ["LOCALIZES_TO"] "Anatomy").
Proof.
  unfold q1_rows. intros (d & Hrow & Hd)%list_elem_of_bind.
  apply list_elem_of_bind in Hrow as (r & Hrow & Hr).
  apply list_elem_of_bind in Hrow as (gr & Hrow & Hgr).
  apply list_elem_of_bind in Hrow as (la & Hrow & Hla).
  apply list_elem_of_singleton in Hrow. subst row. cbn.
  split; [by apply match_nodes_sat in Hd|done].
Qed.

Lemma elem_of_match_in (g : graph) (d : nat) (ts : list string) (l : string) (r : rel) :
  r ∈ match_in g d ts l →
  r ∈ g_rels g ∧ r_tgt r = d ∧ type_in ts r = true ∧ node_sat g (has_label l) (r_src r) = true.
Proof.
  unfold match_in. intros [Hin Hf]%list_elem_of_In%filter_In.
  apply andb_true_iff in Hf as [[Ht Hty]%andb_true_iff Hl]. apply Nat.eqb_eq in Ht.
  split; [by apply list_elem_of_In|done].
Qed.

Lemma elem_of_match_out (g : graph) (d : nat) (ts : list string) (l : string) (r : rel) :
  r ∈ match_out g d ts l →
  r ∈ g_rels g ∧ r_src r = d ∧ type_in ts r = true ∧ node_sat g (has_label l) (r_tgt r) = true.
Proof.
  unfold match_out. intros [Hin Hf]%list_elem_of_In%filter_In.
  apply andb_true_iff in Hf as [[Ht Hty]%andb_true_iff Hl]. apply Nat.eqb_eq in Ht.
  split; [by apply list_elem_of_In|done].
Qed.

Lemma type_in_elem_of (ts : list string) (r : rel) : type_in ts r = true → r_type r ∈ ts.
Proof.
  unfold type_in. intros (t & Ht & Heq)%existsb_exists.
  apply String.eqb_eq in Heq. rewrite Heq. by apply list_elem_of_In.
Qed.

Lemma NoDup_filter_bool {A : Type} (P : A → bool) (l : list A) :
  NoDup l → NoDup (List.filter P l).
Proof. intros Hnd. apply NoDup_ListNoDup, List.NoDup_filter. by apply NoDup_ListNoDup. Qed.

Lemma elem_of_filter_bool {A : Type} (P : A → bool) (l : list A) (x : A) :
  x ∈ List.filter P l ↔ x ∈ l ∧ P x = true.
Proof. by rewrite !list_elem_of_In, filter_In. Qed.

(** What the base fields computed from the graph hold. *)
Lemma disease_doc_sound (g : graph) (disease_id : string) (doc : disease_info) :
  disease_doc g (Some disease_id) = Some doc →
  doc_id doc = Some disease_id
  ∧ (∃ d, is_disease g disease_id d ∧ doc_name doc = prop_name g d)
  ∧ NoDup (doc_drugs doc) ∧ NoDup (doc_genes doc) ∧ NoDup (doc_locations doc)
  ∧ (∀ dm, dm ∈ doc_drugs doc → drug_backed g disease_id dm)
  ∧ (∀ gm, gm ∈ doc_genes doc → gene_backed g disease_id gm)
  ∧ (∀ lm, lm ∈ doc_locations doc → loc_backed g disease_id lm).
Proof.
  unfold disease_doc, cypher_disease_info.
  set (items := map (λ row, (prop_name g (q1_d row), row)) (q1_rows g (Some disease_id))).
  destruct (group_by_key items) as [|[nm rows] groups] eqn:Hgroups; [done|].
  cbn. intros [= <-]. cbn.
  assert (Hgrp : (nm, rows) ∈ group_by_key items) by (rewrite Hgroups; left).
  apply group_by_key_member in Hgrp as [Hne Hmem].
  assert (Hrows : ∀ row, row ∈ rows →
            nm = prop_name g (q1_d row) ∧ row ∈ q1_rows g (Some disease_id)).
  { intros row Hrow. specialize (Hmem row Hrow).
    apply list_elem_of_fmap in Hmem as (row' & [= -> <-] & Hrow'). done. }
  split; [done|]. split.
  { destruct rows as [|row rows]; [done|].
    destruct (Hrows row) as [-> Hrow]; [left|].
    exists (q1_d row). split; [|done]. by apply elem_of_q1_rows in Hrow as [Hd _]. }
  split; [apply NoDup_filter_bool, NoDup_distinct|].
  split; [apply NoDup_filter_bool, NoDup_distinct|].
  split; [apply NoDup_filter_bool, NoDup_distinct|].
  split; [|split].
  - intros dm [Hdm Hid]%elem_of_filter_bool.
    apply (proj1 (elem_of_distinct dm (map (drug_of g) rows))) in Hdm.
    apply list_elem_of_fmap in Hdm as (row & -> & Hrow).
    destruct (Hrows row Hrow) as [_ Hq].
    apply elem_of_q1_rows in Hq as (Hd & Hr & _).
    unfold drug_of in *. cbn [dm_id] in Hid.
    destruct (q1_r row) as [r|]; [|done]. cbn in Hid |- *.
    apply elem_of_optional, elem_of_match_in in Hr as (Hin & Htgt & Hty & Hc).
    exists (q1_d row), (r_src r), (r_type r).
    split; [done|]. split; [done|]. split; [by rewrite <- Htgt, rel_eta|].
    split; [apply type_in_elem_of in Hty; set_solver|].
    split; [by destruct (prop_id g (r_src r)); [eexists|]|done].
  - intros gm [Hgm Hid]%elem_of_filter_bool.
    apply (proj1 (elem_of_distinct gm (map (gene_of g) rows))) in Hgm.
    apply list_elem_of_fmap in Hgm as (row & -> & Hrow).
    destruct (Hrows row Hrow) as [_ Hq].
    apply elem_of_q1_rows in Hq as (Hd & _ & Hgr & _).
    unfold gene_of in *. cbn [gm_id] in Hid.
    destruct (q1_gr row) as [r|]; [|done]. cbn in Hid |- *.
    apply elem_of_optional, elem_of_match_out in Hgr as (Hin & Hsrc & Hty & Hc).
    exists (q1_d row), (r_tgt r), (r_type r).
    split; [done|]. split; [done|]. split; [by rewrite <- Hsrc, rel_eta|].
    split; [apply type_in_elem_of in Hty; set_solver|].
    split; [by destruct (prop_id g (r_tgt r)); [eexists|]|done].
  - intros lm [Hlm Hid]%elem_of_filter_bool.
    apply (proj1 (elem_of_distinct lm (map (loc_of g) rows))) in Hlm.
    apply list_elem_of_fmap in Hlm as (row & -> & Hrow).
    destruct (Hrows row Hrow) as [_ Hq].
    apply elem_of_q1_rows in Hq as (Hd & _ & _ & Hla).
    unfold loc_of in *. cbn [lm_id] in Hid.
    destruct (q1_la row) as [r|]; [|done]. cbn in Hid |- *.
    apply elem_of_optional, elem_of_match_out in Hla as (Hin & Hsrc & Hty & Hc).
    exists (q1_d row), (r_tgt r).
    split; [done|]. split; [done|].
    split; [by rewrite <- Hsrc, <- (type_in_one _ _ Hty), rel_eta|].
    split; [by destruct (prop_id g (r_tgt r)); [eexists|]|done].
Qed.

(** A result of the direct mode of query 1 carries the queried id, the name
    of a [Disease] node with that id, and lists without repetition whose
    every entry is there in the graph: a drug is a [Compound] node with an
    id that [TREATS] or [PALLIATES] such a disease node, a gene is a [Gene]
    node with an id the disease node is related to by [ASSOCIATES],
    [UPREGULATES] or [DOWNREGULATES], a location is an [Anatomy] node with
    an id the disease node is [LOCALIZES_TO]. *)
Theorem query1_direct_result_sound (disease_id : string) (s : HetioNetDB)
    (r : query1_result) :
  fst (query1_disease_info disease_id false s) = Ret (Some r) →
  data_source r = "Neo4j (direct)"
  ∧ query_time_ms r = elapsed s
  ∧ doc_id (base r) = Some disease_id
  ∧ (∃ d, is_disease (neo4j s) disease_id d ∧ doc_name (base r) = prop_name (neo4j s) d)
  ∧ NoDup (doc_drugs (base r)) ∧ NoDup (doc_genes (base r))
  ∧ NoDup (doc_locations (base r))
  ∧ (∀ dm, dm ∈ doc_drugs (base r) → drug_backed (neo4j s) disease_id dm)
  ∧ (∀ gm, gm ∈ doc_genes (base r) → gene_backed (neo4j s) disease_id gm)
  ∧ (∀ lm, lm ∈ doc_locations (base r) → loc_backed (neo4j s) disease_id lm).
Proof.
  rewrite query1_direct_run.
  destruct (disease_doc (neo4j s) (Some disease_id)) as [doc|] eqn:Hdoc; [|done].
  intros [= <-]. cbn [data_source query_time_ms base].
  split; [done|]. split; [done|]. by apply disease_doc_sound.
Qed.

Lemma query1_direct_result_sound_witness :
  drug_backed (neo4j (scenario_db [])) "Disease::D1"
    (DrugMap (Some "Compound::C1") (Some "DrugA") (Some "TREATS")).
Proof.
  eapply (query1_direct_result_sound "Disease::D1" (scenario_db [])
            (Query1Result
               (DiseaseInfo (Some "Disease::D1") (Some "Flu")
                  [DrugMap (Some "Compound::C1") (Some "DrugA") (Some "TREATS")]
                  [GeneMap (Some "Gene::G1") (Some "GeneA") (Some "ASSOCIATES")]
                  [LocMap (Some "Anatomy::A1") (Some "Lung")])
               0 "Neo4j (direct)")).
  - by vm_compute.
  - cbn [base doc_drugs]. left.
Defined.

(** A disease that is in the store and has no relationship at all is found,
    with three empty lists: the direct mode of query 1 returns a result, not
    the not-found answer and not an error. *)
Theorem query1_found_but_empty (disease_id : string) (s : HetioNetDB) :
  disease_resolves (neo4j s) disease_id →
  disease_isolated (neo4j s) disease_id →
  ∃ r, fst (query1_disease_info disease_id false s) = Ret (Some r)
       ∧ doc_id (base r) = Some disease_id
       ∧ doc_drugs (base r) = []
       ∧ doc_genes (base r) = []
       ∧ doc_locations (base r) = [].
Proof.
  intros Hres Hiso. destruct (resolved_has_doc _ _ Hres) as [doc Hdoc].
  rewrite query1_direct_run, Hdoc. eexists. split; [reflexivity|].
  cbn [base].
  destruct (disease_doc_sound _ _ _ Hdoc) as (Hid & _ & _ & _ & _ & Hdrugs & Hgenes & Hlocs).
  split; [done|]. split; [|split].
  - destruct (doc_drugs doc) as [|dm l]; [done|].
    destruct (Hdrugs dm) as (d & c & ty & Hd & _ & Hrel & _); [left|].
    by destruct (Hiso _ _ Hrel Hd) as [_ []].
  - destruct (doc_genes doc) as [|gm l]; [done|].
    destruct (Hgenes gm) as (d & gn & ty & Hd & _ & Hrel & _); [left|].
    by destruct (Hiso _ _ Hrel Hd) as [[] _].
  - destruct (doc_locations doc) as [|lm l]; [done|].
    destruct (Hlocs lm) as (d & a & Hd & _ & Hrel & _); [left|].
    by destruct (Hiso _ _ Hrel Hd) as [[] _].
Qed.

Lemma query1_found_but_empty_witness :
  ∃ r, fst (query1_disease_info "Disease::D1" false
              (run (load_nodes "nodes.tsv" scenario_nodes) db0)) = Ret (Some r)
       ∧ doc_id (base r) = Some "Disease::D1"
       ∧ doc_drugs (base r) = []
       ∧ doc_genes (base r) = []
       ∧ doc_locations (base r) = [].
Proof.
  assert (Hres : disease_resolves
                   (neo4j (run (load_nodes "nodes.tsv" scenario_nodes) db0)) "Disease::D1").
  { exists (Node "Disease" (Some "Disease::D1") (Some "Flu")).
    split; [|done]. vm_compute. left. }
  assert (Hiso : disease_isolated
                   (neo4j (run (load_nodes "nodes.tsv" scenario_nodes) db0)) "Disease::D1").
  { intros r d Hr. vm_compute in Hr. destruct (proj1 (elem_of_nil r) Hr). }
  exact (query1_found_but_empty "Disease::D1" _ Hres Hiso).
Defined.

(** ** Loaders: invariants, errors and what gets created *)

Lemma for_each_invariant {A : Type} (P : HetioNetDB → Prop) (body : A → Py unit)
    (l : list A) (s : HetioNetDB) :
  (∀ x s0, x ∈ l → P s0 → P (snd (body x s0))) → P s → P (snd (for_each l body s)).
Proof.
  revert s. induction l as [|x l IH]; intros s Hbody Hs; [done|].
  cbn [for_each]. unfold mbind, Py_bind.
  pose proof (Hbody x s (list_elem_of_here _ _) Hs) as Hx.
  destruct (body x s) as [[[]|e|] s1]; [|done|done].
  apply IH; [|done]. intros y s0 Hy. apply Hbody. by right.
Qed.

(** The state a body of the edge loop leaves, whatever the key. *)
Lemma edge_body_state (item : option string * list edge_rec) (s : HetioNetDB) :
  snd ((rel_type ← call_parse_metaedge (fst item);
        session_run (cypher_create_rels rel_type (snd item));;
        print ("Created " +:+ pretty (length (snd item)) +:+ " " +:+ rel_type
               +:+ " relationships")) s)
  = match fst item with
    | Some m =>
        match cypher_create_rels (_parse_metaedge m) (snd item) (neo4j s) with
        | Ret g => DB g (diseases_collection s) (clock s) (stdout s ++ [edge_report item])
        | _ => s
        end
    | None => s
    end.
Proof.
  destruct item as [[m|] es]; [|reflexivity].
  unfold mbind, Py_bind, call_parse_metaedge, mret, Py_ret, session_run, print.
  cbn [fst snd]. destruct (cypher_create_rels _ _ _); reflexivity.
Qed.

(** The state a body of the node loop leaves. *)
Lemma node_body_state (item : option string * list node_rec) (s : HetioNetDB) :
  snd ((session_run (cypher_create_nodes (py_str (fst item)) (snd item));;
        print ("Created " +:+ pretty (length (snd item)) +:+ " " +:+ py_str (fst item)
               +:+ " nodes")) s)
  = match cypher_create_nodes (py_str (fst item)) (snd item) (neo4j s) with
    | Ret g => DB g (diseases_collection s) (clock s) (stdout s ++ [node_report item])
    | _ => s
    end.
Proof.
  unfold mbind, Py_bind, session_run, print.
  destruct (cypher_create_nodes _ _ _); reflexivity.
Qed.

Lemma spliced_ret {A : Type} (text : string) (a b : A) : spliced text a = Ret b → a = b.
Proof.
  unfold spliced. destruct (cypher_name text); [by intros [= ->]|].
  by destruct (cypher_refused text).
Qed.

(** What [load_nodes] keeps, whether it returns or raises. *)
Lemma load_nodes_keeps (P : HetioNetDB → Prop) (nodes_file : string) (reader : list row)
    (s : HetioNetDB) :
  (∀ s0 line, P s0 →
     P (DB (neo4j s0) (diseases_collection s0) (clock s0) (stdout s0 ++ [line]))) →
  (∀ s0 kind nodes line, P s0 →
     P (DB (Graph (g_nodes (neo4j s0)
                     ++ map (λ nd, Node kind (nr_id nd) (nr_name nd)) nodes)
                  (g_rels (neo4j s0)) (g_indexes (neo4j s0)))
          (diseases_collection s0) (clock s0) (stdout s0 ++ [line]))) →
  (∀ s0 line, P s0 →
     P (DB (Graph (g_nodes (neo4j s0)) (g_rels (neo4j s0))
                  (g_indexes (neo4j s0) ∪ indexed_kinds))
          (diseases_collection s0) (clock s0) (stdout s0 ++ [line]))) →
  P s → P (run (load_nodes nodes_file reader) s).
Proof.
  intros Hprint Hstep Hindex Hs. unfold run, load_nodes.
  unfold mbind at 1, Py_bind at 1. unfold print at 1.
  unfold mbind at 1, Py_bind at 1.
  match goal with |- context [for_each ?l ?body ?s0] =>
    assert (Hloop : P (snd (for_each l body s0)));
    [|destruct (for_each l body s0) as [[[]|e|] s1]; cbn [snd] in Hloop; [|done|done]]
  end.
  - apply for_each_invariant; [|by apply Hprint].
    intros item s0 _ Hs0. rewrite node_body_state.
    destruct (cypher_create_nodes _ _ _) as [g|e|] eqn:Hg; [|done|done].
    apply spliced_ret in Hg. subst g. by apply Hstep.
  - rewrite create_indexes_run. by apply Hindex.
Qed.

Lemma load_nodes_state (nodes_file : string) (reader : list row) (s : HetioNetDB) :
  g_rels (neo4j (run (load_nodes nodes_file reader) s)) = g_rels (neo4j s)
  ∧ diseases_collection (run (load_nodes nodes_file reader) s) = diseases_collection s
  ∧ clock (run (load_nodes nodes_file reader) s) = clock s.
Proof.
  by apply (load_nodes_keeps (λ s0,
    g_rels (neo4j s0) = g_rels (neo4j s)
    ∧ diseases_collection s0 = diseases_collection s
    ∧ clock s0 = clock s)).
Qed.

(** What [load_edges] keeps, whether it returns or raises. *)
Lemma load_edges_keeps (P : HetioNetDB → Prop) (edges_file : string) (reader : list row)
    (s : HetioNetDB) :
  (∀ s0 line, P s0 →
     P (DB (neo4j s0) (diseases_collection s0) (clock s0) (stdout s0 ++ [line]))) →
  (∀ s0 m edges line, P s0 →
     P (DB (Graph (g_nodes (neo4j s0))
                  (g_rels (neo4j s0)
                     ++ (edges ≫= edge_matches (neo4j s0) (_parse_metaedge m)))
                  (g_indexes (neo4j s0)))
          (diseases_collection s0) (clock s0) (stdout s0 ++ [line]))) →
  P s → P (run (load_edges edges_file reader) s).
Proof.
  intros Hprint Hstep Hs. unfold run, load_edges.
  unfold mbind at 1, Py_bind at 1. unfold print at 1.
  apply for_each_invariant; [|by apply Hprint].
  intros item s0 _ Hs0. rewrite edge_body_state.
  destruct (fst item) as [m|]; [|done].
  destruct (cypher_create_rels _ _ _) as [g|e|] eqn:Hg; [|done|done].
  apply spliced_ret in Hg. subst g. by apply Hstep.
Qed.

Lemma edge_matches_in_bounds (g : graph) (rel_type : string) (edge : edge_rec) (r : rel) :
  r ∈ edge_matches g rel_type edge →
  (r_src r < length (g_nodes g))%nat ∧ (r_tgt r < length (g_nodes g))%nat.
Proof.
  unfold edge_matches. intros (i & Hr & Hi)%list_elem_of_bind.
  apply list_elem_of_bind in Hr as (j & Hr & Hj).
  apply list_elem_of_singleton in Hr. subst r. cbn.
  apply elem_of_match_nodes in Hi as (n & Hn & _).
  apply elem_of_match_nodes in Hj as (m & Hm & _).
  split; by eapply lookup_lt_Some.
Qed.

(** Both loaders keep every relationship between nodes of the store, also
    when [load_edges] raises half way; so do the statements of a store that
    started empty. *)
Theorem loaders_keep_rels_in_bounds (file : string) (reader : list row) (s : HetioNetDB) :
  rels_in_bounds (neo4j s) →
  rels_in_bounds (neo4j (run (load_nodes file reader) s))
  ∧ rels_in_bounds (neo4j (run (load_edges file reader) s)).
Proof.
  intros Hs. split.
  - apply (load_nodes_keeps (λ s0, rels_in_bounds (neo4j s0))); [done| |done|done].
    intros s0 kind nodes line Hs0 r Hr. cbn [neo4j g_rels g_nodes] in *.
    rewrite length_app. destruct (Hs0 r Hr). lia.
  - apply (load_edges_keeps (λ s0, rels_in_bounds (neo4j s0))); [done| |done].
    intros s0 m edges line Hs0 r. cbn [neo4j cypher_create_rels g_rels g_nodes].
    intros [Hr|Hr]%elem_of_app; [by apply Hs0|].
    apply list_elem_of_bind in Hr as (e & Hr & _).
    by eapply edge_matches_in_bounds.
Qed.

Lemma loaders_keep_rels_in_bounds_witness :
  rels_in_bounds
    (neo4j (run (load_edges "edges.tsv" scenario_edges)
              (run (load_nodes "nodes.tsv" scenario_nodes) db0))).
Proof.
  apply (loaders_keep_rels_in_bounds "edges.tsv" scenario_edges
           (run (load_nodes "nodes.tsv" scenario_nodes) db0)).
  apply (loaders_keep_rels_in_bounds "nodes.tsv" scenario_nodes db0).
  intros r Hr. destruct (proj1 (elem_of_nil r) Hr).
Defined.

Lemma edge_groups_fit (reader : list row) :
  Forall rel_type_fits reader →
  Forall (λ item : option string * list edge_rec,
            fst item = None ∨ cypher_name (rel_type_of (fst item)) = true)
    (group_by_key (map edge_key reader)).
Proof.
  intros Hall.
  apply (group_by_key_Forall_keys (λ k, k = None ∨ cypher_name (rel_type_of k) = true)).
  by apply Forall_fmap.
Qed.

Lemma for_each_create_rels_raises (d : list (option string * list edge_rec))
    (s : HetioNetDB) :
  Forall (λ item, fst item = None ∨ cypher_name (rel_type_of (fst item)) = true) d →
  None ∈ d.*1 →
  fst (for_each d (λ item,
         rel_type ← call_parse_metaedge (fst item);
         session_run (cypher_create_rels rel_type (snd item));;
         print ("Created " +:+ pretty (length (snd item)) +:+ " " +:+ rel_type
                +:+ " relationships")) s)
  = Raise AttributeError.
Proof.
  intros Hd. revert s. induction Hd as [|[[m|] es] d Hname _ IH]; intros s Hin.
  - by apply elem_of_nil in Hin.
  - rewrite fmap_cons in Hin. apply elem_of_cons in Hin as [Hin|Hin]; [done|].
    destruct Hname as [Hname|Hname]; [done|]. cbn [fst rel_type_of] in Hname.
    cbn [for_each]. unfold mbind at 1, Py_bind at 1.
    cbn [fst snd call_parse_metaedge]. unfold mbind at 1, Py_bind at 1.
    unfold mret at 1, Py_ret at 1. unfold mbind at 1, Py_bind at 1.
    unfold session_run, print, cypher_create_rels. rewrite (spliced_name _ _ Hname).
    by apply IH.
  - reflexivity.
Qed.



Lemma elem_of_match_id (g : graph) (v : option string) (i : nat) :
  i ∈ match_nodes g (has_id v) ↔ ∃ x, v = Some x ∧ prop_id g i = Some x.
Proof.
  rewrite elem_of_match_nodes. unfold prop_id. split.
  - intros (n & Hn & (x & -> & Hx)%has_id_inv). exists x. by rewrite Hn.
  - intros (x & -> & Hx). destruct (g_nodes g !! i) as [n|]; [|done].
    exists n. split; [done|]. simpl in Hx. unfold has_id, cy_eqb. rewrite Hx.
    apply String.eqb_refl.
Qed.

Lemma elem_of_edge_matches (g : graph) (rel_type t : string) (edge : edge_rec) (i j : nat) :
  Rel i t j ∈ edge_matches g rel_type edge
  ↔ t = rel_type
    ∧ i ∈ match_nodes g (has_id (er_source edge))
    ∧ j ∈ match_nodes g (has_id (er_target edge)).
Proof.
  unfold edge_matches. rewrite list_elem_of_bind. split.
  - intros (i' & (j' & Hr & Hj)%list_elem_of_bind & Hi).
    apply list_elem_of_singleton in Hr. by simplify_eq.
  - intros (-> & Hi & Hj). exists i. split; [|done].
    apply list_elem_of_bind. exists j. split; [left|done].
Qed.

(** After a load of edge records that each carry a metaedge code whose
    relationship type is a plain Cypher name, there is a relationship of
    type [t] from node [i] to node [j] exactly when there was one before, or
    some record has a code that parses to [t], a source id that node [i]
    carries and a target id that node [j] carries. *)
Theorem load_edges_relationships (edges_file : string) (reader : list row)
    (s : HetioNetDB) (i j : nat) (t : string) :
  Forall rel_type_is_name reader →
  Rel i t j ∈ g_rels (neo4j (run (load_edges edges_file reader) s))
  ↔ Rel i t j ∈ g_rels (neo4j s)
    ∨ ∃ r m source target,
        r ∈ reader ∧ edge_key r = (Some m, EdgeRec (Some source) (Some target))
        ∧ t = _parse_metaedge m
        ∧ prop_id (neo4j s) i = Some source ∧ prop_id (neo4j s) j = Some target.
Proof.
  intros Hnames. unfold run. rewrite (load_edges_run _ _ _ Hnames).
  assert (Hall : Forall has_metaedge reader).
  { eapply Forall_impl; [exact Hnames|]. apply rel_type_is_name_has_metaedge. }
  cbn [snd neo4j g_rels]. rewrite elem_of_app.
  pose proof (bind_group_by_key
    (λ (k : option string) e, edge_matches (neo4j s) (rel_type_of k) e)
    (map edge_key reader)) as Hp.
  unfold rels_of_group. rewrite Hp. clear Hp.
  apply or_iff_compat_l. rewrite list_elem_of_bind. split.
  - intros ([k e] & Hin & Hkv). cbn [fst snd] in Hin.
    apply list_elem_of_fmap in Hkv as (r & Hkey & Hr).
    apply elem_of_edge_matches in Hin as (-> & Hi & Hj).
    apply elem_of_match_id in Hi as (source & Hsrc & Hi).
    apply elem_of_match_id in Hj as (target & Htgt & Hj).
    destruct (proj1 (Forall_forall _ _) Hall r Hr) as [m Hm].
    rewrite <- Hkey in Hm. cbn [fst] in Hm. subst k.
    destruct e as [src tgt]. cbn [er_source er_target] in Hsrc, Htgt. subst src tgt.
    exists r, m, source, target. by rewrite <- Hkey.
  - intros (r & m & source & target & Hr & Hkey & -> & Hi & Hj).
    exists (Some m, EdgeRec (Some source) (Some target)). split.
    + cbn [fst snd rel_type_of]. apply elem_of_edge_matches.
      split; [done|]. split; apply elem_of_match_id; eauto.
    + rewrite <- Hkey. by apply list_elem_of_fmap_2.
Qed.

Lemma load_edges_relationships_witness :
  Rel 2 "TREATS" 0
  ∈ g_rels (neo4j (run (load_edges "edges.tsv" scenario_edges)
                     (run (load_nodes "nodes.tsv" scenario_nodes) db0))).
Proof.
  assert (Hall : Forall rel_type_is_name scenario_edges).
  { repeat constructor; by vm_compute. }
  apply (load_edges_relationships "edges.tsv" scenario_edges _ 2 0 "TREATS" Hall).
  right. exists (edge_row "Compound::C1" "Disease::D1" "CtD"), "CtD",
           "Compound::C1", "Disease::D1".
  split; [left|]. repeat split; by vm_compute.
Defined.

Lemma edge_matches_no_nodes (g : graph) (rel_type : string) (edge : edge_rec) :
  g_nodes g = [] → edge_matches g rel_type edge = [].
Proof. intros Hn. unfold edge_matches, match_nodes. by rewrite Hn. Qed.

(** With relationship types that are plain Cypher names, [load_edges]
    returns, or raises [AttributeError] at a row without a code. *)
Lemma load_edges_outcome (edges_file : string) (reader : list row) (s : HetioNetDB) :
  Forall rel_type_fits reader →
  fst (load_edges edges_file reader s) = Ret tt
  ∨ fst (load_edges edges_file reader s) = Raise AttributeError.
Proof.
  intros Hfit. destruct (decide (None ∈ (map edge_key reader).*1)) as [Hnone|Hall].
  - right. unfold load_edges. unfold mbind at 1, Py_bind at 1. unfold print at 1.
    apply for_each_create_rels_raises; [by apply edge_groups_fit|].
    by apply group_by_key_keys.
  - left. rewrite load_edges_run; [done|].
    apply Forall_forall. intros r Hr.
    destruct (proj1 (Forall_forall _ _) Hfit r Hr) as [Hkey|Hname]; [|done].
    destruct Hall. rewrite <- Hkey. apply list_elem_of_fmap_2. by apply list_elem_of_fmap_2.
Qed.

(** Edges loaded into a store without nodes materialize nothing, and
    loading the nodes afterwards does not bring them: when the kinds and the
    relationship types spliced into the statements are plain Cypher names,
    the edge load returns or stops at a row without a code, the node load
    returns, and the relationships are those that were there, whatever ids
    and names the two files hold. *)
Theorem edges_before_nodes_create_nothing (nodes_file edges_file : string)
    (nodes_reader edges_reader : list row) (s : HetioNetDB) :
  Forall kind_is_name nodes_reader →
  Forall rel_type_fits edges_reader →
  g_nodes (neo4j s) = [] →
  (fst (load_edges edges_file edges_reader s) = Ret tt
   ∨ fst (load_edges edges_file edges_reader s) = Raise AttributeError)
  ∧ fst (load_nodes nodes_file nodes_reader (run (load_edges edges_file edges_reader) s))
    = Ret tt
  ∧ g_rels (neo4j (run (load_nodes nodes_file nodes_reader)
                     (run (load_edges edges_file edges_reader) s)))
    = g_rels (neo4j s).
Proof.
  intros Hkinds Hfit Hempty.
  split; [by apply load_edges_outcome|].
  split; [by rewrite (load_nodes_run _ _ _ Hkinds)|].
  rewrite (proj1 (load_nodes_state nodes_file nodes_reader _)).
  apply (load_edges_keeps (λ s0,
           g_nodes (neo4j s0) = [] ∧ g_rels (neo4j s0) = g_rels (neo4j s)));
    [done| |done].
  intros s0 m edges line [Hn Hr]. cbn [neo4j cypher_create_rels g_nodes g_rels].
  split; [done|]. rewrite Hr.
  rewrite (bind_nil_all (edge_matches (neo4j s0) (_parse_metaedge m)) edges).
  - apply app_nil_r.
  - intros e _. by apply edge_matches_no_nodes.
Qed.

Lemma edges_before_nodes_create_nothing_witness :
  g_rels (neo4j (run (load_nodes "nodes.tsv" scenario_nodes)
                   (run (load_edges "edges.tsv" scenario_edges) db0)))
  = [].
Proof.
  apply (edges_before_nodes_create_nothing "nodes.tsv" "edges.tsv"
           scenario_nodes scenario_edges db0).
  - repeat constructor; by vm_compute.
  - repeat constructor; right; by vm_compute.
  - reflexivity.
Defined.

(** ** The cache rebuild: outcome, content, repetition *)

Lemma null_id_no_doc (g : graph) : disease_doc g None = None.
Proof.
  unfold disease_doc, cypher_disease_info, q1_rows.
  rewrite (match_nodes_nil g (λ n, has_label "Disease" n && has_id None n)); [done|].
  intros n _. unfold has_id, cy_eqb. destruct (n_id n); apply andb_false_r.
Qed.

Lemma all_diseases_keys (g : graph) (k : option string) :
  k ∈ (cypher_all_diseases g).*1
  ↔ ∃ n, n ∈ g_nodes g ∧ n_label n = "Disease" ∧ n_id n = k.
Proof.
  unfold cypher_all_diseases. rewrite <- list_fmap_compose. rewrite list_elem_of_fmap.
  split.
  - intros (d & -> & Hd). apply elem_of_match_nodes in Hd as (n & Hn & Hl).
    exists n. split; [by eapply list_elem_of_lookup_2|].
    split; [by apply String.eqb_eq in Hl|].
    cbn. unfold prop_id. by rewrite Hn.
  - intros (n & Hn & Hl & Hk). apply list_elem_of_lookup in Hn as (d & Hd).
    exists d. split.
    + cbn. unfold prop_id. by rewrite Hd.
    + apply elem_of_match_nodes. exists n. split; [done|].
      unfold has_label. rewrite Hl. apply String.eqb_refl.
Qed.

Lemma all_diseases_have_docs (g : graph) :
  diseases_have_ids g ↔ ∀ k, k ∈ (cypher_all_diseases g).*1 → is_Some (disease_doc g k).
Proof.
  split.
  - intros Hids k (n & Hn & Hl & <-)%all_diseases_keys.
    destruct (Hids n Hn Hl) as [id Hid]. rewrite Hid.
    apply resolved_has_doc. by exists n.
  - intros Hdocs n Hn Hl. destruct (n_id n) as [id|] eqn:Hid; [by eexists|].
    destruct (Hdocs None) as [doc Hdoc].
    + apply all_diseases_keys. by exists n.
    + by rewrite null_id_no_doc in Hdoc.
Qed.

Lemma for_each_outcome {A : Type} (Q : outcome unit → Prop) (body : A → Py unit)
    (l : list A) (s : HetioNetDB) :
  Q (Ret tt) → (∀ x s0 e, fst (body x s0) = Raise e → Q (Raise e)) →
  (∀ x s0, fst (body x s0) ≠ Unmodelled) →
  Q (fst (for_each l body s)).
Proof.
  intros Hret Hraise Hmod. revert s. induction l as [|x l IH]; intros s; [done|].
  cbn [for_each]. unfold mbind, Py_bind.
  pose proof (Hraise x s) as Hx. pose proof (Hmod x s) as Hm.
  destruct (body x s) as [[[]|e|] s1]; [apply IH|by apply Hx|done].
Qed.

Lemma for_each_upsert_outcome (records : list (option string * option string))
    (s : HetioNetDB) :
  fst (for_each records (λ record,
         disease_info ← _get_disease_info_from_neo4j (fst record) (snd record);
         replace_one_upsert (fst record) disease_info) s) = Ret tt
  ∨ fst (for_each records (λ record,
           disease_info ← _get_disease_info_from_neo4j (fst record) (snd record);
           replace_one_upsert (fst record) disease_info) s) = Raise TypeError.
Proof.
  apply (for_each_outcome (λ o, o = Ret tt ∨ o = Raise TypeError)); [by left| |].
  - intros [k nm] s0 e. cbn [fst snd]. unfold mbind, Py_bind.
    rewrite get_disease_info_run.
    destruct (disease_doc (neo4j s0) k); cbn; [done|]. intros [= <-]. by right.
  - intros [k nm] s0. cbn [fst snd]. unfold mbind, Py_bind.
    rewrite get_disease_info_run. by destruct (disease_doc (neo4j s0) k).
Qed.

Lemma build_mongo_cache_split (s : HetioNetDB) :
  build_mongo_cache s
  = match for_each (cypher_all_diseases (neo4j s)) (λ record,
            disease_info ← _get_disease_info_from_neo4j (fst record) (snd record);
            replace_one_upsert (fst record) disease_info)
          (DB (neo4j s) (diseases_collection s) (clock s)
             (stdout s ++ [newline +:+ "Building MongoDB cache for diseases..."])) with
    | (Ret _, s1) =>
        (Ret tt, DB (neo4j s1) (diseases_collection s1) (clock s1)
                   (stdout s1 ++ ["Cached " +:+ pretty (size (diseases_collection s1))
                                  +:+ " diseases"]))
    | (Raise e, s1) => (Raise e, s1)
    | (Unmodelled, s1) => (Unmodelled, s1)
    end.
Proof.
  unfold build_mongo_cache. unfold mbind at 1, Py_bind at 1. unfold print at 1.
  unfold mbind at 1, Py_bind at 1. unfold session_query at 1.
  cbn [neo4j diseases_collection clock stdout].
  unfold mbind at 1, Py_bind at 1.
  match goal with |- context [for_each ?l ?body ?s0] =>
    destruct (for_each l body s0) as [[[]|e|] s1] end; reflexivity.
Qed.

(** The rebuild either completes or raises [TypeError], and it completes
    exactly when every [Disease] node of the store carries an id; it never
    changes the graph. *)
Theorem build_mongo_cache_outcome (s : HetioNetDB) :
  (fst (build_mongo_cache s) = Ret tt ∨ fst (build_mongo_cache s) = Raise TypeError)
  ∧ (fst (build_mongo_cache s) = Ret tt ↔ diseases_have_ids (neo4j s))
  ∧ neo4j (run build_mongo_cache s) = neo4j s.
Proof.
  split; [|split].
  - rewrite build_mongo_cache_split.
    match goal with |- context [for_each ?l ?body ?s0] =>
      destruct (for_each_upsert_outcome l s0) as [H|H];
      destruct (for_each l body s0) as [[[]|e|] s1] end;
      cbn [fst] in *; simplify_eq; auto.
  - split.
    + intros Hret. destruct (build_mongo_cache s) as [o s'] eqn:Hb.
      cbn [fst] in Hret. subst o.
      apply build_mongo_cache_inv in Hb as (_ & Hsome & _).
      by apply all_diseases_have_docs.
    + intros Hids. destruct (build_mongo_cache_completes s Hids) as [s' ->]. done.
  - unfold run. rewrite build_mongo_cache_split.
    match goal with |- context [for_each ?l ?body ?s0] =>
      pose proof (for_each_invariant (λ s1, neo4j s1 = neo4j s) body l s0) as Hinv;
      destruct (for_each l body s0) as [[[]|e|] s1] end;
      cbn [snd neo4j] in *; apply Hinv; try done;
      intros [k nm] s2 _ Hs2; cbn [fst snd];
      unfold mbind, Py_bind; rewrite get_disease_info_run;
      by destruct (disease_doc (neo4j s2) k).
Qed.

(** After a rebuild that completed, the collection holds, for every id
    that a [Disease] node carries, the base fields the graph gives for it,
    and for every other id what it held before: the rebuild never removes a
    document.  Started from an empty collection, it leaves a document for
    an id exactly when a [Disease] node carries the id. *)
Theorem rebuild_cache_content (disease_id : string) (s s' : HetioNetDB) :
  build_mongo_cache s = (Ret tt, s') →
  (disease_resolves (neo4j s) disease_id →
     is_Some (diseases_collection s' !! Some disease_id)
     ∧ diseases_collection s' !! Some disease_id
       = disease_doc (neo4j s) (Some disease_id))
  ∧ (¬ disease_resolves (neo4j s) disease_id →
       diseases_collection s' !! Some disease_id
       = diseases_collection s !! Some disease_id)
  ∧ (diseases_collection s = ∅ →
       is_Some (diseases_collection s' !! Some disease_id)
       ↔ disease_resolves (neo4j s) disease_id).
Proof.
  intros (Hg & Hsome & Hcoll)%build_mongo_cache_inv.
  assert (Hkey : Some disease_id ∈ (cypher_all_diseases (neo4j s)).*1
                 ↔ disease_resolves (neo4j s) disease_id).
  { rewrite all_diseases_keys. done. }
  assert (Hyes : disease_resolves (neo4j s) disease_id →
            is_Some (diseases_collection s' !! Some disease_id)
            ∧ diseases_collection s' !! Some disease_id
              = disease_doc (neo4j s) (Some disease_id)).
  { intros Hres%Hkey. rewrite Hcoll, decide_True by done. split; [by apply Hsome|done]. }
  assert (Hno : ¬ disease_resolves (neo4j s) disease_id →
            diseases_collection s' !! Some disease_id
            = diseases_collection s !! Some disease_id).
  { intros Hres. rewrite Hcoll, decide_False; [done|]. by rewrite Hkey. }
  split; [done|]. split; [done|].
  intros Hempty. split.
  - intros Hhit. destruct (decide (Some disease_id ∈ (cypher_all_diseases (neo4j s)).*1))
      as [Hin|Hout]; [by apply Hkey|].
    rewrite Hcoll, decide_False, Hempty, lookup_empty in Hhit by done.
    by destruct Hhit.
  - intros Hres. by apply Hyes.
Qed.

Lemma rebuild_cache_content_witness :
  is_Some (diseases_collection (scenario_db []) !! Some "Disease::D1").
Proof.
  assert (Hres : disease_resolves
                   (neo4j (run (load_edges "edges.tsv" scenario_edges)
                             (run (load_nodes "nodes.tsv" scenario_nodes) db0)))
                   "Disease::D1").
  { exists (Node "Disease" (Some "Disease::D1") (Some "Flu")).
    split; [vm_compute; left|split; reflexivity]. }
  assert (Hb : build_mongo_cache
                 (run (load_edges "edges.tsv" scenario_edges)
                    (run (load_nodes "nodes.tsv" scenario_nodes) db0))
               = (Ret tt, scenario_db [])) by (vm_compute; reflexivity).
  exact (proj1 (proj1 (rebuild_cache_content "Disease::D1" _ _ Hb) Hres)).
Defined.

(** Rebuilding again right after a rebuild that completed also completes,
    and leaves graph and collection as the first rebuild left them. *)
Theorem rebuild_twice (s s' : HetioNetDB) :
  build_mongo_cache s = (Ret tt, s') →
  ∃ s'', build_mongo_cache s' = (Ret tt, s'')
         ∧ neo4j s'' = neo4j s'
         ∧ diseases_collection s'' = diseases_collection s'.
Proof.
  intros Hb. pose proof Hb as (Hg & Hsome & Hcoll)%build_mongo_cache_inv.
  assert (Hids : diseases_have_ids (neo4j s')).
  { rewrite Hg. by apply all_diseases_have_docs. }
  destruct (build_mongo_cache_completes s' Hids) as [s'' Hb'].
  exists s''. split; [done|].
  apply build_mongo_cache_inv in Hb' as (Hg' & _ & Hcoll'). split; [done|].
  apply map_eq. intros k. rewrite Hcoll', Hg, Hcoll.
  by destruct (decide (k ∈ (cypher_all_diseases (neo4j s)).*1)).
Qed.

Lemma rebuild_twice_witness :
  ∃ s'', build_mongo_cache (scenario_db []) = (Ret tt, s'')
         ∧ neo4j s'' = neo4j (scenario_db [])
         ∧ diseases_collection s'' = diseases_collection (scenario_db []).
Proof.
  assert (Hb : build_mongo_cache
                 (run (load_edges "edges.tsv" scenario_edges)
                    (run (load_nodes "nodes.tsv" scenario_nodes) db0))
               = (Ret tt, scenario_db [])) by (vm_compute; reflexivity).
  exact (rebuild_twice _ _ Hb).
Defined.

(** ** The command-line entry points *)

Lemma query1_cached_miss (disease_id : string) (s : HetioNetDB) :
  diseases_collection s !! Some disease_id = None →
  query1_disease_info disease_id true s
  = (Ret None, DB (neo4j s) (diseases_collection s) (tl (tl (clock s))) (stdout s)).
Proof.
  intros Hmiss. unfold query1_disease_info. py_unfold. by rewrite Hmiss.
Qed.

Lemma query1_direct_unresolved (disease_id : string) (s : HetioNetDB) :
  ¬ disease_resolves (neo4j s) disease_id →
  query1_disease_info disease_id false s
  = (Raise TypeError, DB (neo4j s) (diseases_collection s) (tl (clock s)) (stdout s)).
Proof.
  intros Hno. unfold query1_disease_info. py_unfold.
  pose proof (unresolved_no_match _ _ Hno) as Hm.
  unfold cypher_disease_info, q1_rows. by rewrite Hm.
Qed.

(** For an id that no [Disease] node carries and the collection has no
    document for: with the cache, [query_disease] prints the banner, the
    line [Disease ... not found] and the closing line, and returns; without
    the cache it raises [TypeError] after the banner, printing neither the
    not-found line nor the closing line. *)
Theorem query_disease_not_found (float_str : Z → string) (disease_id : string)
    (s : HetioNetDB) :
  diseases_collection s !! Some disease_id = None →
  ¬ disease_resolves (neo4j s) disease_id →
  fst (query_disease float_str disease_id false s) = Ret tt
  ∧ stdout (run (query_disease float_str disease_id false) s)
    = stdout s ++ banner "QUERY 1: DISEASE INFORMATION"
        ++ ["Disease " +:+ disease_id +:+ " not found"; "Database connections closed"]
  ∧ fst (query_disease float_str disease_id true s) = Raise TypeError
  ∧ stdout (run (query_disease float_str disease_id true) s)
    = stdout s ++ banner "QUERY 1: DISEASE INFORMATION".
Proof.
  intros Hmiss Hno.
  unfold run, query_disease, mbind, Py_bind, __init__, close, print.
  cbn [negb neo4j diseases_collection clock stdout].
  rewrite query1_cached_miss by done. rewrite query1_direct_unresolved by done.
  cbn [fst snd stdout]. unfold banner. rewrite <- !app_assoc. done.
Qed.

Lemma query_disease_not_found_witness :
  fst (query_disease (λ _, "0.0") "Disease::D9" false (scenario_db [])) = Ret tt
  ∧ fst (query_disease (λ _, "0.0") "Disease::D9" true (scenario_db []))
    = Raise TypeError.
Proof.
  assert (Hno : ¬ disease_resolves (neo4j (scenario_db [])) "Disease::D9").
  { intros (n & Hn & Hl & Hi).
    change (g_nodes (neo4j (scenario_db [])))
      with (map node_of_row [ node_row "Disease::D1" "Flu" "Disease";
                              node_row "Gene::G1" "GeneA" "Gene";
                              node_row "Compound::C1" "DrugA" "Compound";
                              node_row "Compound::C2" "DrugB" "Compound";
                              node_row "Anatomy::A1" "Lung" "Anatomy" ]) in Hn.
    vm_compute in Hn. set_solver. }
  assert (Hmiss : diseases_collection (scenario_db []) !! Some "Disease::D9" = None)
    by (vm_compute; reflexivity).
  destruct (query_disease_not_found (λ _, "0.0") "Disease::D9" (scenario_db []) Hmiss Hno)
    as (H1 & _ & H2 & _).
  split; [exact H1|exact H2].
Defined.

(** For a disease id without anatomical site in the store, known or not,
    [find_treatments] prints the banner, the id, a count of 0, the query
    time and the closing line, with or without [--verbose], and returns. *)
Theorem find_treatments_nothing_found (float_str : Z → string) (queried_id : string)
    (verbose : bool) (s : HetioNetDB) :
  no_site (neo4j s) queried_id →
  fst (find_treatments float_str queried_id verbose s) = Ret tt
  ∧ stdout (run (find_treatments float_str queried_id verbose) s)
    = stdout s ++ banner "QUERY 2: FIND POTENTIAL TREATMENTS"
        ++ [ newline +:+ "Disease ID: " +:+ queried_id;
             "Potential Treatments Found: 0";
             newline +:+ "Query Time: " +:+ float_str (elapsed s) +:+ " ms";
             "Database connections closed" ].
Proof.
  intros Hno.
  assert (Hq : ∀ s0, neo4j s0 = neo4j s →
            query2_find_treatments queried_id s0
            = (Ret (Query2Result queried_id 0 [] (elapsed s0)),
               DB (neo4j s0) (diseases_collection s0) (tl (tl (clock s0))) (stdout s0))).
  { intros s0 Hg. unfold query2_find_treatments, elapsed. py_unfold.
    unfold cypher_find_treatments, q2_rows. rewrite Hg.
    by rewrite (no_site_no_match _ _ Hno). }
  unfold run, find_treatments, mbind, Py_bind, __init__, close, print.
  cbn [neo4j diseases_collection clock stdout].
  rewrite Hq by done.
  cbn [fst snd stdout disease_id potential_treatments_count treatments q2_query_time_ms].
  unfold mret, Py_ret. cbn [fst snd stdout].
  unfold banner, elapsed. cbn [clock]. rewrite <- !app_assoc. done.
Qed.

Lemma find_treatments_nothing_found_witness :
  fst (find_treatments (λ _, "0.0") "Disease::D9" true db0) = Ret tt.
Proof.
  apply (find_treatments_nothing_found (λ _, "0.0") "Disease::D9" true db0).
  intros r d a Hr. destruct (proj1 (elem_of_nil r) Hr).
Defined.

Lemma for_each_cons {A : Type} (body : A → Py unit) (x : A) (l : list A) (s : HetioNetDB) :
  for_each (x :: l) body s
  = match body x s with
    | (Ret _, s1) => for_each l body s1
    | (Raise e, s1) => (Raise e, s1)
    | (Unmodelled, s1) => (Unmodelled, s1)
    end.
Proof. reflexivity. Qed.

Lemma edge_body_run (item : option string * list edge_rec) (s : HetioNetDB) :
  (rel_type ← call_parse_metaedge (fst item);
   session_run (cypher_create_rels rel_type (snd item));;
   print ("Created " +:+ pretty (length (snd item)) +:+ " " +:+ rel_type
          +:+ " relationships")) s
  = match fst item with
    | Some m =>
        match cypher_create_rels (_parse_metaedge m) (snd item) (neo4j s) with
        | Ret g =>
            (Ret tt, DB g (diseases_collection s) (clock s) (stdout s ++ [edge_report item]))
        | Raise e => (Raise e, s)
        | Unmodelled => (Unmodelled, s)
        end
    | None => (Raise AttributeError, s)
    end.
Proof.
  destruct item as [[m|] es]; [|reflexivity].
  unfold mbind, Py_bind, call_parse_metaedge, mret, Py_ret, session_run, print.
  cbn [fst snd]. destruct (cypher_create_rels _ _ _); reflexivity.
Qed.

(** The state the edge loop leaves: the groups up to the first one without
    a metaedge code have been created and reported, in order. *)
Lemma for_each_create_rels_partial (d : list (option string * list edge_rec))
    (s : HetioNetDB) :
  Forall (λ item, fst item = None ∨ cypher_name (rel_type_of (fst item)) = true) d →
  ∃ d1, d1 `prefix_of` d
    ∧ snd (for_each d (λ item,
             rel_type ← call_parse_metaedge (fst item);
             session_run (cypher_create_rels rel_type (snd item));;
             print ("Created " +:+ pretty (length (snd item)) +:+ " " +:+ rel_type
                    +:+ " relationships")) s)
      = DB (Graph (g_nodes (neo4j s))
              (g_rels (neo4j s) ++ (d1 ≫= rels_of_group (neo4j s)))
              (g_indexes (neo4j s)))
           (diseases_collection s) (clock s) (stdout s ++ map edge_report d1).
Proof.
  intros Hd. revert s. induction Hd as [|[k es] d Hname _ IH]; intros s.
  - exists []. split; [done|]. cbn. rewrite !app_nil_r. by destruct s as [[] ? ? ?].
  - rewrite for_each_cons, edge_body_run. cbn [fst snd]. destruct k as [m|].
    + destruct Hname as [Hname|Hname]; [done|]. cbn [fst rel_type_of] in Hname.
      rewrite (cypher_create_rels_name _ es (neo4j s) Hname).
      match goal with |- context [for_each d _ ?s1] =>
        destruct (IH s1) as (d1 & Hpre & Hst) end.
      exists ((Some m, es) :: d1). split; [by apply prefix_cons|].
      rewrite Hst. cbn [neo4j diseases_collection clock stdout g_nodes g_rels g_indexes map].
      rewrite (rels_of_group_nodes _ (neo4j s)) by done.
      rewrite bind_cons, <- !app_assoc. reflexivity.
    + exists []. split; [apply prefix_nil|]. cbn. rewrite !app_nil_r.
      by destruct s as [[] ? ? ?].
Qed.

Lemma load_edges_raise_run (edges_file : string) (reader : list row) (s : HetioNetDB)
    (r : row) :
  Forall rel_type_fits reader →
  r ∈ reader → fst (edge_key r) = None →
  ∃ d1, load_edges edges_file reader s
        = (Raise AttributeError,
           DB (Graph (g_nodes (neo4j s))
                 (g_rels (neo4j s) ++ (d1 ≫= rels_of_group (neo4j s)))
                 (g_indexes (neo4j s)))
              (diseases_collection s) (clock s)
              (stdout s ++ [newline +:+ "Loading edges from " +:+ edges_file +:+ "..."]
                 ++ map edge_report d1)).
Proof.
  intros Hfit Hr Hnone.
  unfold load_edges. unfold mbind at 1, Py_bind at 1. unfold print at 1.
  match goal with |- context [for_each ?d ?body ?s0] =>
    destruct (for_each_create_rels_partial d s0 (edge_groups_fit _ Hfit)) as (d1 & _ & Hst);
    pose proof (for_each_create_rels_raises d s0 (edge_groups_fit _ Hfit)) as Hfst;
    destruct (for_each d body s0) as [o s1] end.
  cbn [fst snd neo4j diseases_collection clock stdout] in *.
  exists d1. rewrite Hfst, Hst, <- app_assoc; [done|].
  apply group_by_key_keys. rewrite <- Hnone.
  apply list_elem_of_fmap_2. by apply list_elem_of_fmap_2.
Qed.

Lemma created_line_ne (rest : string) (line : string) :
  line = "Database connections closed"
  ∨ line = newline +:+ "Database creation complete!" →
  "Created " +:+ rest ≠ line.
Proof. intros [->| ->]; discriminate. Qed.

(** When a row of the edges file has no metaedge code, [create_database]
    raises [AttributeError] (the kinds of the nodes file and the relationship
    types of the other edge rows being plain Cypher names).  The nodes of the
    nodes file stay loaded, the cache is not built even when asked for, and
    neither the completion line nor the closing line is printed. *)
Theorem create_database_edge_error (nodes_file edges_file : string)
    (nodes_reader edges_reader : list row) (build_cache : bool) (s : HetioNetDB)
    (r : row) :
  Forall kind_is_name nodes_reader →
  Forall rel_type_fits edges_reader →
  r ∈ edges_reader → fst (edge_key r) = None →
  fst (create_database nodes_file nodes_reader edges_file edges_reader build_cache s)
  = Raise AttributeError
  ∧ diseases_collection
      (run (create_database nodes_file nodes_reader edges_file edges_reader build_cache) s)
    = diseases_collection s
  ∧ (∃ created,
       g_nodes (neo4j (run (create_database nodes_file nodes_reader edges_file
                              edges_reader build_cache) s))
       = g_nodes (neo4j s) ++ created
       ∧ created ≡ₚ map node_of_row nodes_reader)
  ∧ (∃ out,
       stdout (run (create_database nodes_file nodes_reader edges_file edges_reader
                      build_cache) s)
       = stdout s ++ out
       ∧ Forall (λ line, line ≠ "Database connections closed"
                         ∧ line ≠ newline +:+ "Database creation complete!") out).
Proof.
  intros Hkinds Hfit Hr Hnone.
  unfold run, create_database. unfold mbind, Py_bind, __init__, print.
  cbn [neo4j diseases_collection clock stdout].
  rewrite (load_nodes_run _ _ _ Hkinds). cbn [neo4j diseases_collection clock stdout].
  match goal with |- context [load_edges edges_file edges_reader ?s2] =>
    destruct (load_edges_raise_run edges_file edges_reader s2 r Hfit Hr Hnone)
      as (d1 & ->) end.
  cbn [fst snd neo4j diseases_collection clock stdout g_nodes g_rels g_indexes].
  split; [done|]. split; [done|]. split.
  { eexists. split; [reflexivity|]. apply created_nodes_perm. }
  eexists. split.
  { rewrite <- !app_assoc. reflexivity. }
  assert (Hout : ∀ line,
            line = "Database connections closed"
            ∨ line = newline +:+ "Database creation complete!" →
            line ∉ ["Connected to Neo4j and MongoDB"]
                     ++ [newline +:+ str_repeat "=" 60]
                     ++ ["CREATING HETIONET DATABASE"]
                     ++ [str_repeat "=" 60]
                     ++ [newline +:+ "Loading nodes from " +:+ nodes_file +:+ "..."]
                     ++ map node_report (group_by_key (map node_key nodes_reader))
                     ++ ["Created indexes"]
                     ++ [newline +:+ "Loading edges from " +:+ edges_file +:+ "..."]
                     ++ map edge_report d1).
  { intros line Hline Hin.
    repeat (apply elem_of_app in Hin as [Hin|Hin]);
      try (apply list_elem_of_singleton in Hin; subst line;
           by destruct Hline as [Hl|Hl]; vm_compute in Hl).
    - apply list_elem_of_fmap in Hin as (item & Heq & _).
      exact (created_line_ne
               (pretty (length (snd item)) +:+ " " +:+ py_str (fst item) +:+ " nodes")
               line Hline (eq_sym Heq)).
    - apply list_elem_of_fmap in Hin as (item & Heq & _).
      exact (created_line_ne
               (pretty (length (snd item)) +:+ " " +:+ rel_type_of (fst item)
                +:+ " relationships")
               line Hline (eq_sym Heq)). }
  apply Forall_forall. intros line Hin.
  split; intros Hline; by apply (Hout line); [auto|].
Qed.

Lemma create_database_edge_error_witness :
  fst (create_database "nodes.tsv" scenario_nodes "edges.tsv"
         [edge_row "Compound::C1" "Disease::D1" "CtD";
          {[ "Source" := "Compound::C1"; "Target" := "Disease::D1" ]}]
         true db0)
  = Raise AttributeError.
Proof.
  eapply (create_database_edge_error "nodes.tsv" "edges.tsv" scenario_nodes _ true db0
            {[ "Source" := "Compound::C1"; "Target" := "Disease::D1" ]}).
  - repeat constructor; vm_compute; reflexivity.
  - constructor; [right; vm_compute; reflexivity|].
    constructor; [left; vm_compute; reflexivity|constructor].
  - right. left.
  - vm_compute. reflexivity.
Defined.

Lemma base_of_cached (disease_id : string) (s : HetioNetDB) :
  base_of (fst (query1_disease_info disease_id true s))
  = Ret (diseases_collection s !! Some disease_id).
Proof.
  rewrite query1_cached_run. cbn. by destruct (diseases_collection s !! Some disease_id).
Qed.

Lemma base_of_direct (disease_id : string) (s : HetioNetDB) (doc : disease_info) :
  disease_doc (neo4j s) (Some disease_id) = Some doc →
  base_of (fst (query1_disease_info disease_id false s)) = Ret (Some doc).
Proof. intros Hdoc. by rewrite query1_direct_run, Hdoc. Qed.

(** [create_database] with the cache, on a store whose [Disease] nodes carry
    ids, with files whose kinds are plain Cypher names, whose [Disease] rows
    carry ids and whose edge rows carry metaedge codes giving relationship
    types that are plain Cypher names: it returns, the closing line is the last line printed,
    and from then on, for every [Disease] row of the nodes file, query 1
    with the cache and query 1 without it return the same base fields. *)
Theorem create_database_then_query (nodes_file edges_file : string)
    (nodes_reader edges_reader : list row) (s : HetioNetDB) :
  diseases_have_ids (neo4j s) →
  Forall kind_is_name nodes_reader →
  Forall (λ r, n_label (node_of_row r) = "Disease" → is_Some (n_id (node_of_row r)))
    nodes_reader →
  Forall rel_type_is_name edges_reader →
  ∃ s', create_database nodes_file nodes_reader edges_file edges_reader true s
        = (Ret tt, s')
    ∧ last (stdout s') = Some "Database connections closed"
    ∧ ∀ r id, r ∈ nodes_reader →
        n_label (node_of_row r) = "Disease" → n_id (node_of_row r) = Some id →
        ∃ doc, base_of (fst (query1_disease_info id true s')) = Ret (Some doc)
               ∧ base_of (fst (query1_disease_info id false s')) = Ret (Some doc).
Proof.
  intros Hold Hkinds Hnew Hall.
  unfold create_database. unfold mbind, Py_bind, __init__, close, print.
  cbn [neo4j diseases_collection clock stdout].
  rewrite (load_nodes_run _ _ _ Hkinds). cbn [neo4j diseases_collection clock stdout].
  rewrite (load_edges_run _ _ _ Hall).
  cbn [neo4j diseases_collection clock stdout g_nodes g_rels g_indexes].
  match goal with |- context [build_mongo_cache ?t] => set (s3 := t) end.
  assert (Hnodes : g_nodes (neo4j s3)
                   = g_nodes (neo4j s)
                       ++ (group_by_key (map node_key nodes_reader) ≫= nodes_of_group))
    by reflexivity.
  assert (Hmem : ∀ n, n ∈ g_nodes (neo4j s3)
                      ↔ n ∈ g_nodes (neo4j s) ∨ ∃ r, n = node_of_row r ∧ r ∈ nodes_reader).
  { intros n. rewrite Hnodes, elem_of_app, (created_nodes_perm nodes_reader).
    apply or_iff_compat_l. apply (list_elem_of_fmap node_of_row). }
  assert (Hids : diseases_have_ids (neo4j s3)).
  { intros n [Hn|(r & -> & Hr)]%Hmem Hl; [by apply Hold|].
    by apply (proj1 (Forall_forall _ _) Hnew r Hr). }
  destruct (build_mongo_cache_completes s3 Hids) as [s4 Hb]. rewrite Hb.
  eexists. split; [reflexivity|].
  cbn [neo4j diseases_collection clock stdout].
  split; [by rewrite last_snoc|].
  intros r id Hr Hl Hid.
  apply build_mongo_cache_inv in Hb as (Hg & Hsome & Hcoll).
  assert (Hres : disease_resolves (neo4j s3) id).
  { exists (node_of_row r). split; [|done]. apply Hmem. right. by exists r. }
  destruct (Hsome _ (resolved_in_all_diseases _ _ Hres)) as [doc Hdoc].
  exists doc. split.
  - rewrite base_of_cached. cbn [diseases_collection].
    rewrite Hcoll, decide_True by (by apply resolved_in_all_diseases). by rewrite Hdoc.
  - apply base_of_direct. cbn [neo4j]. by rewrite Hg.
Qed.

Lemma create_database_then_query_witness :
  ∃ s', create_database "nodes.tsv" scenario_nodes "edges.tsv" scenario_edges true db0
        = (Ret tt, s')
    ∧ last (stdout s') = Some "Database connections closed"
    ∧ ∀ r id, r ∈ scenario_nodes →
        n_label (node_of_row r) = "Disease" → n_id (node_of_row r) = Some id →
        ∃ doc, base_of (fst (query1_disease_info id true s')) = Ret (Some doc)
               ∧ base_of (fst (query1_disease_info id false s')) = Ret (Some doc).
Proof.
  assert (Hold : diseases_have_ids (neo4j db0)).
  { intros n Hn. destruct (proj1 (elem_of_nil n) Hn). }
  assert (Hnew : Forall (λ r, n_label (node_of_row r) = "Disease"
                              → is_Some (n_id (node_of_row r))) scenario_nodes).
  { repeat constructor; intros _; eexists; vm_compute; reflexivity. }
  assert (Hkinds : Forall kind_is_name scenario_nodes).
  { repeat constructor; vm_compute; reflexivity. }
  assert (Hall : Forall rel_type_is_name scenario_edges).
  { repeat constructor; vm_compute; reflexivity. }
  exact (create_database_then_query "nodes.tsv" "edges.tsv" scenario_nodes scenario_edges
           db0 Hold Hkinds Hnew Hall).
Defined.

(** ** Kinds and relationship types that the server refuses *)









(** ** Completeness of the two queries *)

Lemma group_by_key_has_item {K V : Type} `{EqDecision K} (k : K) (v : V)
    (items : list (K * V)) :
  (k, v) ∈ items → ∃ vs, (k, vs) ∈ group_by_key items ∧ v ∈ vs.
Proof.
  intros Hin.
  assert (Hk : k ∈ (group_by_key items).*1).
  { apply group_by_key_keys. apply (list_elem_of_fmap_2 fst _ _ Hin). }
  apply list_elem_of_fmap in Hk as ([k' vs] & Hk' & Hgrp). cbn [fst] in Hk'. subst k'.
  exists vs. split; [done|].
  rewrite (group_by_key_group _ _ _ Hgrp).
  apply (list_elem_of_fmap_2 snd _ (k, v)). apply list_elem_of_In, filter_In.
  split; [by apply list_elem_of_In|]. by apply bool_decide_eq_true.
Qed.

Lemma node_sat_match (g : graph) (P : node → bool) (i : nat) :
  node_sat g P i = true → i ∈ match_nodes g P.
Proof.
  intros Hsat. apply elem_of_match_nodes. unfold node_sat in Hsat.
  destruct (g_nodes g !! i) as [n|]; [eauto|done].
Qed.

Lemma type_in_intro (t : string) (ts : list string) (i j : nat) :
  t ∈ ts → type_in ts (Rel i t j) = true.
Proof.
  intros Hin. unfold type_in. apply existsb_exists. exists t.
  split; [by apply list_elem_of_In|apply String.eqb_refl].
Qed.

(** Query 2 reports every opposite-regulation mechanism of the graph whose
    compound effect is [UPREGULATES], and every one whose compound effect is
    [DOWNREGULATES] unless the compound [TREATS] or [PALLIATES] the disease:
    the treatment of the compound is in the result and carries the
    mechanism. *)
Theorem query2_mechanisms_complete (queried_id : string) (s : HetioNetDB)
    (d a c gn : nat) (ce ae : string) :
  is_disease (neo4j s) queried_id d →
  node_sat (neo4j s) (has_label "Anatomy") a = true →
  node_sat (neo4j s) (has_label "Compound") c = true →
  node_sat (neo4j s) (has_label "Gene") gn = true →
  Rel d "LOCALIZES_TO" a ∈ g_rels (neo4j s) →
  Rel c ce gn ∈ g_rels (neo4j s) →
  Rel a ae gn ∈ g_rels (neo4j s) →
  (ce = "UPREGULATES" ∧ ae = "DOWNREGULATES")
  ∨ (ce = "DOWNREGULATES" ∧ ae = "UPREGULATES"
     ∧ treats_or_palliates (neo4j s) c d = false) →
  ∃ r t, fst (query2_find_treatments queried_id s) = Ret r
    ∧ t ∈ treatments r
    ∧ compound_id t = prop_id (neo4j s) c
    ∧ compound_name t = prop_name (neo4j s) c
    ∧ Mechanism (prop_name (neo4j s) gn) ce (prop_name (neo4j s) a) ae ∈ mechanisms t.
Proof.
  intros Hd Ha Hc Hgn Hla Hcr Har Hopp.
  set (g := neo4j s) in *.
  assert (Hce : ce ∈ ["UPREGULATES"; "DOWNREGULATES"]).
  { destruct Hopp as [[-> _]|[-> _]]; set_solver. }
  assert (Hae : ae ∈ ["UPREGULATES"; "DOWNREGULATES"]).
  { destruct Hopp as [[_ ->]|(_ & -> & _)]; set_solver. }
  assert (Hw : q2_where g d c (Rel c ce gn) (Rel a ae gn) = true).
  { unfold q2_where. cbn [r_type].
    destruct Hopp as [[-> ->]|(-> & -> & ->)]; reflexivity. }
  set (row := Q2Row d a c (Rel c ce gn) gn (Rel a ae gn)).
  assert (Hrow : row ∈ q2_rows g (Some queried_id)).
  { unfold q2_rows. apply list_elem_of_bind. exists (d, a). split.
    - apply list_elem_of_bind. exists (Rel c ce gn). split.
      + apply list_elem_of_bind. exists (Rel a ae gn). split.
        * cbn [fst snd r_src r_tgt]. rewrite Hw. left.
        * apply list_elem_of_In, filter_In. split; [by apply list_elem_of_In|].
          cbn [fst snd r_src r_tgt].
          rewrite !Nat.eqb_refl, (type_in_intro ae _ a gn Hae). done.
      + unfold q2_regulations. apply list_elem_of_In, filter_In.
        split; [by apply list_elem_of_In|]. cbn [r_src r_tgt].
        rewrite Hc, Hgn, (type_in_intro ce _ c gn Hce). done.
    - unfold q2_sites. apply list_elem_of_bind. exists d. split.
      + apply list_elem_of_bind. exists (Rel d "LOCALIZES_TO" a). split; [left|].
        unfold match_out. apply list_elem_of_In, filter_In.
        split; [by apply list_elem_of_In|]. cbn [r_src r_tgt].
        rewrite Nat.eqb_refl, Ha. done.
      + by apply node_sat_match. }
  destruct (group_by_key_has_item (prop_id g c, prop_name g c) row
              (map (λ row, ((prop_id g (q2_c row), prop_name g (q2_c row)), row))
                 (q2_rows g (Some queried_id)))) as (rows & Hgrp & Hin).
  { apply (list_elem_of_fmap_2
             (λ row, ((prop_id g (q2_c row), prop_name g (q2_c row)), row)) _ row Hrow). }
  rewrite query2_run. eexists _, (Treatment (prop_id g c) (prop_name g c)
                                    (distinct (map (mechanism_of g) rows))).
  split; [reflexivity|]. cbn [treatments compound_id compound_name mechanisms].
  split; [|split; [done|split; [done|]]].
  - unfold cypher_find_treatments. rewrite order_by_perm.
    apply (list_elem_of_fmap_2
             (λ grp, Treatment (fst (fst grp)) (snd (fst grp))
                       (distinct (map (mechanism_of g) (snd grp)))) _ _ Hgrp).
  - apply elem_of_distinct.
    apply (list_elem_of_fmap_2 (mechanism_of g) _ row Hin).
Qed.

Lemma query2_mechanisms_complete_witness :
  ∃ r t, fst (query2_find_treatments "Disease::D1" (scenario_db [])) = Ret r
    ∧ t ∈ treatments r
    ∧ compound_id t = prop_id (neo4j (scenario_db [])) 3
    ∧ compound_name t = prop_name (neo4j (scenario_db [])) 3
    ∧ Mechanism (prop_name (neo4j (scenario_db [])) 1) "UPREGULATES"
        (prop_name (neo4j (scenario_db [])) 4) "DOWNREGULATES" ∈ mechanisms t.
Proof.
  refine (query2_mechanisms_complete "Disease::D1" (scenario_db []) 0 4 3 1
            "UPREGULATES" "DOWNREGULATES" _ _ _ _ _ _ _ _).
  - vm_compute. reflexivity.
  - vm_compute. reflexivity.
  - vm_compute. reflexivity.
  - vm_compute. reflexivity.
  - apply (list_elem_of_lookup_2 _ 2). vm_compute. reflexivity.
  - apply (list_elem_of_lookup_2 _ 3). vm_compute. reflexivity.
  - apply (list_elem_of_lookup_2 _ 4). vm_compute. reflexivity.
  - left. split; reflexivity.
Defined.

Lemma group_by_key_one {K V : Type} `{EqDecision K} (k : K) (items : list (K * V)) :
  items ≠ [] → (∀ kv, kv ∈ items → fst kv = k) →
  group_by_key items = [(k, items.*2)].
Proof.
  induction items as [|[k' v] items IH] using rev_ind; [done|].
  intros _ Hkeys. rewrite group_by_key_snoc, fmap_app.
  assert (k' = k) as ->.
  { apply (Hkeys (k', v)). apply elem_of_app. right. left. }
  destruct items as [|kv items]; [done|].
  rewrite IH; [|done|].
  - cbn [setdefault_append]. by rewrite decide_True.
  - intros kv' Hkv'. apply Hkeys. apply elem_of_app. by left.
Qed.

Lemma elem_of_optional_intro {A : Type} (x : A) (l : list A) : x ∈ l → Some x ∈ optional l.
Proof.
  destruct l as [|y l]; [by intros ?%elem_of_nil|].
  intros Hin. by apply (list_elem_of_fmap_2 Some (y :: l)).
Qed.

Lemma q1_row_intro (g : graph) (disease_id : string) (d : nat) (r gr la : option rel) :
  is_disease g disease_id d →
  r ∈ optional (match_in g d ["TREATS"; "PALLIATES"] "Compound") →
  gr ∈ optional (match_out g d ["ASSOCIATES"; "UPREGULATES"; "DOWNREGULATES"] "Gene") →
  la ∈ optional (match_out g d ["LOCALIZES_TO"] "Anatomy") →
  Q1Row d r gr la ∈ q1_rows g (Some disease_id).
Proof.
  intros Hd Hr Hgr Hla. unfold q1_rows.
  apply list_elem_of_bind. exists d. split; [|by apply node_sat_match].
  apply list_elem_of_bind. exists r. split; [|done].
  apply list_elem_of_bind. exists gr. split; [|done].
  apply list_elem_of_bind. exists la. split; [left|done].
Qed.

Lemma snd_keyed {K V : Type} (key : V → K) (l : list V) :
  (map (λ x, (key x, x)) l).*2 = l.
Proof. induction l as [|x l IH]; [done|]. cbn. by rewrite IH. Qed.

(** With a single [Disease] node of the id, the record of the disease
    statement aggregates all the rows. *)
Lemma disease_doc_unique (g : graph) (disease_id : string) (d : nat) :
  is_disease g disease_id d →
  (∀ d', is_disease g disease_id d' → d' = d) →
  disease_doc g (Some disease_id)
  = Some (DiseaseInfo (Some disease_id) (prop_name g d)
            (List.filter (λ dm, is_not_None (dm_id dm))
               (distinct (map (drug_of g) (q1_rows g (Some disease_id)))))
            (List.filter (λ gm, is_not_None (gm_id gm))
               (distinct (map (gene_of g) (q1_rows g (Some disease_id)))))
            (List.filter (λ lm, is_not_None (lm_id lm))
               (distinct (map (loc_of g) (q1_rows g (Some disease_id)))))).
Proof.
  intros Hd Huniq. unfold disease_doc, cypher_disease_info.
  rewrite (group_by_key_one (prop_name g d)).
  - by rewrite snd_keyed.
  - destruct (optional_inhabited (match_in g d ["TREATS"; "PALLIATES"] "Compound"))
      as (r & Hr).
    destruct (optional_inhabited
                (match_out g d ["ASSOCIATES"; "UPREGULATES"; "DOWNREGULATES"] "Gene"))
      as (gr & Hgr).
    destruct (optional_inhabited (match_out g d ["LOCALIZES_TO"] "Anatomy")) as (la & Hla).
    pose proof (q1_row_intro g disease_id d r gr la Hd Hr Hgr Hla) as Hrow.
    intros Hnil. apply (f_equal (fmap snd)) in Hnil. rewrite snd_keyed in Hnil.
    rewrite Hnil in Hrow. by apply elem_of_nil in Hrow.
  - intros kv (row & -> & Hrow)%list_elem_of_fmap. cbn [fst].
    apply elem_of_q1_rows in Hrow as (Hd' & _). by rewrite (Huniq _ Hd').
Qed.

(** When a single [Disease] node carries the id, the direct mode of query 1
    returns its name and misses nothing: every [Compound] node with an id
    that [TREATS] or [PALLIATES] it is in [drugs], every [Gene] node with an
    id it is related to by [ASSOCIATES], [UPREGULATES] or [DOWNREGULATES] is
    in [genes], and every [Anatomy] node with an id it is [LOCALIZES_TO] is
    in [locations]. *)
Theorem query1_direct_complete (disease_id : string) (s : HetioNetDB) (d : nat) :
  is_disease (neo4j s) disease_id d →
  (∀ d', is_disease (neo4j s) disease_id d' → d' = d) →
  ∃ r, fst (query1_disease_info disease_id false s) = Ret (Some r)
    ∧ doc_name (base r) = prop_name (neo4j s) d
    ∧ (∀ c ty, Rel c ty d ∈ g_rels (neo4j s) → ty ∈ ["TREATS"; "PALLIATES"] →
         node_sat (neo4j s) (has_label "Compound") c = true →
         is_Some (prop_id (neo4j s) c) →
         DrugMap (prop_id (neo4j s) c) (prop_name (neo4j s) c) (Some ty)
         ∈ doc_drugs (base r))
    ∧ (∀ gn ty, Rel d ty gn ∈ g_rels (neo4j s) →
         ty ∈ ["ASSOCIATES"; "UPREGULATES"; "DOWNREGULATES"] →
         node_sat (neo4j s) (has_label "Gene") gn = true →
         is_Some (prop_id (neo4j s) gn) →
         GeneMap (prop_id (neo4j s) gn) (prop_name (neo4j s) gn) (Some ty)
         ∈ doc_genes (base r))
    ∧ (∀ a, Rel d "LOCALIZES_TO" a ∈ g_rels (neo4j s) →
         node_sat (neo4j s) (has_label "Anatomy") a = true →
         is_Some (prop_id (neo4j s) a) →
         LocMap (prop_id (neo4j s) a) (prop_name (neo4j s) a) ∈ doc_locations (base r)).
Proof.
  intros Hd Huniq. set (g := neo4j s) in *.
  rewrite query1_direct_run. fold g. rewrite (disease_doc_unique g disease_id d Hd Huniq).
  eexists. split; [reflexivity|]. cbn [base doc_name doc_drugs doc_genes doc_locations].
  split; [done|].
  destruct (optional_inhabited (match_in g d ["TREATS"; "PALLIATES"] "Compound"))
    as (r0 & Hr0).
  destruct (optional_inhabited
              (match_out g d ["ASSOCIATES"; "UPREGULATES"; "DOWNREGULATES"] "Gene"))
    as (gr0 & Hgr0).
  destruct (optional_inhabited (match_out g d ["LOCALIZES_TO"] "Anatomy")) as (la0 & Hla0).
  split; [|split].
  - intros c ty Hrel Hty Hc [cid Hcid].
    apply elem_of_filter_bool. split; [|cbn; by rewrite Hcid].
    apply elem_of_distinct.
    apply (list_elem_of_fmap_2 (drug_of g) _ (Q1Row d (Some (Rel c ty d)) gr0 la0)).
    apply q1_row_intro; try done. apply elem_of_optional_intro.
    unfold match_in. apply list_elem_of_In, filter_In.
    split; [by apply list_elem_of_In|]. cbn [r_src r_tgt].
    rewrite Nat.eqb_refl, (type_in_intro ty _ c d Hty), Hc. done.
  - intros gn ty Hrel Hty Hgn [gid Hgid].
    apply elem_of_filter_bool. split; [|cbn; by rewrite Hgid].
    apply elem_of_distinct.
    apply (list_elem_of_fmap_2 (gene_of g) _ (Q1Row d r0 (Some (Rel d ty gn)) la0)).
    apply q1_row_intro; try done. apply elem_of_optional_intro.
    unfold match_out. apply list_elem_of_In, filter_In.
    split; [by apply list_elem_of_In|]. cbn [r_src r_tgt].
    rewrite Nat.eqb_refl, (type_in_intro ty _ d gn Hty), Hgn. done.
  - intros a Hrel Ha [aid Haid].
    apply elem_of_filter_bool. split; [|cbn; by rewrite Haid].
    apply elem_of_distinct.
    apply (list_elem_of_fmap_2 (loc_of g) _
             (Q1Row d r0 gr0 (Some (Rel d "LOCALIZES_TO" a)))).
    apply q1_row_intro; try done. apply elem_of_optional_intro.
    unfold match_out. apply list_elem_of_In, filter_In.
    split; [by apply list_elem_of_In|]. cbn [r_src r_tgt].
    rewrite Nat.eqb_refl, Ha. done.
Qed.

Lemma query1_direct_complete_witness :
  ∃ r, fst (query1_disease_info "Disease::D1" false (scenario_db [])) = Ret (Some r)
    ∧ doc_name (base r) = prop_name (neo4j (scenario_db [])) 0.
Proof.
  assert (Hd : is_disease (neo4j (scenario_db [])) "Disease::D1" 0)
    by (vm_compute; reflexivity).
  assert (Huniq : ∀ d', is_disease (neo4j (scenario_db [])) "Disease::D1" d' → d' = 0).
  { clear Hd. intros d' Hd'. unfold is_disease in Hd'.
    destruct d' as [|[|[|[|[|d']]]]]; [reflexivity|..]; vm_compute in Hd'; discriminate Hd'. }
  destruct (query1_direct_complete "Disease::D1" (scenario_db []) 0 Hd Huniq)
    as (r & Hr & Hname & _).
  exists r. split; [exact Hr|exact Hname].
Defined.

(** ** What node loading reports and creates, kind by kind *)

(** Whatever kinds the rows mix, as long as each is a plain Cypher name,
    node loading returns, adds to each label as many nodes as there are rows
    whose kind prints as that label, and for the kind of every row it prints
    the line [Created N kind nodes] with [N] the number of rows of that
    kind. *)
Theorem load_nodes_counts (nodes_file : string) (reader : list row) (s : HetioNetDB)
    (r : row) :
  Forall kind_is_name reader →
  r ∈ reader →
  fst (load_nodes nodes_file reader s) = Ret tt
  ∧ (∀ label, count_kind (neo4j (run (load_nodes nodes_file reader) s)) label
            = count_kind (neo4j s) label
              + length (List.filter (λ r', has_label label (node_of_row r')) reader))
  ∧ "Created " +:+ pretty (length (rows_with_kind (fst (node_key r)) reader)) +:+ " "
      +:+ py_str (fst (node_key r)) +:+ " nodes"
    ∈ stdout (run (load_nodes nodes_file reader) s).
Proof.
  intros Hkinds Hr. unfold run. rewrite (load_nodes_run _ _ _ Hkinds).
  cbn [fst snd neo4j stdout]. split; [done|]. split.
  - intros label. unfold count_kind. rewrite !match_nodes_length. cbn [g_nodes].
    rewrite List.filter_app, length_app. f_equal.
    rewrite (filter_length_perm _ _ _ (created_nodes_perm reader)).
    by rewrite filter_map_comm, length_map.
  - assert (Hk : fst (node_key r) ∈ (group_by_key (map node_key reader)).*1).
    { apply group_by_key_keys. apply list_elem_of_fmap_2. by apply list_elem_of_fmap_2. }
    apply list_elem_of_fmap in Hk as ([k nodes] & Hkr & Hin). cbn [fst] in Hkr.
    rewrite !elem_of_app. right. right. left.
    assert (Hlen : length nodes = length (rows_with_kind k reader)).
    { rewrite (group_by_key_group _ _ _ Hin).
      unfold rows_with_kind. by rewrite filter_map_comm, length_fmap, length_map. }
    rewrite Hkr, <- Hlen.
    apply (list_elem_of_fmap_2 node_report _ _ Hin).
Qed.

Lemma load_nodes_counts_witness :
  "Created 2 Compound nodes"
  ∈ stdout (run (load_nodes "nodes.tsv" scenario_nodes) db0).
Proof.
  apply (load_nodes_counts "nodes.tsv" scenario_nodes db0
           (node_row "Compound::C1" "DrugA" "Compound")).
  - repeat constructor; vm_compute; reflexivity.
  - right. right. left.
Defined.
